(** * Navigation-manifest merge, version parsing and page rendering of
    pixeltable-doctools, embedded in Rocq.

    The Python sources live in [src/doctools] and [src/pixeltable_doctools].
    Python values are modelled as follows:
    - a JSON document loaded with [json.load] is a [json] tree; a Python dict
      is an association list that keeps insertion order (keys unique);
    - JSON numbers are integers ([Z]); floats never occur in the manifests;
    - a Python [str] is a Rocq [string] (ASCII);
    - an exception is [Raise cls] where [cls] is the name of its class. *)

From Stdlib Require Import String Ascii List Bool ZArith Lia Sorted Permutation.
Import ListNotations.
Open Scope list_scope.
Open Scope string_scope.
Set Warnings "-register-all".

(** ** Exceptions *)

Inductive Res (A : Type) : Type :=
| Ok (a : A)
| Raise (cls : string).
Arguments Ok {A} a.
Arguments Raise {A} cls.

Definition res_bind {A B} (c : Res A) (k : A -> Res B) : Res B :=
  match c with
  | Ok a => k a
  | Raise e => Raise e
  end.

Notation "x <- c ;; k" := (res_bind c (fun x => k))
  (at level 61, c at next level, right associativity).
Notation "' p <- c ;; k" := (res_bind c (fun x => match x with p => k end))
  (at level 61, p pattern, c at next level, right associativity).

(** [for x in l: f(x)] collecting results, stopping at the first exception. *)
Fixpoint res_map {A B} (f : A -> Res B) (l : list A) : Res (list B) :=
  match l with
  | [] => Ok []
  | x :: r => y <- f x ;; ys <- res_map f r ;; Ok (y :: ys)
  end.

(** [[x for x in l if p(x)]]. *)
Fixpoint res_filter {A} (p : A -> Res bool) (l : list A) : Res (list A) :=
  match l with
  | [] => Ok []
  | x :: r => b <- p x ;; ys <- res_filter p r ;; Ok (if b then x :: ys else ys)
  end.

(** ** Characters and Python string methods *)

Definition nl : ascii := "010"%char.
Definition nls : string := String nl EmptyString.

Definition is_digit (c : ascii) : bool :=
  let n := nat_of_ascii c in (Nat.leb 48 n) && (Nat.leb n 57).

(** [str.isspace] on ASCII: tab, LF, VT, FF, CR, the separators 28-31 and space. *)
Definition is_space (c : ascii) : bool :=
  let n := nat_of_ascii c in
  ((Nat.leb 9 n) && (Nat.leb n 13)) || ((Nat.leb 28 n) && (Nat.leb n 32)).

Definition is_alnum_char (c : ascii) : bool :=
  let n := nat_of_ascii c in
  is_digit c || ((Nat.leb 65 n) && (Nat.leb n 90)) || ((Nat.leb 97 n) && (Nat.leb n 122)).

(** Longest prefix of digits ([\d+] is greedy) and the rest. *)
Fixpoint span_digits (s : string) : string * string :=
  match s with
  | String c r =>
      if is_digit c then let (d, t) := span_digits r in (String c d, t)
      else (EmptyString, s)
  | EmptyString => (EmptyString, EmptyString)
  end.

Fixpoint lstrip (s : string) : string :=
  match s with
  | String c r => if is_space c then lstrip r else s
  | EmptyString => EmptyString
  end.

Fixpoint rev_string (s : string) : string :=
  match s with
  | String c r => rev_string r ++ String c EmptyString
  | EmptyString => EmptyString
  end.

(** [str.strip()]. *)
Definition py_strip (s : string) : string :=
  rev_string (lstrip (rev_string (lstrip s))).

(** [s.startswith(p)]. *)
Definition py_startswith (s p : string) : bool := String.prefix p s.

(** [s.split(sep)] for a one-character separator. *)
Fixpoint py_split_char (sep : ascii) (s : string) : list string :=
  match s with
  | EmptyString => [EmptyString]
  | String c r =>
      if Ascii.eqb c sep then EmptyString :: py_split_char sep r
      else match py_split_char sep r with
           | w :: ws => String c w :: ws
           | [] => [String c EmptyString]
           end
  end.

(** ["sep".join(l)]. *)
Definition py_join (sep : string) (l : list string) : string := String.concat sep l.

(** [s.replace(old, new)] for a non-empty [old]: the string is scanned from
    the left; at an occurrence of [old], [new] is emitted and the [skip]
    following characters (the rest of the occurrence) are consumed. *)
Fixpoint replace_go (old new s : string) (skip : nat) : string :=
  match s with
  | EmptyString => EmptyString
  | String c r =>
      match skip with
      | S k => replace_go old new r k
      | O =>
          if String.prefix old s
          then new ++ replace_go old new r (String.length old - 1)
          else String c (replace_go old new r 0)
      end
  end.

(** [str.replace] with an empty [old] inserts [new] around every character. *)
Fixpoint insert_everywhere (new s : string) : string :=
  match s with
  | EmptyString => new
  | String c r => new ++ String c (insert_everywhere new r)
  end.

Definition py_replace (old new s : string) : string :=
  match old with
  | EmptyString => insert_everywhere new s
  | _ => replace_go old new s 0
  end.

(** [int(s)] for a string: surrounding whitespace, an optional sign, decimal
    digits with single underscores between them; [None] is [ValueError]. *)
Fixpoint digits_value (acc : Z) (prev_digit : bool) (s : string) : option Z :=
  match s with
  | EmptyString => if prev_digit then Some acc else None
  | String c r =>
      if is_digit c then
        digits_value (acc * 10 + Z.of_nat (nat_of_ascii c - 48)) true r
      else if Ascii.eqb c "_"%char then
        if prev_digit then
          match r with
          | String d _ => if is_digit d then digits_value acc false r else None
          | EmptyString => None
          end
        else None
      else None
  end.

Definition py_int (s : string) : option Z :=
  match py_strip s with
  | String c r =>
      if Ascii.eqb c "-"%char then option_map Z.opp (digits_value 0 false r)
      else if Ascii.eqb c "+"%char then digits_value 0 false r
      else digits_value 0 false (String c r)
  | EmptyString => None
  end.

(** ** Version parser: [parse_version] of [deploy/deploy_docs_stage.py] *)

(** [re.match(r'(v\d+\.\d+)', s)]: the matched group, if any.  [\d+] is
    greedy and must be followed by [.], so no backtracking is needed. *)
Definition re_match_v_major_minor (s : string) : option string :=
  match s with
  | String c r =>
      if Ascii.eqb c "v"%char then
        let (d1, r1) := span_digits r in
        match d1, r1 with
        | String _ _, String dot r2 =>
            if Ascii.eqb dot "."%char then
              let (d2, _) := span_digits r2 in
              match d2 with
              | String _ _ => Some ("v" ++ d1 ++ "." ++ d2)
              | EmptyString => None
              end
            else None
        | _, _ => None
        end
      else None
  | EmptyString => None
  end.

Definition parse_version (version : string) : Res (string * string) :=
  let version := if py_startswith version "v" then version else "v" ++ version in
  match re_match_v_major_minor version with
  | None => Raise "ValueError"
  | Some major_minor_prefix => Ok (version, major_minor_prefix)
  end.

(** ** JSON values and the Python dict/list operations the scripts use *)

Inductive json : Type :=
| JNull
| JBool (b : bool)
| JNum (n : Z)
| JStr (s : string)
| JArr (l : list json)
| JObj (kvs : list (string * json)).

(** Structural equality, as the bytes written by [json.dump] compare. *)
Fixpoint json_eqb (a b : json) : bool :=
  match a, b with
  | JNull, JNull => true
  | JBool x, JBool y => Bool.eqb x y
  | JNum x, JNum y => Z.eqb x y
  | JStr x, JStr y => String.eqb x y
  | JArr xs, JArr ys =>
      (fix go (xs ys : list json) : bool :=
         match xs, ys with
         | [], [] => true
         | x :: xs', y :: ys' => json_eqb x y && go xs' ys'
         | _, _ => false
         end) xs ys
  | JObj xs, JObj ys =>
      (fix go (xs ys : list (string * json)) : bool :=
         match xs, ys with
         | [], [] => true
         | (k, x) :: xs', (k', y) :: ys' => String.eqb k k' && json_eqb x y && go xs' ys'
         | _, _ => false
         end) xs ys
  | _, _ => false
  end.

Fixpoint assoc_lookup (k : string) (kvs : list (string * json)) : option json :=
  match kvs with
  | [] => None
  | (k', v) :: r => if String.eqb k k' then Some v else assoc_lookup k r
  end.

(** [d[k] = v]: an existing key keeps its position, a new key goes last. *)
Fixpoint assoc_set (k : string) (v : json) (kvs : list (string * json)) : list (string * json) :=
  match kvs with
  | [] => [(k, v)]
  | (k', v') :: r => if String.eqb k k' then (k', v) :: r else (k', v') :: assoc_set k v r
  end.

(** [v == s] for a string literal [s]. *)
Definition py_eq_str (v : json) (s : string) : bool :=
  match v with
  | JStr t => String.eqb t s
  | _ => false
  end.

(** Python truthiness. *)
Definition truthy (v : json) : bool :=
  match v with
  | JNull => false
  | JBool b => b
  | JNum n => negb (Z.eqb n 0)
  | JStr s => negb (String.eqb s "")
  | JArr l => negb (Nat.eqb (List.length l) 0)
  | JObj kvs => negb (Nat.eqb (List.length kvs) 0)
  end.

(** [d.get(k, default)]: only dicts have [get]. *)
Definition py_get (d : json) (k : string) (default : json) : Res json :=
  match d with
  | JObj kvs => Ok (match assoc_lookup k kvs with Some v => v | None => default end)
  | _ => Raise "AttributeError"
  end.

(** [d[k]] with a string key. *)
Definition py_getitem (d : json) (k : string) : Res json :=
  match d with
  | JObj kvs => match assoc_lookup k kvs with Some v => Ok v | None => Raise "KeyError" end
  | _ => Raise "TypeError"
  end.

(** [d[k] = v] with a string key. *)
Definition py_setitem (d : json) (k : string) (v : json) : Res json :=
  match d with
  | JObj kvs => Ok (JObj (assoc_set k v kvs))
  | _ => Raise "TypeError"
  end.

Fixpoint chars_of (s : string) : list json :=
  match s with
  | EmptyString => []
  | String c r => JStr (String c EmptyString) :: chars_of r
  end.

(** [k in d] with a string [k]. *)
Definition py_in (k : string) (d : json) : Res bool :=
  match d with
  | JObj kvs => Ok (match assoc_lookup k kvs with Some _ => true | None => false end)
  | JArr l => Ok (existsb (fun x => py_eq_str x k) l)
  | JStr s => Ok (match String.index 0 k s with Some _ => true | None => false end)
  | _ => Raise "TypeError"
  end.

(** [for x in v]: lists yield their items, dicts their keys, strings their
    characters; other values are not iterable. *)
Definition py_iter (v : json) : Res (list json) :=
  match v with
  | JArr l => Ok l
  | JObj kvs => Ok (map (fun kv => JStr (fst kv)) kvs)
  | JStr s => Ok (chars_of s)
  | _ => Raise "TypeError"
  end.

(** [l[0]]. *)
Definition py_index0 (v : json) : Res json :=
  match v with
  | JArr (x :: _) => Ok x
  | JArr [] => Raise "IndexError"
  | JStr (String c _) => Ok (JStr (String c EmptyString))
  | JStr EmptyString => Raise "IndexError"
  | JObj _ => Raise "KeyError"
  | _ => Raise "TypeError"
  end.

(** ** Sorting: Python's [sorted(..., key=k, reverse=True)]

    Python's sort is stable, and [reverse=True] keeps equal elements in
    their original order.  The list of (key, item) pairs is sorted by
    insertion: an item goes after every item whose key is greater or equal. *)

Section StableSort.
Context {K A : Type} (geb : K -> K -> bool).

Fixpoint insert_desc (x : K * A) (l : list (K * A)) : list (K * A) :=
  match l with
  | [] => [x]
  | y :: r => if geb (fst y) (fst x) then y :: insert_desc x r else x :: y :: r
  end.

Definition stable_sort_desc (l : list (K * A)) : list (K * A) :=
  fold_left (fun acc x => insert_desc x acc) l [].
End StableSort.

(** Python's comparisons on JSON values.  [==] never raises: numbers and
    booleans compare as integers ([True == 1]), lists item by item, dicts
    by their keys and values in any order; values of other types differ. *)
Definition num_of (v : json) : option Z :=
  match v with
  | JNum n => Some n
  | JBool b => Some (if b then 1%Z else 0%Z)
  | _ => None
  end.

Fixpoint py_eq (a b : json) {struct a} : bool :=
  match a, b with
  | JNull, JNull => true
  | JStr x, JStr y => String.eqb x y
  | JArr xs, JArr ys =>
      (fix go (xs ys : list json) : bool :=
         match xs, ys with
         | [], [] => true
         | x :: xs', y :: ys' => py_eq x y && go xs' ys'
         | _, _ => false
         end) xs ys
  | JObj xs, JObj ys =>
      Nat.eqb (List.length xs) (List.length ys)
      && (fix go (xs : list (string * json)) : bool :=
            match xs with
            | [] => true
            | (k, x) :: xs' =>
                match assoc_lookup k ys with Some y => py_eq x y | None => false end && go xs'
            end) xs
  | _, _ =>
      match num_of a, num_of b with
      | Some x, Some y => Z.eqb x y
      | _, _ => false
      end
  end.

(** [a < b]: strings by code points, numbers (and booleans) as integers,
    lists lexicographically (the first items that are not [==] decide with
    [<]; when one list is a prefix of the other the shorter is smaller);
    [None], dicts and values of different types raise [TypeError]. *)
Fixpoint py_lt (a b : json) {struct a} : Res bool :=
  match a, b with
  | JStr x, JStr y => Ok (match String.compare x y with Lt => true | _ => false end)
  | JArr xs, JArr ys =>
      (fix go (xs ys : list json) : Res bool :=
         match xs, ys with
         | [], [] => Ok false
         | [], _ :: _ => Ok true
         | _ :: _, [] => Ok false
         | x :: xs', y :: ys' => if py_eq x y then go xs' ys' else py_lt x y
         end) xs ys
  | _, _ =>
      match num_of a, num_of b with
      | Some x, Some y => Ok (Z.ltb x y)
      | _, _ => Raise "TypeError"
      end
  end.

Fixpoint all_some {X} (l : list (option X)) : option (list X) :=
  match l with
  | [] => Some []
  | None :: _ => None
  | Some x :: r => option_map (cons x) (all_some r)
  end.

Definition py_comparable (a b : json) : bool :=
  match py_lt a b with Ok _ => true | Raise _ => false end.

(** The order of the sort with [reverse=True]: [a] may stay before [b]
    when [not a < b]. *)
Definition py_key_geb (a b : json) : bool :=
  match py_lt a b with Ok true => false | _ => true end.

(** [sorted(l, key=k, reverse=True)] (and [l.sort(...)]): every key is
    computed first; a list of two or more items whose keys are pairwise
    comparable is sorted stably; when two keys cannot be compared Python
    raises [TypeError] (no key comparable with both lies between them in the
    order, so the sort compares them). *)
Definition sorted_by_json_key_desc (key : json -> Res json) (l : list json) : Res (list json) :=
  keys <- res_map key l ;;
  match l with
  | [] | [_] => Ok l
  | _ =>
      if forallb (fun a => forallb (fun b => py_comparable a b) keys) keys
      then Ok (map snd (stable_sort_desc py_key_geb (combine keys l)))
      else Raise "TypeError"
  end.

(** ** [_sort_dropdowns] of [mintlifier/docsjson_updater.py] *)

(** The sort key: [(float('inf'),)] for ["latest"], else a tuple of ints. *)
Inductive vkey : Type :=
| VInf
| VTup (parts : list Z).

(** Python tuple comparison [a >= b] on these keys. *)
Fixpoint tup_geb (a b : list Z) : bool :=
  match a, b with
  | _, [] => true
  | [], _ :: _ => false
  | x :: a', y :: b' => if Z.eqb x y then tup_geb a' b' else Z.gtb x y
  end.

Definition vkey_geb (a b : vkey) : bool :=
  match a, b with
  | VInf, _ => true
  | VTup _, VInf => false
  | VTup x, VTup y => tup_geb x y
  end.

(** The inner [parse_version(dropdown)]: [version_str.startswith] sits
    outside the [try], so a non-string key raises [AttributeError]. *)
Definition dropdown_vkey (dropdown : json) : Res vkey :=
  version_str <- py_get dropdown "dropdown" (JStr "") ;;
  if py_eq_str version_str "latest" then Ok VInf else
  match version_str with
  | JStr s =>
      let s := if py_startswith s "v" then substring 1 (String.length s) s else s in
      match all_some (map py_int (py_split_char "."%char s)) with
      | Some parts => Ok (VTup parts)
      | None => Ok (VTup [0%Z])
      end
  | _ => Raise "AttributeError"
  end.

Definition keyed_dropdown (d : json) : Res (vkey * json) :=
  k <- dropdown_vkey d ;; Ok (k, d).

Definition sort_dropdowns (dropdowns : list json) : Res (list json) :=
  keyed <- res_map keyed_dropdown dropdowns ;;
  Ok (map snd (stable_sort_desc vkey_geb keyed)).

(** ** [find_sdk_tab] (the same code in [deploy.py] and in [merge_docs_json]) *)

Definition sdk_tab_name : string := "Pixeltable SDK".

Fixpoint first_tab_named (name : string) (tabs : list json) : Res (option json) :=
  match tabs with
  | [] => Ok None
  | tab :: r =>
      t <- py_get tab "tab" JNull ;;
      if py_eq_str t name then Ok (Some tab) else first_tab_named name r
  end.

Definition find_sdk_tab (docs : json) : Res (option json) :=
  has_nav <- py_in "navigation" docs ;;
  if has_nav then
    nav <- py_getitem docs "navigation" ;;
    has_tabs <- py_in "tabs" nav ;;
    if has_tabs then
      tabs <- py_getitem nav "tabs" ;;
      l <- py_iter tabs ;;
      first_tab_named sdk_tab_name l
    else Ok None
  else Ok None.

(** [for i, tab in enumerate(docs['navigation']['tabs']): if tab.get('tab') ==
    'Pixeltable SDK': <update tab>; break], written back into [docs]. *)
Fixpoint update_first_sdk (f : json -> Res json) (tabs : list json) : Res (list json) :=
  match tabs with
  | [] => Ok []
  | tab :: r =>
      t <- py_get tab "tab" JNull ;;
      if py_eq_str t sdk_tab_name then (tab' <- f tab ;; Ok (tab' :: r))
      else (r' <- update_first_sdk f r ;; Ok (tab :: r'))
  end.

Definition update_sdk_tab (f : json -> Res json) (docs : json) : Res json :=
  nav <- py_getitem docs "navigation" ;;
  tabs <- py_getitem nav "tabs" ;;
  match tabs with
  | JArr l =>
      l' <- update_first_sdk f l ;;
      nav' <- py_setitem nav "tabs" (JArr l') ;;
      py_setitem docs "navigation" nav'
  | _ => Raise "TypeError"
  end.

(** SDK tab's dropdown list of a manifest, for stating results. *)
Definition sdk_dropdowns (docs : json) : option (list json) :=
  match find_sdk_tab docs with
  | Ok (Some (JObj kvs)) =>
      match assoc_lookup "dropdowns" kvs with Some (JArr l) => Some l | _ => None end
  | _ => None
  end.

Definition dropdown_key (d : json) : option string :=
  match d with
  | JObj kvs => match assoc_lookup "dropdown" kvs with Some (JStr s) => Some s | _ => None end
  | _ => None
  end.

(** ** [merge_docs_json] of [deploy/deploy_docs_stage.py] *)

(** A Python dict keyed by JSON scalars, in insertion order.  [1] and
    [True] hash alike, so numbers and booleans are compared as integers;
    lists and dicts are unhashable. *)
Definition hash_key (v : json) : Res json :=
  match v with
  | JBool b => Ok (JNum (if b then 1%Z else 0%Z))
  | JArr _ | JObj _ => Raise "TypeError"
  | _ => Ok v
  end.

Fixpoint pydict_set (k v : json) (d : list (json * json)) : list (json * json) :=
  match d with
  | [] => [(k, v)]
  | (k', v') :: r => if json_eqb k k' then (k', v) :: r else (k', v') :: pydict_set k v r
  end.

(** [for dropdown in ds: versions[dropdown.get('dropdown')] = dropdown]. *)
Fixpoint collect_versions (versions : list (json * json)) (ds : list json)
  : Res (list (json * json)) :=
  match ds with
  | [] => Ok versions
  | d :: r =>
      k <- py_get d "dropdown" JNull ;;
      hk <- hash_key k ;;
      collect_versions (pydict_set hk d versions) r
  end.

Definition merge_docs_json (production_docs local_docs generated_docs : json) : Res json :=
  let result := local_docs in
  prod_sdk_tab <- find_sdk_tab production_docs ;;
  gen_sdk_tab <- find_sdk_tab generated_docs ;;
  local_sdk_tab <- find_sdk_tab result ;;
  match gen_sdk_tab, local_sdk_tab with
  | Some gen, Some loc =>
      if truthy gen && truthy loc then
        result <- update_sdk_tab (fun _ => Ok gen) result ;;
        has_dd <- (match prod_sdk_tab with
                   | Some prod => if truthy prod then py_in "dropdowns" prod else Ok false
                   | None => Ok false
                   end) ;;
        match prod_sdk_tab with
        | Some prod =>
            if has_dd then
              gen_dropdowns <- py_get gen "dropdowns" (JArr []) ;;
              prod_dropdowns <- py_get prod "dropdowns" (JArr []) ;;
              pl <- py_iter prod_dropdowns ;;
              versions <- collect_versions [] pl ;;
              gl <- py_iter gen_dropdowns ;;
              versions <- collect_versions versions gl ;;
              sorted_versions <-
                sorted_by_json_key_desc (fun d => py_get d "dropdown" (JStr ""))
                                        (map snd versions) ;;
              update_sdk_tab (fun tab => py_setitem tab "dropdowns" (JArr sorted_versions)) result
            else Ok result
        | None => Ok result
        end
      else Ok result
  | _, _ => Ok result
  end.

(** ** [DocsJsonUpdater.update_navigation] of [mintlifier/docsjson_updater.py] *)

(** [not d.get("dropdown", "").startswith(major_minor_prefix)]. *)
Definition keep_dropdown (major_minor_prefix : string) (d : json) : Res bool :=
  v <- py_get d "dropdown" (JStr "") ;;
  match v with
  | JStr s => Ok (negb (py_startswith s major_minor_prefix))
  | _ => Raise "AttributeError"
  end.

(** Lines 61-85: evict the dropdowns sharing the new version's major.minor
    prefix, append the new dropdown, sort. *)
Definition merge_new_dropdown (existing_dropdowns navigation_structure : json)
  : Res (json * list json) :=
  nds <- py_getitem navigation_structure "dropdowns" ;;
  new_dropdown <- py_index0 nds ;;
  new_version <- py_getitem new_dropdown "dropdown" ;;
  major_minor_prefix <- (match new_version with
                         | JStr s => Ok (re_match_v_major_minor s)
                         | _ => Raise "TypeError"
                         end) ;;
  kept <- (match major_minor_prefix with
           | Some p =>
               l <- py_iter existing_dropdowns ;;
               res_filter (keep_dropdown p) l
           | None =>
               match existing_dropdowns with
               | JArr l => Ok l
               | _ => Raise "AttributeError"
               end
           end) ;;
  sorted <- sort_dropdowns (kept ++ [new_dropdown])%list ;;
  Ok (new_dropdown, sorted).

(** The loop of lines 45-53: the first tab named [sdk_tab_name], or the
    first old "API Reference" tab that has an [href]. *)
Fixpoint find_sdk_index (name : string) (i : nat) (tabs : list json) : Res (option nat) :=
  match tabs with
  | [] => Ok None
  | tab :: r =>
      t <- py_get tab "tab" JNull ;;
      if py_eq_str t name then Ok (Some i) else
      href <- (if py_eq_str t "API Reference" then py_get tab "href" JNull else Ok JNull) ;;
      if py_eq_str t "API Reference" && truthy href then Ok (Some i)
      else find_sdk_index name (S i) r
  end.

Fixpoint list_set {X} (i : nat) (x : X) (l : list X) : list X :=
  match l, i with
  | [], _ => []
  | _ :: r, O => x :: r
  | y :: r, S j => y :: list_set j x r
  end.

(** [update_navigation] on the loaded [docs_config] ([JNull] when [load()]
    was not called); returns the updated [docs_config]. *)
Definition update_navigation (sdk_tab_name : string) (docs_config navigation_structure : json)
  : Res json :=
  if negb (truthy docs_config) then Raise "ValueError" else
  has_nav <- py_in "navigation" docs_config ;;
  docs_config <- (if has_nav then Ok docs_config
                  else py_setitem docs_config "navigation" (JObj [("tabs", JArr [])])) ;;
  nav <- py_getitem docs_config "navigation" ;;
  has_tabs <- py_in "tabs" nav ;;
  nav <- (if has_tabs then Ok nav else py_setitem nav "tabs" (JArr [])) ;;
  tabs <- py_getitem nav "tabs" ;;
  tab_list <- py_iter tabs ;;
  sdk_tab_index <- find_sdk_index sdk_tab_name 0 tab_list ;;
  new_tabs <-
    (match tabs, sdk_tab_index with
     | JArr l, Some i =>
         let existing_tab := nth i l JNull in
         c1 <- py_in "dropdowns" existing_tab ;;
         c2 <- (if c1 then py_in "dropdowns" navigation_structure else Ok false) ;;
         if c1 && c2 then
           existing_dropdowns <- py_getitem existing_tab "dropdowns" ;;
           '(_, sorted) <- merge_new_dropdown existing_dropdowns navigation_structure ;;
           existing_tab <- py_setitem existing_tab "dropdowns" (JArr sorted) ;;
           new_tab_name <- py_getitem navigation_structure "tab" ;;
           existing_tab <- py_setitem existing_tab "tab" new_tab_name ;;
           Ok (list_set i existing_tab l)
         else Ok (list_set i navigation_structure l)
     | JArr l, None => Ok (l ++ [navigation_structure])%list
     | _, None => Raise "AttributeError"
     | _, Some _ => Raise "TypeError"
     end) ;;
  nav <- py_setitem nav "tabs" (JArr new_tabs) ;;
  py_setitem docs_config "navigation" nav.

(** ** [merge_sdk_dropdowns] of [deploy.py] *)

(** The attributes of class [DocsJsonUpdater]; looking up any other name on
    the class raises [AttributeError]. *)
Definition docs_json_updater_attrs : list string :=
  ["__init__"; "load"; "update_navigation"; "save"; "_sort_dropdowns"; "validate_structure"].

Definition docs_json_updater_getattr (name : string) : Res unit :=
  if existsb (String.eqb name) docs_json_updater_attrs then Ok tt else Raise "AttributeError".

(** [{dropdown['dropdown']: dropdown for dropdown in ds}] merged into [acc]. *)
Fixpoint index_by_key (acc : list (json * json)) (ds : list json) : Res (list (json * json)) :=
  match ds with
  | [] => Ok acc
  | d :: r =>
      k <- py_getitem d "dropdown" ;;
      hk <- hash_key k ;;
      index_by_key (pydict_set hk d acc) r
  end.

Definition merge_sdk_dropdowns (existing new : json) : Res json :=
  existing_sdk_tab <- find_sdk_tab existing ;;
  new_sdk_tab <- find_sdk_tab new ;;
  existing_tab <- (match existing_sdk_tab with Some t => Ok t | None => Raise "AttributeError" end) ;;
  existing_dropdowns <- py_get existing_tab "dropdowns" (JArr []) ;;
  new_tab <- (match new_sdk_tab with Some t => Ok t | None => Raise "AttributeError" end) ;;
  new_dropdowns <- py_get new_tab "dropdowns" (JArr []) ;;
  el <- py_iter existing_dropdowns ;;
  el <- res_map (fun d => py_setitem d "icon" (JStr "archive")) el ;;
  merged <- index_by_key [] el ;;
  nl' <- py_iter new_dropdowns ;;
  merged <- index_by_key merged nl' ;;
  _ <- docs_json_updater_getattr "sort_dropdowns" ;;
  sorted <- sort_dropdowns (map snd merged) ;;
  update_sdk_tab (fun tab => py_setitem tab "dropdowns" (JArr sorted)) new.

(** ** [replace_paths] of [deploy.py]

    [group['pages']] is rewritten in place: a dict entry is rewritten
    recursively, any other entry must be a string ([assert]) and becomes
    [page.replace(old, new)]. *)
Section ReplacePaths.
Variables old new : string.

(** [for i in range(len(pages))]: a dict entry is rewritten by [rp] (the
    recursive call), a string entry is replaced, anything else fails the
    [assert isinstance(page, str)]. *)
Fixpoint replace_page_list (rp : json -> Res json) (pages : list json) : Res (list json) :=
  match pages with
  | [] => Ok []
  | page :: r =>
      page' <- (match page with
                | JObj _ => rp page
                | JStr s => Ok (JStr (py_replace old new s))
                | _ => Raise "AssertionError"
                end) ;;
      r' <- replace_page_list rp r ;;
      Ok (page' :: r')
  end.

(** [pages = group['pages']]: the first pair keyed ["pages"]; a list is
    rewritten in place, an empty string or dict is left alone, a non-empty
    string fails the item assignment, a non-empty dict the lookup [pages[0]],
    and any other value [len()]. *)
Fixpoint replace_pages_entry (rp : json -> Res json) (kvs : list (string * json))
  : Res (list (string * json)) :=
  match kvs with
  | [] => Raise "KeyError"
  | (k, v) :: r =>
      if String.eqb k "pages" then
        v' <- (match v with
               | JArr pages => pages' <- replace_page_list rp pages ;; Ok (JArr pages')
               | JStr EmptyString => Ok v
               | JStr _ => Raise "TypeError"
               | JObj [] => Ok v
               | JObj _ => Raise "KeyError"
               | _ => Raise "TypeError"
               end) ;;
        Ok ((k, v') :: r)
      else (r' <- replace_pages_entry rp r ;; Ok ((k, v) :: r'))
  end.

Fixpoint replace_paths (group : json) : Res json :=
  match group with
  | JObj kvs => kvs' <- replace_pages_entry replace_paths kvs ;; Ok (JObj kvs')
  | _ => Raise "TypeError"
  end.
End ReplacePaths.

(** ** Signature formatting of [mintlifier/page_base.py] *)

Definition char_in (c : ascii) (set : string) : bool :=
  match String.index 0 (String c EmptyString) set with Some _ => true | None => false end.

Definition str1 (c : ascii) : string := String c EmptyString.

Definition dquote : ascii := ascii_of_nat 34.

(** [s[a:b]] for [a <= len(s)]. *)
Definition slice (a b : nat) (s : string) : string := substring a (b - a) s.

(** [s.rindex(")")]. *)
Fixpoint rfind_char (c : ascii) (i : nat) (s : string) (found : option nat) : option nat :=
  match s with
  | EmptyString => found
  | String d r => rfind_char c (S i) r (if Ascii.eqb c d then Some i else found)
  end.

(** The loop of [_find_matching_paren] from position [i] on the suffix [t]. *)
Fixpoint match_paren_from (i : nat) (depth : Z) (t : string) : option nat :=
  match t with
  | EmptyString => None
  | String c r =>
      if Ascii.eqb c "("%char then match_paren_from (S i) (depth + 1) r
      else if Ascii.eqb c ")"%char then
        if Z.eqb (depth - 1) 0 then Some i else match_paren_from (S i) (depth - 1) r
      else match_paren_from (S i) depth r
  end.

(** [_find_matching_paren(s, open_pos)]; [None] is the [-1] result. *)
Definition find_matching_paren (s : string) (open_pos : nat) : option nat :=
  if Nat.leb (String.length s) open_pos then None else
  match String.get open_pos s with
  | Some c =>
      if Ascii.eqb c "("%char
      then match_paren_from open_pos 0 (substring open_pos (String.length s) s)
      else None
  | None => None
  end.

(** [_split_params]: [prev] is [params_str[i - 1]], [current] the characters
    gathered so far, [sc] the open quote character. *)
Fixpoint split_params_go (s : string) (prev : option ascii) (params : list string)
  (current : string) (depth : Z) (in_string : bool) (sc : option ascii) : list string :=
  match s with
  | EmptyString =>
      match current with
      | EmptyString => params
      | _ => (params ++ [py_strip current])%list
      end
  | String c r =>
      if negb in_string then
        if Ascii.eqb c dquote || Ascii.eqb c "'"%char then
          split_params_go r (Some c) params (current ++ str1 c) depth true (Some c)
        else if char_in c "([{" then
          split_params_go r (Some c) params (current ++ str1 c) (depth + 1) in_string sc
        else if char_in c ")]}" then
          split_params_go r (Some c) params (current ++ str1 c) (depth - 1) in_string sc
        else if Ascii.eqb c ","%char && Z.eqb depth 0 then
          split_params_go r (Some c) (params ++ [py_strip current])%list EmptyString depth in_string sc
        else split_params_go r (Some c) params (current ++ str1 c) depth in_string sc
      else
        let escaped := match prev with Some p => Ascii.eqb p "\"%char | None => false end in
        match sc with
        | Some q =>
            if Ascii.eqb c q && negb escaped
            then split_params_go r (Some c) params (current ++ str1 c) depth false None
            else split_params_go r (Some c) params (current ++ str1 c) depth in_string sc
        | None => split_params_go r (Some c) params (current ++ str1 c) depth in_string sc
        end
  end.

Definition split_params (params_str : string) : list string :=
  split_params_go params_str None [] EmptyString 0 false None.

Definition indent4 : string := "    ".

Definition format_signature_manual (sig_str : string) : Res string :=
  match String.index 0 "(" sig_str with
  | None => Ok sig_str
  | Some open_paren =>
      close_paren <- (match find_matching_paren sig_str open_paren with
                      | Some c => Ok c
                      | None =>
                          match rfind_char ")"%char 0 sig_str None with
                          | Some c => Ok c
                          | None => Raise "ValueError"
                          end
                      end) ;;
      let params_str := py_strip (slice (S open_paren) close_paren sig_str) in
      let after_close := py_strip (slice (S close_paren) (String.length sig_str) sig_str) in
      match params_str with
      | EmptyString => Ok ("()" ++ after_close)
      | _ =>
          match split_params params_str with
          | [] => Ok ("()" ++ after_close)
          | [p] => Ok ("(" ++ p ++ ")" ++ after_close)
          | params =>
              let formatted_params := py_join ("," ++ nls ++ indent4) (map py_strip params) in
              Ok ("(" ++ nls ++ indent4 ++ formatted_params ++ nls ++ ")" ++ after_close)
          end
      end
  end.

(** One [re.sub(lead + r'\s*' + q + '([^' + q + ']+)' + q, lead_out + r'\1', s)]:
    at a match, [lead_out] and the group are emitted and scanning resumes
    after the closing quote; the fuel is the length of [s]. *)
Fixpoint take_until (q : ascii) (s : string) : string * string :=
  match s with
  | EmptyString => (EmptyString, EmptyString)
  | String c r =>
      if Ascii.eqb c q then (EmptyString, s)
      else let (a, b) := take_until q r in (String c a, b)
  end.

Definition try_quoted (lead : string) (q : ascii) (s : string) : option (string * string) :=
  if String.prefix lead s then
    match lstrip (substring (String.length lead) (String.length s) s) with
    | String c t =>
        if Ascii.eqb c q then
          match take_until q t with
          | (String _ _ as grp, String _ rest) => Some (grp, rest)
          | _ => None
          end
        else None
    | EmptyString => None
    end
  else None.

Fixpoint sub_quoted_fuel (fuel : nat) (lead : string) (q : ascii) (lead_out s : string) : string :=
  match fuel with
  | O => s
  | S f =>
      match s with
      | EmptyString => EmptyString
      | String c r =>
          match try_quoted lead q s with
          | Some (grp, rest) => lead_out ++ grp ++ sub_quoted_fuel f lead q lead_out rest
          | None => String c (sub_quoted_fuel f lead q lead_out r)
          end
      end
  end.

Definition sub_quoted (lead : string) (q : ascii) (lead_out s : string) : string :=
  sub_quoted_fuel (String.length s) lead q lead_out s.

(** [_remove_type_quotes]. *)
Definition remove_type_quotes (sig_str : string) : string :=
  let s := sub_quoted ":" dquote ": " sig_str in
  let s := sub_quoted ":" "'"%char ": " s in
  let s := sub_quoted "->" dquote "-> " s in
  sub_quoted "->" "'"%char "-> " s.

(** [_format_signature_with_ruff]. *)
Definition format_signature_with_ruff (sig_str : string) : Res string :=
  format_signature_manual (remove_type_quotes sig_str).

Fixpoint forall_chars (p : ascii -> bool) (s : string) : bool :=
  match s with
  | EmptyString => true
  | String c r => p c && forall_chars p r
  end.

(** [str.isalnum()]: non-empty and every character a letter or digit. *)
Definition str_isalnum (s : string) : bool :=
  match s with
  | EmptyString => false
  | _ => forall_chars is_alnum_char s
  end.

(** [PageBase._format_signature(sig_str, default_name)]. *)
Definition format_signature (sig_str : string) : Res string :=
  match String.index 0 "(" sig_str with
  | Some paren_idx =>
      let head := substring 0 paren_idx sig_str in
      if Nat.ltb 0 paren_idx && str_isalnum (py_replace "." "" (py_replace "_" "" head)) then
        formatted <- format_signature_with_ruff (slice paren_idx (String.length sig_str) sig_str) ;;
        Ok (if py_startswith formatted "(" then head ++ formatted else formatted)
      else format_signature_with_ruff sig_str
  | None => format_signature_with_ruff sig_str
  end.

Definition fence : string := "```".

(** [FunctionSectionGenerator._document_signature] for a callable without
    [signatures] (not a UDF): [sig_str] is [str(inspect.signature(func))]
    after dropping [self]/[cls]. *)
Definition document_signature_plain (func_name sig_str : string) : Res string :=
  formatted_sig <- format_signature sig_str ;;
  Ok (fence ++ "python" ++ nls ++ func_name ++ formatted_sig ++ nls ++ fence ++ nls ++ nls).

(** ** Release notes in the changelog ([changelog/fetch_releases.py]) *)

(** Lines 197-199: level-2 headings become level-4. *)
Definition demote_headings (body : string) : string :=
  let body_formatted := py_replace (nls ++ "## ") (nls ++ "#### ") body in
  if py_startswith body_formatted "## "
  then "#### " ++ substring 3 (String.length body_formatted) body_formatted
  else body_formatted.

Definition pr_url : string := "https://github.com/pixeltable/pixeltable/pull/".

(** [shorten_pr_links]: [re.sub(pr_url + r'(\d+)', r'[#\1](' + pr_url + r'\1)', text)]. *)
Fixpoint shorten_pr_links_fuel (fuel : nat) (text : string) : string :=
  match fuel with
  | O => text
  | S f =>
      match text with
      | EmptyString => EmptyString
      | String c r =>
          if String.prefix pr_url text then
            let (d, rest) := span_digits (substring (String.length pr_url) (String.length text) text) in
            match d with
            | String _ _ => "[#" ++ d ++ "](" ++ pr_url ++ d ++ ")" ++ shorten_pr_links_fuel f rest
            | EmptyString => String c (shorten_pr_links_fuel f r)
            end
          else String c (shorten_pr_links_fuel f r)
      end
  end.

Definition shorten_pr_links (text : string) : string :=
  shorten_pr_links_fuel (String.length text) text.

(** The body of one release section: lines 176 and 194-202. *)
Definition release_body_markdown (body : string) : string :=
  shorten_pr_links (demote_headings (py_strip body)).

(** ** Changelog and contributors pages
    ([changelog/fetch_releases.py], [contributors/fetch_contributors.py])

    The output directory is [None] when absent, otherwise the files it holds
    (name, text).  A run returns the directory as it is left and the outcome.
    The fetched API response is an input ([Raise _] when the request fails).
    Three operations of the Python runtime are left abstract: [str()] of a
    JSON value in an f-string, [datetime.fromisoformat(s).strftime(...)]
    ([None] when it raises), and the fixed template texts of the pages. *)

Definition outdir : Type := option (list (string * string)).

Fixpoint file_set (name text : string) (files : list (string * string)) : list (string * string) :=
  match files with
  | [] => [(name, text)]
  | (n, t) :: r => if String.eqb n name then (n, text) :: r else (n, t) :: file_set name text r
  end.

(** [Path.write_text]: the directory must exist. *)
Definition write_text (name text : string) (d : outdir) : outdir * Res unit :=
  match d with
  | Some files => (Some (file_set name text files), Ok tt)
  | None => (d, Raise "FileNotFoundError")
  end.

(** [len(v)]. *)
Definition py_len (v : json) : Res nat :=
  match v with
  | JArr l => Ok (List.length l)
  | JObj kvs => Ok (List.length kvs)
  | JStr s => Ok (String.length s)
  | _ => Raise "TypeError"
  end.

Section Pages.
Variable py_format : json -> string.
Variable iso_date_format : string -> option string.
Variables changelog_header contributors_header contributors_footer : string.
Variable contributor_card : string -> string -> string -> string -> string -> string.

(** Lines 171-205 for one release. *)
Definition release_section (release : json) : Res string :=
  tag_name <- py_get release "tag_name" (JStr "unknown") ;;
  name <- py_get release "name" tag_name ;;
  published_at <- py_get release "published_at" (JStr "") ;;
  author_obj <- py_get release "author" (JObj []) ;;
  author <- py_get author_obj "login" (JStr "Unknown") ;;
  html_url <- py_get release "html_url" (JStr "") ;;
  body_obj <- py_get release "body" (JStr "") ;;
  body <- (match body_obj with JStr s => Ok (py_strip s) | _ => Raise "AttributeError" end) ;;
  let formatted_date :=
    if truthy published_at then
      match published_at with
      | JStr s =>
          match iso_date_format (py_replace "Z" "+00:00" s) with
          | Some f => f
          | None => s
          end
      | _ => py_format published_at
      end
    else "Unknown date" in
  let body_formatted := shorten_pr_links (demote_headings body) in
  Ok ("### " ++ py_format name ++ nls ++ nls
      ++ "**Released:** " ++ formatted_date ++ "  " ++ nls
      ++ "**Author:** [@" ++ py_format author ++ "](https://github.com/" ++ py_format author ++ ")  " ++ nls
      ++ "**View on GitHub:** [" ++ py_format tag_name ++ "](" ++ py_format html_url ++ ")" ++ nls ++ nls
      ++ body_formatted ++ nls ++ nls
      ++ "---" ++ nls ++ nls).

Definition changelog_content (releases : list json) : Res string :=
  sections <- res_map release_section releases ;;
  Ok (changelog_header ++ String.concat "" sections).

(** [generate_changelog_to_dir(output_dir)] with the response of
    [fetch_releases_from_github]. *)
Definition generate_changelog_to_dir (fetched : Res json) (d : outdir) : outdir * Res unit :=
  match fetched with
  | Raise _ => (d, Raise "RuntimeError")
  | Ok releases =>
      if negb (truthy releases) then (d, Ok tt) else
      match py_len releases with
      | Raise e => (d, Raise e)
      | Ok _ =>
          (* shutil.rmtree(output_dir) when it exists, then mkdir(parents=True) *)
          let d1 : outdir := Some [] in
          match py_iter releases with
          | Raise e => (d1, Raise e)
          | Ok rs =>
              match changelog_content rs with
              | Raise e => (d1, Raise e)
              | Ok content => write_text "changelog.mdx" content d1
              end
          end
      end
  end.

(** Lines 96-114 for one contributor. *)
Definition contributor_entry (contributor : json) : Res string :=
  login <- py_get contributor "login" (JStr "Unknown") ;;
  avatar_url <- py_get contributor "avatar_url" (JStr "") ;;
  html_url <- py_get contributor "html_url" (JStr "") ;;
  contributions <- py_get contributor "contributions" (JNum 0) ;;
  ty <- py_get contributor "type" JNull ;;
  if py_eq_str ty "Bot" then Ok "" else
  let plural := match num_of contributions with Some 1%Z => "" | _ => "s" end in
  Ok (contributor_card (py_format html_url) (py_format avatar_url) (py_format login)
        (py_format contributions) plural).

(** [generate_contributors_page(output_dir)] with the response of
    [fetch_contributors_from_github]. *)
Definition generate_contributors_page (fetched : Res json) (d : outdir) : outdir * Res unit :=
  match fetched with
  | Raise _ => (d, Raise "RuntimeError")
  | Ok contributors =>
      if negb (truthy contributors) then (d, Ok tt) else
      match py_len contributors with
      | Raise e => (d, Raise e)
      | Ok _ =>
          (* output_dir.mkdir(parents=True, exist_ok=True) *)
          let d1 : outdir := match d with Some files => Some files | None => Some [] end in
          match contributors with
          | JArr cs =>
              match sorted_by_json_key_desc (fun x => py_get x "contributions" (JNum 0)) cs with
              | Raise e => (d1, Raise e)
              | Ok sorted =>
                  match res_map contributor_entry sorted with
                  | Raise e => (d1, Raise e)
                  | Ok entries =>
                      write_text "contributors.mdx"
                        (contributors_header ++ String.concat "" entries ++ contributors_footer) d1
                  end
              end
          | _ => (d1, Raise "AttributeError")
          end
      end
  end.
End Pages.

(** ** [deploy] of [deploy.py]

    A file tree is the list of its files (path, content); a directory is
    present when it holds a file.  [docs.json] files hold a [json] tree,
    other files opaque text.  The remote docs repository is given by its
    branches; the run returns [Some (branch, tree)] when it pushes [tree]
    to [branch], [None] when there is nothing to commit. *)

Inductive fcontent : Type :=
| FJson (j : json)
| FData (s : string).

Definition fcontent_eqb (a b : fcontent) : bool :=
  match a, b with
  | FJson x, FJson y => json_eqb x y
  | FData x, FData y => String.eqb x y
  | _, _ => false
  end.

Definition path : Type := list string.
Definition tree : Type := list (path * fcontent).

Fixpoint path_prefixb (p q : path) : bool :=
  match p, q with
  | [], _ => true
  | a :: p', b :: q' => String.eqb a b && path_prefixb p' q'
  | _ :: _, [] => false
  end.

Definition path_eqb (p q : path) : bool :=
  path_prefixb p q && Nat.eqb (List.length p) (List.length q).

Definition fs_lookup (p : path) (t : tree) : option fcontent :=
  option_map snd (find (fun e => path_eqb p (fst e)) t).

Definition fs_exists (p : path) (t : tree) : bool :=
  existsb (fun e => path_prefixb p (fst e)) t.

(** [shutil.rmtree(p)] (or [unlink]). *)
Definition fs_remove (p : path) (t : tree) : tree :=
  filter (fun e => negb (path_prefixb p (fst e))) t.

(** Writing one file, replacing any file at the same path. *)
Definition fs_write (p : path) (c : fcontent) (t : tree) : tree :=
  (filter (fun e => negb (path_eqb p (fst e))) t ++ [(p, c)])%list.

(** The files under directory [p], relative to [p]. *)
Definition fs_subtree (p : path) (t : tree) : tree :=
  map (fun e => (skipn (List.length p) (fst e), snd e))
      (filter (fun e => path_prefixb p (fst e)) t).

(** [shutil.copytree(src, dest)] once [dest] is gone. *)
Definition fs_graft (p : path) (sub t : tree) : tree :=
  fold_left (fun acc e => fs_write (p ++ fst e)%list (snd e) acc) sub t.

Definition top_name (p : path) : string :=
  match p with n :: _ => n | [] => "" end.

(** [git add -A; git diff --staged --quiet] succeeds when the trees hold
    the same files. *)
Definition fs_same (a b : tree) : bool :=
  forallb (fun e => match fs_lookup (fst e) b with Some c => fcontent_eqb c (snd e) | None => false end) a
  && forallb (fun e => match fs_lookup (fst e) a with Some c => fcontent_eqb c (snd e) | None => false end) b.

Definition load_json (p : path) (t : tree) : Res json :=
  match fs_lookup p t with
  | Some (FJson j) => Ok j
  | Some (FData _) => Raise "JSONDecodeError"
  | None => Raise "FileNotFoundError"
  end.

Fixpoint uint_str (d : Decimal.uint) : string :=
  match d with
  | Decimal.Nil => ""
  | Decimal.D0 r => "0" ++ uint_str r
  | Decimal.D1 r => "1" ++ uint_str r
  | Decimal.D2 r => "2" ++ uint_str r
  | Decimal.D3 r => "3" ++ uint_str r
  | Decimal.D4 r => "4" ++ uint_str r
  | Decimal.D5 r => "5" ++ uint_str r
  | Decimal.D6 r => "6" ++ uint_str r
  | Decimal.D7 r => "7" ++ uint_str r
  | Decimal.D8 r => "8" ++ uint_str r
  | Decimal.D9 r => "9" ++ uint_str r
  end.

(** [str(n)] for an int. *)
Definition z_str (n : Z) : string :=
  if Z.ltb n 0 then "-" ++ uint_str (N.to_uint (Z.to_N (- n))) else uint_str (N.to_uint (Z.to_N n)).

(** Lines 72-88: the displayed version, and whether it was adjusted. *)
Definition display_version_of (pxt_version branch : string) : Res string :=
  if String.eqb branch "dev" then Ok ("v" ++ py_replace "+" "." pxt_version)
  else
    let version_split := py_split_char "."%char pxt_version in
    if Nat.eqb (List.length version_split) 3 then Ok ("v" ++ pxt_version)
    else
      s2 <- (match nth_error version_split 2 with Some s => Ok s | None => Raise "IndexError" end) ;;
      patch_num <- (match py_int s2 with Some n => Ok n | None => Raise "ValueError" end) ;;
      if Z.ltb 0 patch_num
      then Ok ("v" ++ py_join "." [nth 0 version_split ""; nth 1 version_split ""; z_str (patch_num - 1)])
      else Raise "AssertionError".

(** Lines 166-172: [assert len(sdk_tab['dropdowns']) == 1 and
    sdk_tab['dropdowns'][0]['dropdown'] == "latest"], giving that dropdown. *)
Definition single_latest_dropdown (dropdowns : json) : Res json :=
  match dropdowns with
  | JArr [d] => k <- py_getitem d "dropdown" ;;
                if py_eq_str k "latest" then Ok d else Raise "AssertionError"
  | JArr _ => Raise "AssertionError"
  | JObj [_] => Raise "KeyError"
  | JObj _ => Raise "AssertionError"
  | JStr s => if Nat.eqb (String.length s) 1 then Raise "TypeError" else Raise "AssertionError"
  | _ => Raise "TypeError"
  end.

(** [for group in dropdown_copy['groups']: replace_paths(group, old, new)];
    the groups are rewritten in place inside the copy. *)
Definition replace_groups (old new : string) (dropdown_copy : json) : Res json :=
  groups <- py_getitem dropdown_copy "groups" ;;
  match groups with
  | JArr gs => gs' <- res_map (replace_paths old new) gs ;; py_setitem dropdown_copy "groups" (JArr gs')
  | _ => items <- py_iter groups ;; _ <- res_map (replace_paths old new) items ;; Ok dropdown_copy
  end.

(** Lines 163-171: the versioned copy of the ["latest"] dropdown is appended to
    the SDK tab of [new_docs_json] ([sdk_tab] is that tab, not a copy). *)
Definition add_versioned_dropdown (display_version : string) (new_docs_json : json) : Res json :=
  sdk_tab <- find_sdk_tab new_docs_json ;;
  tab <- (match sdk_tab with Some t => Ok t | None => Raise "TypeError" end) ;;
  dropdowns <- py_getitem tab "dropdowns" ;;
  latest <- single_latest_dropdown dropdowns ;;
  dropdown_copy <- py_setitem latest "dropdown" (JStr display_version) ;;
  dropdown_copy <- replace_groups "sdk/latest/" ("sdk/" ++ display_version ++ "/") dropdown_copy ;;
  update_sdk_tab
    (fun t => ds <- py_getitem t "dropdowns" ;;
              match ds with
              | JArr l => py_setitem t "dropdowns" (JArr (l ++ [dropdown_copy])%list)
              | _ => Raise "AttributeError"
              end) new_docs_json.

(** Clean the clone: keep [.git*] entries, and [sdk] off the dev branch. *)
Definition kept_on_clean (branch : string) (p : path) : bool :=
  py_startswith (top_name p) ".git" || (String.eqb (top_name p) "sdk" && negb (String.eqb branch "dev")).

(** Lines 139-148: copy the target's top-level entries other than [sdk];
    [assert not dest.exists()]. *)
Definition copy_docs (target repo : tree) : Res tree :=
  let items := filter (fun e => negb (String.eqb (top_name (fst e)) "sdk")) target in
  if existsb (fun e => fs_exists [top_name (fst e)] repo) items then Raise "AssertionError"
  else Ok (repo ++ items)%list.

(** Lines 150-158: [sdk/latest] of the target copied to [sdk/<name>]. *)
Definition copy_latest_sdk (target : tree) (name : string) (repo : tree) : Res tree :=
  let repo := fs_remove ["sdk"; name] repo in
  if fs_exists ["sdk"; "latest"] target
  then Ok (fs_graft ["sdk"; name] (fs_subtree ["sdk"; "latest"] target) repo)
  else Raise "FileNotFoundError".

Definition clone_branch (remote : list (string * tree)) (branch : string) : Res tree :=
  match find (fun e => String.eqb (fst e) branch) remote with
  | Some (_, t) => Ok t
  | None => Raise "CalledProcessError"
  end.

(** [deploy(pxt_version, pxt_repo_dir, temp_dir, branch)]: [docs_target] is
    [pxt_repo_dir/docs/target] ([None] when missing), [validation_errors]
    whether [validate_mintlify_docs] reports errors. *)
Definition deploy (pxt_version : string) (docs_target : option tree)
  (remote : list (string * tree)) (validation_errors : bool) (branch : string)
  : Res (option (string * tree)) :=
  target <- (match docs_target with Some t => Ok t | None => Raise "SystemExit" end) ;;
  display_version <- display_version_of pxt_version branch ;;
  cloned <- clone_branch remote branch ;;
  existing_docs_json <- load_json ["docs.json"] cloned ;;
  new_docs_json <- load_json ["docs.json"] target ;;
  let repo := filter (fun e => kept_on_clean branch (fst e)) cloned in
  repo <- copy_docs target repo ;;
  repo <- copy_latest_sdk target "latest" repo ;;
  repo <- copy_latest_sdk target display_version repo ;;
  new_docs_json <- add_versioned_dropdown display_version new_docs_json ;;
  new_docs_json <- (if String.eqb branch "dev" then Ok new_docs_json
                    else merge_sdk_dropdowns existing_docs_json new_docs_json) ;;
  let repo := fs_write ["docs.json"] (FJson new_docs_json) repo in
  if validation_errors && negb (String.eqb branch "dev") then Raise "SystemExit" else
  if fs_same cloned repo then Ok None else Ok (Some (branch, repo)).

(** ** Sample manifests used in the statements below *)

Definition mk_dropdown (key : string) : json :=
  JObj [("dropdown", JStr key); ("icon", JStr "book"); ("groups", JArr [])].

Definition mk_sdk_tab (ds : list json) : json :=
  JObj [("tab", JStr sdk_tab_name); ("dropdowns", JArr ds)].

Definition home_tab : json :=
  JObj [("tab", JStr "Home"); ("groups", JArr [])].

Definition mk_manifest (tabs : list json) : json :=
  JObj [("name", JStr "Pixeltable"); ("navigation", JObj [("tabs", JArr tabs)])].

(** The keys of the SDK tab's dropdowns in a successful result. *)
Definition result_dropdown_keys (r : Res json) : option (list (option string)) :=
  match r with
  | Ok docs => option_map (map dropdown_key) (sdk_dropdowns docs)
  | Raise _ => None
  end.

Definition keys_of (r : Res (list json)) : option (list (option string)) :=
  match r with
  | Ok l => Some (map dropdown_key l)
  | Raise _ => None
  end.

(** ** Well-formed SDK tabs: ["dropdowns"] absent or a list of dicts, each
    with a string ["dropdown"] key. *)

Definition dropdown_wf (d : json) : bool :=
  match dropdown_key d with Some _ => true | None => false end.

Definition sdk_tab_wf (tab : json) : bool :=
  match tab with
  | JObj kvs =>
      match assoc_lookup "dropdowns" kvs with
      | None => true
      | Some (JArr l) => forallb dropdown_wf l
      | Some _ => false
      end
  | _ => false
  end.

(** A non-empty run of decimal digits ([\d+]). *)
Definition digit_run (d : string) : bool :=
  match d with
  | EmptyString => false
  | _ => forall_chars is_digit d
  end.

(** The first character of [t] is not a digit (or [t] is empty). *)
Definition no_digit_first (t : string) : bool :=
  match t with
  | String c _ => negb (is_digit c)
  | EmptyString => true
  end.

(** ** Navigation subtrees for [replace_paths]

    A well-formed group is a dict with distinct keys, among them ["pages"],
    whose value is a list of page paths (strings) and well-formed groups. *)

Fixpoint keys_unique (kvs : list (string * json)) : bool :=
  match kvs with
  | [] => true
  | (k, _) :: r => negb (existsb (String.eqb k) (map fst r)) && keys_unique r
  end.

Definition page_wf (gw : json -> bool) (page : json) : bool :=
  match page with
  | JStr _ => true
  | JObj _ => gw page
  | _ => false
  end.

Fixpoint group_wf (g : json) : bool :=
  match g with
  | JObj kvs =>
      keys_unique kvs
      && existsb (fun kv => String.eqb (fst kv) "pages") kvs
      && forallb (fun kv => if String.eqb (fst kv) "pages"
                            then match snd kv with
                                 | JArr pages => forallb (page_wf group_wf) pages
                                 | _ => false
                                 end
                            else true) kvs
  | _ => false
  end.

(** The rewriting the path rewriter is meant to perform, written from its
    description: every string leaf of a ["pages"] list, at any depth, has
    [old] replaced by [new]; every other key keeps its value. *)
Section PageLeaves.
Variables old new : string.

Definition rewrite_leaf (rw : json -> json) (page : json) : json :=
  match page with
  | JStr s => JStr (py_replace old new s)
  | JObj _ => rw page
  | _ => page
  end.

Definition rewrite_pages_value (rw : json -> json) (v : json) : json :=
  match v with
  | JArr pages => JArr (map (rewrite_leaf rw) pages)
  | _ => v
  end.

Fixpoint rewrite_page_leaves (g : json) : json :=
  match g with
  | JObj kvs =>
      JObj (map (fun kv => (fst kv, if String.eqb (fst kv) "pages"
                                    then rewrite_pages_value rewrite_page_leaves (snd kv)
                                    else snd kv)) kvs)
  | _ => g
  end.
End PageLeaves.

Fixpoint json_size (j : json) : nat :=
  match j with
  | JArr l => S (list_sum (map json_size l))
  | JObj kvs => S (list_sum (map (fun kv => json_size (snd kv)) kvs))
  | _ => 1
  end.

(** A two-level navigation group with title and icon keys. *)
Definition sample_group : json :=
  JObj [("group", JStr "Tables"); ("icon", JStr "table");
        ("pages", JArr [JStr "sdk/latest/create_table";
                        JObj [("group", JStr "Views"); ("icon", JStr "eye");
                              ("pages", JArr [JStr "sdk/latest/create_view"])]])].

(** Lines of a release body, and the per-line reading of the heading
    rewrite: a line opening with ["## "] gets ["#### "] in its place. *)
Definition no_newline (l : string) : bool := forall_chars (fun c => negb (Ascii.eqb c nl)) l.

Definition demote_line (l : string) : string :=
  if py_startswith l "## " then "#### " ++ substring 3 (String.length l) l else l.

(** Sample inputs for the page generators: a formatter for [str()] of
    strings, a contributor card showing the login, one contributor, and a
    release whose [body] is [null]. *)
Definition sample_py_format (j : json) : string :=
  match j with JStr s => s | _ => "" end.

Definition sample_card (html_url avatar_url login contributions plural : string) : string :=
  "@" ++ login ++ nls.

Definition sample_contributors : json :=
  JArr [JObj [("login", JStr "alice"); ("contributions", JNum 3)]].

Definition sample_null_body_releases : json :=
  JArr [JObj [("tag_name", JStr "v0.4.17"); ("body", JNull)]].

(** Sample deploy inputs: a built docs target whose SDK tab holds the single
    ["latest"] dropdown with one page under [sdk/latest/], and a docs
    repository with a [dev] and a [stage] branch. *)
Definition latest_dropdown : json :=
  JObj [("dropdown", JStr "latest"); ("icon", JStr "book");
        ("groups", JArr [JObj [("group", JStr "API"); ("pages", JArr [JStr "sdk/latest/foo"])]])].

Definition target_docs : json := mk_manifest [home_tab; mk_sdk_tab [latest_dropdown]].

Definition target_tree : tree :=
  [(["docs.json"], FJson target_docs); (["sdk"; "latest"; "foo.mdx"], FData "foo")].

Definition sample_remote : list (string * tree) :=
  [("dev", [(["docs.json"], FJson (JObj []))]);
   ("stage", [(["docs.json"], FJson target_docs)])].

(** ** Text helpers of [mintlifier/page_base.py] *)

(** Characters written out one by one, each through [f]. *)
Fixpoint map_chars (f : ascii -> ascii) (s : string) : string :=
  match s with
  | EmptyString => EmptyString
  | String c r => String (f c) (map_chars f r)
  end.

Definition backtick : ascii := "`"%char.

(** The loop of [_escape_braces_outside_code]: [cb] is [in_code_block], [ic]
    is [in_inline_code]; three backticks toggle the code block, one backtick
    outside a code block toggles inline code, and a brace outside both gets
    a backslash. *)
Fixpoint escape_braces_go (s : string) (cb ic : bool) : string :=
  match s with
  | EmptyString => EmptyString
  | String c r =>
      let single :=
        if negb cb && Ascii.eqb c backtick then String c (escape_braces_go r cb (negb ic))
        else if negb cb && negb ic then
          if Ascii.eqb c "{"%char then "\{" ++ escape_braces_go r cb ic
          else if Ascii.eqb c "}"%char then "\}" ++ escape_braces_go r cb ic
          else String c (escape_braces_go r cb ic)
        else String c (escape_braces_go r cb ic) in
      match r with
      | String c2 (String c3 r3) =>
          if Ascii.eqb c backtick && Ascii.eqb c2 backtick && Ascii.eqb c3 backtick
          then "```" ++ escape_braces_go r3 (negb cb) ic
          else single
      | _ => single
      end
  end.

(** [PageBase._escape_braces_outside_code]. *)
Definition escape_braces_outside_code (text : string) : string :=
  match text with
  | EmptyString => text
  | _ => escape_braces_go text false false
  end.

(** Every brace escaped: the result on text without backticks. *)
Fixpoint escape_all_braces (s : string) : string :=
  match s with
  | EmptyString => EmptyString
  | String c r =>
      if Ascii.eqb c "{"%char then "\{" ++ escape_all_braces r
      else if Ascii.eqb c "}"%char then "\}" ++ escape_all_braces r
      else String c (escape_all_braces r)
  end.

(** [str.lower()] on ASCII text. *)
Definition ascii_lower (c : ascii) : ascii :=
  let n := nat_of_ascii c in
  if Nat.leb 65 n && Nat.leb n 90 then ascii_of_nat (n + 32) else c.

Definition py_lower (s : string) : string := map_chars ascii_lower s.

Definition is_upper (c : ascii) : bool :=
  let n := nat_of_ascii c in Nat.leb 65 n && Nat.leb n 90.

(** [PageBase._sanitize_path]. *)
Definition sanitize_path (text : string) : string :=
  py_replace "." "-" (py_replace "/" "-" (py_replace " " "-" (py_lower text))).

(** [PageBase._build_docs_json_path]: the name goes under [docs/sdk/latest]. *)
Definition build_docs_json_path (parent_groups : list string) (name : string) : string :=
  let base_path := "docs/sdk/latest" in
  base_path ++ "/" ++ sanitize_path name.

(** [PageBase._escape_yaml]. *)
Definition escape_yaml (text : string) : string :=
  match text with
  | EmptyString => ""
  | _ => py_replace (str1 dquote) "'" text
  end.

(** [PageBase._truncate_sidebar_title]. *)
Definition truncate_sidebar_title (title : string) (max_length : nat) : string :=
  if Nat.leb (String.length title) max_length then title
  else substring 0 max_length title.

(** [p in s] for strings. *)
Fixpoint contains (p s : string) : bool :=
  String.prefix p s || match s with EmptyString => false | String _ r => contains p r end.

(** Characters [_split_params] treats as plain text: no quote, no bracket. *)
Definition plain_char (c : ascii) : bool :=
  negb (Ascii.eqb c dquote || Ascii.eqb c "'"%char) && negb (char_in c "([{") && negb (char_in c ")]}").

(** A list without its last element when that element is the empty string. *)
Fixpoint drop_empty_last (l : list string) : list string :=
  match l with
  | [] => []
  | x :: r =>
      match r with
      | [] => if String.eqb x "" then [] else [x]
      | _ :: _ => x :: drop_empty_last r
      end
  end.

(** Opening minus closing parentheses. *)
Fixpoint paren_depth (s : string) : Z :=
  match s with
  | EmptyString => 0
  | String c r =>
      ((if Ascii.eqb c "("%char then 1 else if Ascii.eqb c ")"%char then -1 else 0) + paren_depth r)%Z
  end.

(** * Properties *)

(** ** Evaluation facts *)

Example parse_version_ex1 : parse_version "v0.4.17" = Ok ("v0.4.17", "v0.4").
Proof. reflexivity. Qed.

Example parse_version_ex2 : parse_version "0.10" = Ok ("v0.10", "v0.10").
Proof. reflexivity. Qed.

Example py_int_ex : py_int " 1_0 " = Some 10%Z /\ py_int "" = None /\ py_int "-3" = Some (-3)%Z.
Proof. repeat split; reflexivity. Qed.

Example py_replace_ex : py_replace "sdk/latest/" "sdk/v1/" "sdk/latest/a" = "sdk/v1/a".
Proof. reflexivity. Qed.

(** ** The exception monad *)

Lemma bind_ok {A B} (c : Res A) (k : A -> Res B) (b : B) :
  res_bind c k = Ok b -> exists a, c = Ok a /\ k a = Ok b.
Proof. destruct c as [a | cls]; simpl; [eauto | discriminate]. Qed.

Lemma bind_raise {A B} (c : Res A) (k : A -> Res B) :
  (forall a, exists cls, k a = Raise cls) -> exists cls, res_bind c k = Raise cls.
Proof. intros Hk. destruct c as [a | cls]; simpl; eauto. Qed.

Ltac inv_bind H :=
  match type of H with
  | res_bind ?c ?k = Ok _ =>
      let a := fresh "a" in let Hc := fresh "Hc" in let Hk := fresh "Hk" in
      apply bind_ok in H; destruct H as [a [Hc Hk]]
  end.

(** ** C1: no prefix eviction in [merge_docs_json] *)

(** C1 (prefix eviction in the three-source merge).  Deploying v0.4.17 into a
    production SDK tab holding [v0.3.14, v0.4.16]: [merge_docs_json] keeps
    v0.4.16 (it takes the plain union and evicts nothing), whereas the
    eviction is done only by [DocsJsonUpdater.update_navigation], which drops
    v0.4.16. *)
Theorem merge_docs_json_keeps_same_minor_line :
  result_dropdown_keys
    (merge_docs_json
       (mk_manifest [home_tab; mk_sdk_tab [mk_dropdown "v0.3.14"; mk_dropdown "v0.4.16"]])
       (mk_manifest [home_tab; mk_sdk_tab [mk_dropdown "latest"]])
       (mk_manifest [home_tab; mk_sdk_tab [mk_dropdown "v0.4.17"]]))
  = Some [Some "v0.4.17"; Some "v0.4.16"; Some "v0.3.14"]
  /\ result_dropdown_keys
       (update_navigation sdk_tab_name
          (mk_manifest [home_tab; mk_sdk_tab [mk_dropdown "v0.3.14"; mk_dropdown "v0.4.16"]])
          (mk_sdk_tab [mk_dropdown "v0.4.17"]))
     = Some [Some "v0.4.17"; Some "v0.3.14"].
Proof. split; vm_compute; reflexivity. Qed.

(** ** C2: the final sort of [merge_docs_json] is lexical *)

(** C2 (descending version order of the merged list).  [merge_docs_json]
    sorts by the key string, so a production tab [v0.3, latest] merged with a
    generated v0.10 comes out as [v0.3, v0.10, latest]; the version-aware
    order [latest, v0.10, v0.3] is what [_sort_dropdowns] gives for the same
    three dropdowns. *)
Theorem merge_docs_json_sorts_lexically :
  result_dropdown_keys
    (merge_docs_json
       (mk_manifest [mk_sdk_tab [mk_dropdown "v0.3"; mk_dropdown "latest"]])
       (mk_manifest [mk_sdk_tab [mk_dropdown "latest"]])
       (mk_manifest [mk_sdk_tab [mk_dropdown "v0.10"]]))
  = Some [Some "v0.3"; Some "v0.10"; Some "latest"]
  /\ keys_of (sort_dropdowns [mk_dropdown "v0.3"; mk_dropdown "latest"; mk_dropdown "v0.10"])
     = Some [Some "latest"; Some "v0.10"; Some "v0.3"].
Proof. split; vm_compute; reflexivity. Qed.

(** ** C3: [merge_sdk_dropdowns] always raises *)

Lemma merge_sdk_dropdowns_never_ok (existing new : json) :
  exists cls, merge_sdk_dropdowns existing new = Raise cls.
Proof.
  unfold merge_sdk_dropdowns.
  repeat lazymatch goal with
    | |- exists cls, res_bind (docs_json_updater_getattr _) _ = Raise cls => simpl; eauto
    | |- exists cls, res_bind _ _ = Raise cls => apply bind_raise; intro
    end.
Qed.

Lemma assoc_lookup_set_other (k k' : string) (v : json) (kvs : list (string * json)) :
  k <> k' -> assoc_lookup k' (assoc_set k v kvs) = assoc_lookup k' kvs.
Proof.
  intros Hne. induction kvs as [| [k0 v0] r IH]; simpl.
  - destruct (String.eqb_spec k' k); [congruence | reflexivity].
  - destruct (String.eqb_spec k k0) as [<- | Hk0]; simpl.
    + destruct (String.eqb_spec k' k); [congruence | reflexivity].
    + destruct (String.eqb_spec k' k0); [reflexivity | exact IH].
Qed.

Lemma set_icon_ok (l : list json) :
  forallb dropdown_wf l = true ->
  exists l', res_map (fun d => py_setitem d "icon" (JStr "archive")) l = Ok l'
             /\ forallb dropdown_wf l' = true.
Proof.
  induction l as [| d r IH]; simpl; intros H.
  - exists []. split; reflexivity.
  - apply andb_true_iff in H as [Hd Hr].
    destruct (IH Hr) as [l' [Hm Hw]].
    unfold dropdown_wf, dropdown_key in Hd.
    destruct d as [| | | | | kvs]; try discriminate.
    simpl. rewrite Hm. simpl.
    exists (JObj (assoc_set "icon" (JStr "archive") kvs) :: l'). split; [reflexivity |].
    simpl. rewrite Hw, andb_true_r.
    unfold dropdown_wf, dropdown_key.
    rewrite assoc_lookup_set_other by discriminate. exact Hd.
Qed.

Lemma index_by_key_ok (acc : list (json * json)) (l : list json) :
  forallb dropdown_wf l = true -> exists m, index_by_key acc l = Ok m.
Proof.
  revert acc. induction l as [| d r IH]; simpl; intros acc H.
  - eauto.
  - apply andb_true_iff in H as [Hd Hr].
    unfold dropdown_wf, dropdown_key in Hd.
    destruct d as [| | | | | kvs]; try discriminate.
    simpl. destruct (assoc_lookup "dropdown" kvs) as [[| | | s | |] |]; try discriminate.
    simpl. apply IH. exact Hr.
Qed.

Lemma sdk_tab_wf_dropdowns (tab : json) :
  sdk_tab_wf tab = true ->
  exists l, py_get tab "dropdowns" (JArr []) = Ok (JArr l) /\ forallb dropdown_wf l = true.
Proof.
  unfold sdk_tab_wf. destruct tab as [| | | | | kvs]; try discriminate.
  simpl. destruct (assoc_lookup "dropdowns" kvs) as [[| | | | l |] |]; try discriminate; eauto.
Qed.

(** C3 (AttributeError in [merge_sdk_dropdowns]).  When both manifests have
    an SDK tab, [merge_sdk_dropdowns] never returns normally; when, in
    addition, both tabs are well formed (their dropdowns are dicts with a
    string ["dropdown"] key), the exception is the [AttributeError] of the
    lookup of [DocsJsonUpdater.sort_dropdowns], raised before the merged
    list is assigned. *)
Theorem merge_sdk_dropdowns_attribute_error (existing new te tn : json) :
  find_sdk_tab existing = Ok (Some te) ->
  find_sdk_tab new = Ok (Some tn) ->
  (forall j, merge_sdk_dropdowns existing new <> Ok j)
  /\ (sdk_tab_wf te = true -> sdk_tab_wf tn = true ->
      merge_sdk_dropdowns existing new = Raise "AttributeError").
Proof.
  intros He Hn. split.
  - intros j Hj. destruct (merge_sdk_dropdowns_never_ok existing new) as [cls Hc].
    congruence.
  - intros Hwe Hwn.
    destruct (sdk_tab_wf_dropdowns te Hwe) as [le [Hge Hle]].
    destruct (sdk_tab_wf_dropdowns tn Hwn) as [ln [Hgn Hln]].
    destruct (set_icon_ok le Hle) as [le' [Hicon Hle']].
    destruct (index_by_key_ok [] le' Hle') as [m1 Hm1].
    destruct (index_by_key_ok m1 ln Hln) as [m2 Hm2].
    unfold merge_sdk_dropdowns.
    rewrite He, Hn. simpl. rewrite Hge. simpl. rewrite Hgn. simpl.
    rewrite Hicon. simpl. rewrite Hm1. simpl. rewrite Hm2. reflexivity.
Qed.

Lemma merge_sdk_dropdowns_attribute_error_witness :
  find_sdk_tab (mk_manifest [home_tab; mk_sdk_tab [mk_dropdown "v0.3.14"]])
    = Ok (Some (mk_sdk_tab [mk_dropdown "v0.3.14"]))
  /\ find_sdk_tab (mk_manifest [mk_sdk_tab [mk_dropdown "latest"; mk_dropdown "v0.4.17"]])
    = Ok (Some (mk_sdk_tab [mk_dropdown "latest"; mk_dropdown "v0.4.17"]))
  /\ merge_sdk_dropdowns (mk_manifest [home_tab; mk_sdk_tab [mk_dropdown "v0.3.14"]])
       (mk_manifest [mk_sdk_tab [mk_dropdown "latest"; mk_dropdown "v0.4.17"]])
     = Raise "AttributeError".
Proof.
  split; [reflexivity | split; [reflexivity |]].
  apply (merge_sdk_dropdowns_attribute_error
           (mk_manifest [home_tab; mk_sdk_tab [mk_dropdown "v0.3.14"]])
           (mk_manifest [mk_sdk_tab [mk_dropdown "latest"; mk_dropdown "v0.4.17"]])
           (mk_sdk_tab [mk_dropdown "v0.3.14"])
           (mk_sdk_tab [mk_dropdown "latest"; mk_dropdown "v0.4.17"]));
    reflexivity.
Defined.

(** ** C4: [parse_version] *)

Lemma prefix_empty (s : string) : String.prefix "" s = true.
Proof. destruct s; reflexivity. Qed.

Lemma span_digits_app (d t : string) :
  forall_chars is_digit d = true -> no_digit_first t = true ->
  span_digits (d ++ t) = (d, t).
Proof.
  induction d as [| c d IH]; simpl; intros Hd Ht.
  - destruct t as [| c t]; simpl in *; [reflexivity |].
    apply negb_true_iff in Ht. rewrite Ht. reflexivity.
  - apply andb_true_iff in Hd as [Hc Hd]. rewrite Hc, (IH Hd Ht). reflexivity.
Qed.

Lemma span_digits_spec (s d t : string) :
  span_digits s = (d, t) -> s = d ++ t /\ forall_chars is_digit d = true.
Proof.
  revert d t. induction s as [| c s IH]; simpl; intros d t H.
  - injection H as <- <-. split; reflexivity.
  - destruct (is_digit c) eqn:Hc.
    + destruct (span_digits s) as [d' t'] eqn:Hs.
      injection H as <- <-. destruct (IH d' t' eq_refl) as [-> Hd'].
      split; [reflexivity | simpl; rewrite Hc, Hd'; reflexivity].
    + injection H as <- <-. split; reflexivity.
Qed.

Lemma re_match_v_major_minor_some (s p : string) :
  re_match_v_major_minor s = Some p ->
  exists d1 d2 rest, s = "v" ++ d1 ++ "." ++ d2 ++ rest
                     /\ digit_run d1 = true /\ digit_run d2 = true
                     /\ p = "v" ++ d1 ++ "." ++ d2.
Proof.
  unfold re_match_v_major_minor.
  destruct s as [| c r]; [discriminate |].
  destruct (Ascii.eqb_spec c "v"%char) as [-> | _]; [| discriminate].
  destruct (span_digits r) as [d1 r1] eqn:H1.
  destruct (span_digits_spec _ _ _ H1) as [-> Hd1].
  destruct d1 as [| c1 d1']; [discriminate |].
  destruct r1 as [| dot r2]; [discriminate |].
  destruct (Ascii.eqb_spec dot "."%char) as [-> | _]; [| discriminate].
  destruct (span_digits r2) as [d2 rest] eqn:H2.
  destruct (span_digits_spec _ _ _ H2) as [-> Hd2].
  destruct d2 as [| c2 d2']; [discriminate |].
  intros Hp. injection Hp as <-.
  exists (String c1 d1'), (String c2 d2'), rest. repeat split; assumption.
Qed.

(** C4 (amended: [parse_version] raises [ValueError]).  A string
    [v?<digits>.<digits>(.<digits>)?] parses to itself with a leading [v] and
    to the prefix [v<major>.<minor>]; a string that does not start, after an
    optional [v], with [<digits>.<digits>] makes [parse_version] raise
    [ValueError] (there is no [InvalidVersionError] in the code). *)
Theorem parse_version_correct :
  (forall pre d1 d2 patch,
      (pre = "" \/ pre = "v") -> digit_run d1 = true -> digit_run d2 = true ->
      (patch = "" \/ exists d3, digit_run d3 = true /\ patch = "." ++ d3) ->
      parse_version (pre ++ d1 ++ "." ++ d2 ++ patch)
      = Ok ("v" ++ d1 ++ "." ++ d2 ++ patch, "v" ++ d1 ++ "." ++ d2))
  /\ (forall s,
      (forall pre d1 d2 rest,
          (pre = "" \/ pre = "v") -> digit_run d1 = true -> digit_run d2 = true ->
          s <> pre ++ d1 ++ "." ++ d2 ++ rest) ->
      parse_version s = Raise "ValueError").
Proof.
  split.
  - intros pre d1 d2 patch Hpre Hd1 Hd2 Hpatch.
    assert (Hm : re_match_v_major_minor ("v" ++ d1 ++ "." ++ d2 ++ patch)
                 = Some ("v" ++ d1 ++ "." ++ d2)).
    { unfold re_match_v_major_minor. simpl.
      assert (Hf1 : forall_chars is_digit d1 = true)
        by (destruct d1; [discriminate | exact Hd1]).
      assert (Hf2 : forall_chars is_digit d2 = true)
        by (destruct d2; [discriminate | exact Hd2]).
      rewrite (span_digits_app d1 (String "."%char (d2 ++ patch)) Hf1 eq_refl).
      assert (Hp : no_digit_first patch = true)
        by (destruct Hpatch as [-> | [d3 [_ ->]]]; reflexivity).
      rewrite (span_digits_app d2 patch Hf2 Hp).
      destruct d1 as [| c1 d1']; [discriminate |].
      destruct d2 as [| c2 d2']; [discriminate |].
      reflexivity. }
    unfold parse_version.
    destruct Hpre as [-> | ->].
    + assert (Hv : py_startswith ("" ++ d1 ++ "." ++ d2 ++ patch) "v" = false).
      { destruct d1 as [| c1 d1']; [discriminate |].
        simpl in Hd1. apply andb_true_iff in Hd1 as [Hc1 _].
        unfold py_startswith. cbn [String.append String.prefix].
        destruct (ascii_dec "v" c1) as [<- | _]; [discriminate | reflexivity]. }
      rewrite Hv. cbv beta iota zeta. cbn [String.append] in *. rewrite Hm. reflexivity.
    + assert (Hv : py_startswith ("v" ++ d1 ++ "." ++ d2 ++ patch) "v" = true).
      { unfold py_startswith. cbn [String.append String.prefix].
        destruct (ascii_dec "v" "v") as [_ | n]; [apply prefix_empty | congruence]. }
      rewrite Hv. cbv beta iota zeta. cbn [String.append] in *. rewrite Hm. reflexivity.
  - intros s Hno. unfold parse_version.
    destruct (re_match_v_major_minor (if py_startswith s "v" then s else "v" ++ s)) as [p |] eqn:Hm;
      [| reflexivity].
    exfalso. apply re_match_v_major_minor_some in Hm as [d1 [d2 [rest [Hs [Hd1 [Hd2 _]]]]]].
    destruct (py_startswith s "v") eqn:Hv.
    + apply (Hno "v" d1 d2 rest (or_intror eq_refl) Hd1 Hd2 Hs).
    + injection Hs as Hs. apply (Hno "" d1 d2 rest (or_introl eq_refl) Hd1 Hd2 Hs).
Qed.

Lemma parse_version_correct_witness :
  parse_version ("v" ++ "0" ++ "." ++ "4" ++ ".17") = Ok ("v0.4.17", "v0.4")
  /\ parse_version "abc" = Raise "ValueError".
Proof.
  split.
  - apply (proj1 parse_version_correct "v" "0" "4" ".17");
      [right; reflexivity | reflexivity | reflexivity | right; exists "17"; split; reflexivity].
  - apply (proj2 parse_version_correct "abc").
    intros pre d1 d2 rest [-> | ->] Hd1 _ Hs;
      destruct d1 as [| c d1']; try discriminate; simpl in Hs; injection Hs as Hc _;
      subst c; discriminate.
Defined.

(** C4 (counterexample to the exception class).  On ["abc"], which has no
    leading major.minor pattern, [parse_version] raises [ValueError], not
    [InvalidVersionError]. *)
Lemma parse_version_raises_ValueError :
  parse_version "abc" = Raise "ValueError" /\ parse_version "abc" <> Raise "InvalidVersionError".
Proof. split; [reflexivity | discriminate]. Qed.

(** ** Insertion sort: permutation, sortedness, stability *)

Section SortFacts.
Context {K A : Type} (geb : K -> K -> bool).
Hypothesis geb_total : forall a b, geb a b = false -> geb b a = true.
Hypothesis geb_trans : forall a b c, geb a b = true -> geb b c = true -> geb a c = true.

Definition key_ge (x y : K * A) : Prop := geb (fst x) (fst y) = true.

Lemma insert_desc_perm (x : K * A) (l : list (K * A)) :
  Permutation (insert_desc geb x l) (x :: l).
Proof.
  induction l as [| y r IH]; simpl; [reflexivity |].
  destruct (geb (fst y) (fst x)).
  - transitivity (y :: x :: r); [constructor; exact IH | constructor].
  - reflexivity.
Qed.

Lemma fold_insert_perm (l acc : list (K * A)) :
  Permutation (fold_left (fun acc x => insert_desc geb x acc) l acc) (l ++ acc).
Proof.
  revert acc. induction l as [| x l IH]; intros acc; simpl; [reflexivity |].
  rewrite IH. rewrite insert_desc_perm. symmetry. apply Permutation_middle.
Qed.

Lemma stable_sort_desc_perm (l : list (K * A)) :
  Permutation (stable_sort_desc geb l) l.
Proof.
  unfold stable_sort_desc. rewrite fold_insert_perm. rewrite app_nil_r. reflexivity.
Qed.

Lemma insert_desc_sorted (x : K * A) (l : list (K * A)) :
  StronglySorted key_ge l -> StronglySorted key_ge (insert_desc geb x l).
Proof.
  induction l as [| y r IH]; simpl; intros Hs.
  - repeat constructor.
  - apply StronglySorted_inv in Hs as [Hr Hy].
    destruct (geb (fst y) (fst x)) eqn:Hyx.
    + constructor; [exact (IH Hr) |].
      apply (Permutation_Forall (Permutation_sym (insert_desc_perm x r))).
      constructor; [exact Hyx | exact Hy].
    + apply geb_total in Hyx.
      constructor; [constructor; assumption |].
      constructor; [exact Hyx |].
      eapply Forall_impl; [| exact Hy].
      intros z Hz. exact (geb_trans _ _ _ Hyx Hz).
Qed.

Lemma fold_insert_sorted (l acc : list (K * A)) :
  StronglySorted key_ge acc ->
  StronglySorted key_ge (fold_left (fun acc x => insert_desc geb x acc) l acc).
Proof.
  revert acc. induction l as [| x l IH]; intros acc Hs; simpl; [exact Hs |].
  apply IH. apply insert_desc_sorted. exact Hs.
Qed.

Lemma stable_sort_desc_sorted (l : list (K * A)) :
  StronglySorted key_ge (stable_sort_desc geb l).
Proof. apply fold_insert_sorted. constructor. Qed.

Lemma insert_desc_last (x : K * A) (l : list (K * A)) :
  Forall (fun y => key_ge y x) l -> insert_desc geb x l = (l ++ [x])%list.
Proof.
  induction l as [| y r IH]; simpl; intros H; [reflexivity |].
  inversion H as [| ? ? Hy Hr]; subst.
  unfold key_ge in Hy. rewrite Hy, (IH Hr). reflexivity.
Qed.

Lemma sorted_app_rel (l1 l2 : list (K * A)) :
  StronglySorted key_ge (l1 ++ l2) -> forall a b, In a l1 -> In b l2 -> key_ge a b.
Proof.
  induction l1 as [| y r IH]; simpl; intros Hs a b Ha Hb; [contradiction |].
  apply StronglySorted_inv in Hs as [Hr Hy].
  destruct Ha as [<- | Ha].
  - rewrite Forall_forall in Hy. apply Hy, in_or_app. right. exact Hb.
  - exact (IH Hr a b Ha Hb).
Qed.

Lemma fold_insert_sorted_id (rest acc : list (K * A)) :
  StronglySorted key_ge (acc ++ rest) ->
  fold_left (fun acc x => insert_desc geb x acc) rest acc = (acc ++ rest)%list.
Proof.
  revert acc. induction rest as [| x rest IH]; intros acc Hs; simpl.
  - rewrite app_nil_r. reflexivity.
  - rewrite insert_desc_last.
    + rewrite IH; [rewrite <- app_assoc; reflexivity |].
      rewrite <- app_assoc. exact Hs.
    + apply Forall_forall. intros y Hy.
      apply (sorted_app_rel acc (x :: rest) Hs); [exact Hy | left; reflexivity].
Qed.

Lemma stable_sort_desc_sorted_id (l : list (K * A)) :
  StronglySorted key_ge l -> stable_sort_desc geb l = l.
Proof. intros Hs. apply (fold_insert_sorted_id l []). exact Hs. Qed.

Lemma stable_sort_desc_snoc (l : list (K * A)) (x : K * A) :
  stable_sort_desc geb (l ++ [x])%list = insert_desc geb x (stable_sort_desc geb l).
Proof. unfold stable_sort_desc. rewrite fold_left_app. reflexivity. Qed.

Lemma filter_insert_desc (p : K * A -> bool) (x : K * A) (l : list (K * A)) :
  p x = false -> filter p (insert_desc geb x l) = filter p l.
Proof.
  intros Hx. induction l as [| y r IH]; simpl.
  - rewrite Hx. reflexivity.
  - destruct (geb (fst y) (fst x)); simpl.
    + rewrite IH. reflexivity.
    + rewrite Hx. reflexivity.
Qed.
End SortFacts.

Lemma tup_geb_total (a b : list Z) : tup_geb a b = false -> tup_geb b a = true.
Proof.
  revert b. induction a as [| x a IH]; intros [| y b]; simpl; try discriminate; intros H.
  - reflexivity.
  - destruct (Z.eqb_spec x y) as [-> | Hne].
    + rewrite Z.eqb_refl. apply IH. exact H.
    + destruct (Z.eqb_spec y x) as [-> | _]; [congruence |].
      rewrite Z.gtb_ltb in H |- *. apply Z.ltb_ge in H. apply Z.ltb_lt. lia.
Qed.

Lemma tup_geb_trans (a b c : list Z) :
  tup_geb a b = true -> tup_geb b c = true -> tup_geb a c = true.
Proof.
  revert b c. induction a as [| x a IH]; intros b c Hab Hbc.
  - destruct b as [| y b]; [| discriminate]. destruct c; [reflexivity | discriminate].
  - destruct c as [| z c]; [reflexivity |].
    destruct b as [| y b]; [discriminate |].
    simpl in *.
    destruct (Z.eqb x y) eqn:E1; destruct (Z.eqb y z) eqn:E2; destruct (Z.eqb x z) eqn:E3;
      rewrite ?Z.eqb_eq, ?Z.eqb_neq in E1, E2, E3; rewrite ?Z.gtb_lt in *; try lia.
    exact (IH _ _ Hab Hbc).
Qed.

Lemma vkey_geb_total (a b : vkey) : vkey_geb a b = false -> vkey_geb b a = true.
Proof.
  destruct a as [| x], b as [| y]; simpl; try discriminate; try reflexivity.
  apply tup_geb_total.
Qed.

Lemma vkey_geb_trans (a b c : vkey) :
  vkey_geb a b = true -> vkey_geb b c = true -> vkey_geb a c = true.
Proof.
  destruct a as [| x], b as [| y], c as [| z]; simpl; try discriminate; try reflexivity.
  apply tup_geb_trans.
Qed.

(** ** C6: re-running the dropdown merge of [update_navigation] *)

Lemma res_map_keyed_ok (l : list json) (P : list (vkey * json)) :
  res_map keyed_dropdown l = Ok P ->
  map snd P = l /\ Forall (fun kd => dropdown_vkey (snd kd) = Ok (fst kd)) P.
Proof.
  revert P. induction l as [| d r IH]; simpl; intros P H.
  - injection H as <-. split; [reflexivity | constructor].
  - apply bind_ok in H as [kd [Hkd H]].
    apply bind_ok in H as [P' [HP' H]]. injection H as <-.
    unfold keyed_dropdown in Hkd. apply bind_ok in Hkd as [k [Hk Hkd]]. injection Hkd as <-.
    destruct (IH P' HP') as [Hs Hf].
    split; [simpl; rewrite Hs; reflexivity | constructor; [exact Hk | exact Hf]].
Qed.

Lemma res_map_keyed_of (P : list (vkey * json)) :
  Forall (fun kd => dropdown_vkey (snd kd) = Ok (fst kd)) P ->
  res_map keyed_dropdown (map snd P) = Ok P.
Proof.
  induction P as [| [k d] r IH]; cbn [map snd res_map]; intros H; [reflexivity |].
  inversion H as [| ? ? Hk Hr]; subst. simpl in Hk.
  rewrite (IH Hr). unfold keyed_dropdown. rewrite Hk. reflexivity.
Qed.

Lemma res_filter_ok_true {A} (f : A -> Res bool) (l K : list A) :
  res_filter f l = Ok K -> Forall (fun d => f d = Ok true) K.
Proof.
  revert K. induction l as [| x r IH]; simpl; intros K H.
  - injection H as <-. constructor.
  - apply bind_ok in H as [b [Hb H]].
    apply bind_ok in H as [ys [Hys H]]. injection H as <-.
    destruct b; [constructor; [exact Hb |] |]; exact (IH ys Hys).
Qed.

Lemma res_filter_total {A} (f : A -> Res bool) (g : A -> bool) (l : list A) :
  Forall (fun d => f d = Ok (g d)) l -> res_filter f l = Ok (filter g l).
Proof.
  induction l as [| x r IH]; simpl; intros H; [reflexivity |].
  inversion H as [| ? ? Hx Hr]; subst.
  rewrite Hx. simpl. rewrite (IH Hr). simpl. destruct (g x); reflexivity.
Qed.

Lemma filter_map_snd {X Y} (g : Y -> bool) (l : list (X * Y)) :
  filter g (map snd l) = map snd (filter (fun x => g (snd x)) l).
Proof.
  induction l as [| x r IH]; simpl; [reflexivity |].
  destruct (g (snd x)); simpl; rewrite IH; reflexivity.
Qed.

Lemma filter_all_true {X} (p : X -> bool) (l : list X) :
  Forall (fun x => p x = true) l -> filter p l = l.
Proof.
  induction l as [| x r IH]; simpl; intros H; [reflexivity |].
  inversion H as [| ? ? Hx Hr]; subst. rewrite Hx, (IH Hr). reflexivity.
Qed.

Lemma prefix_app (a b : string) : String.prefix a (a ++ b) = true.
Proof.
  induction a as [| c a IH]; simpl.
  - apply prefix_empty.
  - destruct (ascii_dec c c) as [_ | n]; [exact IH | congruence].
Qed.

Lemma string_app_assoc (a b c : string) : (a ++ b) ++ c = a ++ b ++ c.
Proof. induction a as [| x a IH]; simpl; [reflexivity | rewrite IH; reflexivity]. Qed.

Lemma re_match_v_major_minor_prefix (s p : string) :
  re_match_v_major_minor s = Some p -> py_startswith s p = true.
Proof.
  intros H. apply re_match_v_major_minor_some in H as [d1 [d2 [rest [-> [_ [_ ->]]]]]].
  unfold py_startswith.
  replace ("v" ++ d1 ++ "." ++ d2 ++ rest) with (("v" ++ d1 ++ "." ++ d2) ++ rest)
    by (rewrite !string_app_assoc; reflexivity).
  apply prefix_app.
Qed.

Lemma dropdown_key_getitem (d : json) (s : string) :
  dropdown_key d = Some s -> py_getitem d "dropdown" = Ok (JStr s).
Proof.
  unfold dropdown_key. destruct d as [| | | | | kvs]; try discriminate.
  simpl. destruct (assoc_lookup "dropdown" kvs) as [[| | | s' | |] |]; try discriminate.
  intros H. injection H as ->. reflexivity.
Qed.

Lemma map_snd_snoc {X Y} (P : list (X * Y)) (l : list Y) (y : Y) :
  map snd P = (l ++ [y])%list ->
  exists P' x, P = (P' ++ [(x, y)])%list /\ map snd P' = l.
Proof.
  intros H. apply map_eq_app in H as [P1 [P2 [-> [H1 H2]]]].
  destruct P2 as [| [x y'] [| q r]]; try discriminate.
  simpl in H2. injection H2 as ->. exists P1, x. split; [reflexivity | exact H1].
Qed.

Lemma Forall_keyed_sort (P : list (vkey * json)) :
  Forall (fun kd => dropdown_vkey (snd kd) = Ok (fst kd)) P ->
  Forall (fun kd => dropdown_vkey (snd kd) = Ok (fst kd)) (stable_sort_desc vkey_geb P).
Proof.
  intros H. apply (Permutation_Forall (Permutation_sym (stable_sort_desc_perm vkey_geb P))).
  exact H.
Qed.

(** Running the dropdown merge of [update_navigation] (lines 61-85) again on
    its own result [L1]: unchanged when the new key [s] starts with
    [v<major>.<minor>], one element longer otherwise. *)
Lemma merge_new_dropdown_rerun_prefix (E nav nd : json) (L1 : list json) (s : string) :
  merge_new_dropdown E nav = Ok (nd, L1) ->
  dropdown_key nd = Some s ->
  (re_match_v_major_minor s <> None -> merge_new_dropdown (JArr L1) nav = Ok (nd, L1))
  /\ (re_match_v_major_minor s = None ->
      exists L2, merge_new_dropdown (JArr L1) nav = Ok (nd, L2)
                 /\ List.length L2 = S (List.length L1)).
Proof.
  intros H1 Hkey.
  pose proof (dropdown_key_getitem _ _ Hkey) as Hver.
  unfold merge_new_dropdown in H1.
  apply bind_ok in H1 as [nds [Hnds H1]].
  apply bind_ok in H1 as [nd0 [Hnd0 H1]].
  apply bind_ok in H1 as [ver [Hver0 H1]].
  apply bind_ok in H1 as [mmp [Hmmp H1]].
  apply bind_ok in H1 as [K [HK H1]].
  apply bind_ok in H1 as [L [HL H1]].
  injection H1 as -> ->.
  rewrite Hver in Hver0. injection Hver0 as <-.
  injection Hmmp as <-.
  unfold sort_dropdowns in HL.
  apply bind_ok in HL as [P [HP HL]]. injection HL as <-.
  destruct (res_map_keyed_ok _ _ HP) as [HPsnd HPkey].
  destruct (map_snd_snoc P K nd HPsnd) as [PK [knd [-> HPK]]].
  apply Forall_app in HPkey as [HPKkey Hndkey].
  inversion Hndkey as [| ? ? Hknd _]; subst. simpl in Hknd.
  rewrite stable_sort_desc_snoc.
  assert (Hsorted : StronglySorted (key_ge vkey_geb) (stable_sort_desc vkey_geb PK)).
  { apply stable_sort_desc_sorted; [exact vkey_geb_total | exact vkey_geb_trans]. }
  assert (Hrerun :
             merge_new_dropdown (JArr (map snd (insert_desc vkey_geb (knd, nd)
                                                 (stable_sort_desc vkey_geb PK)))) nav
             = (k <- (match re_match_v_major_minor s with
                      | Some p => res_filter (keep_dropdown p)
                                    (map snd (insert_desc vkey_geb (knd, nd)
                                                (stable_sort_desc vkey_geb PK)))
                      | None => Ok (map snd (insert_desc vkey_geb (knd, nd)
                                               (stable_sort_desc vkey_geb PK)))
                      end) ;;
                sorted <- sort_dropdowns (k ++ [nd])%list ;; Ok (nd, sorted))).
  { unfold merge_new_dropdown. rewrite Hnds. cbn [res_bind].
    rewrite Hnd0. cbn [res_bind]. rewrite Hver. cbn [res_bind].
    destruct (re_match_v_major_minor s); reflexivity. }
  split.
  - intros Hsome. destruct (re_match_v_major_minor s) as [p |] eqn:Hp; [| congruence].
    rewrite Hrerun.
    apply bind_ok in HK as [El [_ HK]].
    pose proof (res_filter_ok_true _ _ _ HK) as HKtrue.
    assert (Hndfalse : keep_dropdown p nd = Ok false).
    { unfold keep_dropdown. unfold py_getitem in Hver.
      destruct nd as [| | | | | kvs]; try discriminate. simpl.
      destruct (assoc_lookup "dropdown" kvs) as [v |]; [| discriminate].
      injection Hver as ->. simpl.
      rewrite (re_match_v_major_minor_prefix s p Hp). reflexivity. }
    set (g := fun d => match keep_dropdown p d with Ok b => b | Raise _ => false end).
    assert (HKsorted : Forall (fun x => g (snd x) = true) (stable_sort_desc vkey_geb PK)).
    { apply (Permutation_Forall (Permutation_sym (stable_sort_desc_perm vkey_geb PK))).
      apply Forall_forall. intros x Hx.
      rewrite Forall_forall in HKtrue.
      assert (Hin : In (snd x) (map snd PK)) by (apply in_map; exact Hx).
      unfold g. rewrite (HKtrue _ Hin). reflexivity. }
    rewrite (res_filter_total (keep_dropdown p) g).
    2:{ apply Forall_forall. intros d Hd.
        apply in_map_iff in Hd as [x [<- Hx]].
        apply (Permutation_in _ (insert_desc_perm vkey_geb (knd, nd) _)) in Hx.
        destruct Hx as [<- | Hx].
        - simpl. unfold g. rewrite Hndfalse. reflexivity.
        - rewrite Forall_forall in HKsorted. specialize (HKsorted x Hx).
          unfold g in *. destruct (keep_dropdown p (snd x)); [reflexivity | discriminate]. }
    cbn [res_bind].
    rewrite filter_map_snd.
    rewrite filter_insert_desc by (simpl; unfold g; rewrite Hndfalse; reflexivity).
    rewrite filter_all_true by exact HKsorted.
    unfold sort_dropdowns.
    replace (map snd (stable_sort_desc vkey_geb PK) ++ [nd])%list
      with (map snd (stable_sort_desc vkey_geb PK ++ [(knd, nd)])%list)
      by (rewrite map_app; reflexivity).
    rewrite res_map_keyed_of.
    2:{ apply Forall_app. split; [apply Forall_keyed_sort; exact HPKkey |].
        constructor; [exact Hknd | constructor]. }
    cbn [res_bind].
    rewrite stable_sort_desc_snoc.
    rewrite (stable_sort_desc_sorted_id vkey_geb _ Hsorted).
    reflexivity.
  - intros Hnone.
    rewrite Hrerun.
    rewrite Hnone. cbn [res_bind].
    unfold sort_dropdowns.
    set (S1 := insert_desc vkey_geb (knd, nd) (stable_sort_desc vkey_geb PK)).
    replace (map snd S1 ++ [nd])%list with (map snd (S1 ++ [(knd, nd)])%list)
      by (rewrite map_app; reflexivity).
    rewrite res_map_keyed_of.
    2:{ apply Forall_app. split; [| constructor; [exact Hknd | constructor]].
        unfold S1. rewrite <- stable_sort_desc_snoc.
        apply Forall_keyed_sort. apply Forall_app. split; [exact HPKkey |].
        constructor; [exact Hknd | constructor]. }
    cbn [res_bind].
    eexists. split; [reflexivity |].
    rewrite !length_map.
    rewrite (Permutation_length (stable_sort_desc_perm vkey_geb _)).
    rewrite length_app. simpl. lia.
Qed.

(** C6 (counterexample to idempotence).  Updating a manifest whose SDK tab
    has an empty dropdown list with a navigation structure whose dropdown is
    ["latest"] gives [latest]; applying the same update to that output gives
    [latest, latest]: a key without a [v<major>.<minor>] prefix evicts
    nothing. *)
Lemma update_navigation_twice_duplicates_latest :
  exists d1,
    update_navigation sdk_tab_name (mk_manifest [home_tab; mk_sdk_tab []])
      (mk_sdk_tab [mk_dropdown "latest"]) = Ok d1
    /\ result_dropdown_keys (Ok d1) = Some [Some "latest"]
    /\ result_dropdown_keys (update_navigation sdk_tab_name d1 (mk_sdk_tab [mk_dropdown "latest"]))
       = Some [Some "latest"; Some "latest"].
Proof.
  eexists. split; [vm_compute; reflexivity |].
  split; vm_compute; reflexivity.
Qed.

(** ** Path rewriting of navigation subtrees *)

Lemma in_list_sum {A} (f : A -> nat) x l :
  In x l -> f x <= list_sum (map f l).
Proof.
  induction l as [|y l IH]; simpl; [tauto|].
  intros [<-|H]; [lia|]. specialize (IH H). lia.
Qed.

Lemma map_rewrite_no_pages old new rw (r : list (string * json)) :
  existsb (String.eqb "pages") (map fst r) = false ->
  map (fun kv => (fst kv, if String.eqb (fst kv) "pages"
                          then rewrite_pages_value old new rw (snd kv) else snd kv)) r = r.
Proof.
  induction r as [|[k v] r IH]; cbn [map existsb fst snd]; [reflexivity|].
  intros H. apply orb_false_iff in H as [H1 H2].
  rewrite String.eqb_sym, H1, IH by exact H2. reflexivity.
Qed.

Lemma replace_page_list_ok old new rp rw (ps : list json) :
  forallb (page_wf group_wf) ps = true ->
  (forall p, In p ps -> group_wf p = true -> rp p = Ok (rw p)) ->
  replace_page_list old new rp ps = Ok (map (rewrite_leaf old new rw) ps).
Proof.
  induction ps as [|p ps IH]; simpl; [reflexivity|].
  intros Hwf Hrec. apply andb_true_iff in Hwf as [Hp Hps].
  rewrite IH by (exact Hps || (intros; apply Hrec; auto)).
  destruct p; try discriminate; simpl.
  - reflexivity.
  - rewrite (Hrec _ (or_introl eq_refl) Hp). reflexivity.
Qed.

Lemma replace_pages_entry_ok old new rp rw (kvs : list (string * json)) :
  keys_unique kvs = true ->
  existsb (fun kv => String.eqb (fst kv) "pages") kvs = true ->
  forallb (fun kv => if String.eqb (fst kv) "pages"
                     then match snd kv with
                          | JArr pages => forallb (page_wf group_wf) pages
                          | _ => false
                          end
                     else true) kvs = true ->
  (forall k ps p, In (k, JArr ps) kvs -> In p ps -> group_wf p = true -> rp p = Ok (rw p)) ->
  replace_pages_entry old new rp kvs
  = Ok (map (fun kv => (fst kv, if String.eqb (fst kv) "pages"
                                then rewrite_pages_value old new rw (snd kv) else snd kv)) kvs).
Proof.
  induction kvs as [|[k v] r IH];
    cbn [replace_pages_entry keys_unique existsb forallb map fst snd]; [discriminate|].
  intros Hu He Hf Hrec.
  apply andb_true_iff in Hu as [Hk Hu]. apply andb_true_iff in Hf as [Hkv Hf].
  destruct (String.eqb_spec k "pages") as [->|Hne].
  - destruct v; try discriminate.
    rewrite (replace_page_list_ok old new rp rw l Hkv)
      by (intros p Hin; apply (Hrec "pages" l p (or_introl eq_refl) Hin)).
    cbn [res_bind rewrite_pages_value].
    rewrite map_rewrite_no_pages by (apply negb_true_iff; exact Hk).
    reflexivity.
  - apply String.eqb_neq in Hne. simpl in He.
    rewrite IH; [reflexivity | exact Hu | exact He | exact Hf |].
    intros k' ps p Hin. apply (Hrec k' ps p (or_intror Hin)).
Qed.

Lemma replace_paths_ok_size old new n :
  forall g, json_size g < n -> group_wf g = true ->
  replace_paths old new g = Ok (rewrite_page_leaves old new g).
Proof.
  induction n as [|n IHn]; intros g Hs Hwf; [lia|].
  destruct g as [| | | | |kvs]; try discriminate.
  simpl in Hwf. apply andb_true_iff in Hwf as [Hwf Hf].
  apply andb_true_iff in Hwf as [Hu He].
  cbn [replace_paths rewrite_page_leaves].
  rewrite (replace_pages_entry_ok old new (replace_paths old new)
             (rewrite_page_leaves old new) kvs Hu He Hf).
  - reflexivity.
  - intros k ps p Hkv Hp Hpw. apply IHn; [|exact Hpw].
    simpl in Hs.
    pose proof (in_list_sum json_size p ps Hp) as H1.
    pose proof (in_list_sum (fun kv : string * json => json_size (snd kv)) (k, JArr ps) kvs Hkv) as H2.
    simpl in H2. lia.
Qed.

(** C7.  For every navigation group in which each group (the top one and
    every group nested in a ["pages"] list) is a dict with distinct keys and
    a ["pages"] list of page-path strings and nested groups, the path
    rewriter succeeds and its result is the group in which every string leaf
    of every ["pages"] list, at any depth, has [old] replaced by [new]
    (Python's [str.replace]), while every other key (["group"], ["icon"],
    ...) keeps its value. *)
Theorem replace_paths_rewrites_leaves (old new : string) (g : json) :
  group_wf g = true ->
  replace_paths old new g = Ok (rewrite_page_leaves old new g).
Proof.
  intros Hwf. exact (replace_paths_ok_size old new (S (json_size g)) g (Nat.lt_succ_diag_r _) Hwf).
Qed.

(** C7 on a two-level group: both page leaves are rewritten, the titles
    and icons are not. *)
Lemma replace_paths_rewrites_leaves_witness :
  group_wf sample_group = true /\
  replace_paths "sdk/latest/" "sdk/v0.4.17/" sample_group
  = Ok (JObj [("group", JStr "Tables"); ("icon", JStr "table");
              ("pages", JArr [JStr "sdk/v0.4.17/create_table";
                              JObj [("group", JStr "Views"); ("icon", JStr "eye");
                                    ("pages", JArr [JStr "sdk/v0.4.17/create_view"])]])]).
Proof.
  split; [vm_compute; reflexivity |].
  rewrite (replace_paths_rewrites_leaves "sdk/latest/" "sdk/v0.4.17/" sample_group
             ltac:(vm_compute; reflexivity)).
  vm_compute. reflexivity.
Defined.

(** ** Signature rendering *)

(** C8 (divergence).  A two-parameter signature is rendered on one line
    when a string default contains a closing parenthesis: for
    [(x: str = ')', y: int = 0)] the matching-parenthesis search, which does
    not skip string literals, stops inside the quotes, so the parameter list
    seen is the single fragment [x: str = '] and the rest is glued on as a
    return annotation.  The same signature with default ['a'] renders one
    parameter per indented line, every line but the last ending in a
    comma; the empty and one-parameter signatures render as [f()] and
    [f(x: int)]. *)
Theorem document_signature_paren_in_default_one_line :
  document_signature_plain "f" "(x: str = ')', y: int = 0)"
  = Ok (fence ++ "python" ++ nls ++ "f(x: str = ')', y: int = 0)" ++ nls
        ++ fence ++ nls ++ nls)
  /\ document_signature_plain "f" "(x: str = 'a', y: int = 0)"
  = Ok (fence ++ "python" ++ nls ++ "f(" ++ nls ++ indent4 ++ "x: str = 'a'," ++ nls
        ++ indent4 ++ "y: int = 0" ++ nls ++ ")" ++ nls ++ fence ++ nls ++ nls)
  /\ document_signature_plain "f" "()"
  = Ok (fence ++ "python" ++ nls ++ "f()" ++ nls ++ fence ++ nls ++ nls)
  /\ document_signature_plain "f" "(x: int)"
  = Ok (fence ++ "python" ++ nls ++ "f(x: int)" ++ nls ++ fence ++ nls ++ nls).
Proof.
  repeat split; vm_compute; reflexivity.
Qed.

(** ** Heading demotion in release notes *)

Lemma string_app_nil_r (s : string) : s ++ "" = s.
Proof. induction s as [| c s IH]; simpl; [reflexivity | rewrite IH; reflexivity]. Qed.

Lemma replace_go_no_newline (s rest : string) :
  no_newline s = true ->
  replace_go (String nl "## ") (String nl "#### ") (s ++ rest) 0
  = s ++ replace_go (String nl "## ") (String nl "#### ") rest 0.
Proof.
  induction s as [| c s IH]; intros H; [reflexivity |].
  unfold no_newline in H. cbn [forall_chars] in H.
  apply andb_true_iff in H as [Hc H].
  cbn [String.append replace_go String.prefix].
  destruct (ascii_dec nl c) as [<- | _].
  - rewrite Ascii.eqb_refl in Hc. discriminate.
  - rewrite IH by exact H. reflexivity.
Qed.

Lemma prefix_inv (p l : string) :
  String.prefix p l = true -> exists l', l = p ++ l'.
Proof.
  revert l. induction p as [| c p IH]; intros l H.
  - exists l. reflexivity.
  - destruct l as [| a l]; cbn [String.prefix] in H; [discriminate |].
    destruct (ascii_dec c a) as [<- | _]; [| discriminate].
    destruct (IH l H) as [l' ->]. exists l'. reflexivity.
Qed.

Lemma prefix_app_line_end (p l rest : string) :
  String.prefix p l = false -> no_newline p = true ->
  (rest = "" \/ exists r, rest = String nl r) ->
  String.prefix p (l ++ rest) = false.
Proof.
  revert p. induction l as [| a l IH]; intros p Hpl Hp Hrest.
  - destruct p as [| c p]; [discriminate |].
    destruct Hrest as [-> | [r ->]]; [reflexivity |].
    unfold no_newline in Hp. cbn [forall_chars] in Hp. apply andb_true_iff in Hp as [Hc _].
    cbn [String.append String.prefix].
    destruct (ascii_dec c nl) as [-> | _]; [rewrite Ascii.eqb_refl in Hc; discriminate | reflexivity].
  - destruct p as [| c p]; [rewrite prefix_empty in Hpl; discriminate |].
    unfold no_newline in Hp. cbn [forall_chars] in Hp. apply andb_true_iff in Hp as [_ Hp].
    cbn [String.append String.prefix] in *.
    destruct (ascii_dec c a); [apply IH; assumption | reflexivity].
Qed.

Lemma substring0_all (x : string) (m : nat) :
  String.length x <= m -> substring 0 m x = x.
Proof.
  revert m. induction x as [| c x IH]; intros m H.
  - destruct m; reflexivity.
  - destruct m as [| m]; cbn [String.length] in H; [lia |].
    cbn [substring]. rewrite IH by lia. reflexivity.
Qed.

Lemma substring_drop_h2 (x : string) :
  substring 3 (String.length ("## " ++ x)) ("## " ++ x) = x.
Proof.
  cbn [String.append String.length substring]. apply substring0_all. lia.
Qed.

Lemma demote_line_h2 (x : string) : demote_line ("## " ++ x) = "#### " ++ x.
Proof.
  unfold demote_line, py_startswith. rewrite prefix_app, substring_drop_h2. reflexivity.
Qed.

Lemma demote_line_other (l : string) :
  String.prefix "## " l = false -> demote_line l = l.
Proof. unfold demote_line, py_startswith. intros ->. reflexivity. Qed.

Lemma lines_tail_shape (ls : list string) :
  String.concat "" (map (fun l => nls ++ l) ls) = ""
  \/ exists r, String.concat "" (map (fun l => nls ++ l) ls) = String nl r.
Proof.
  destruct ls as [| l [| l' ls]]; [left; reflexivity | right | right]; eexists; reflexivity.
Qed.

Lemma lines_tail_shape_map (f : string -> string) (ls : list string) :
  String.concat "" (map (fun l => nls ++ f l) ls) = ""
  \/ exists r, String.concat "" (map (fun l => nls ++ f l) ls) = String nl r.
Proof.
  destruct ls as [| l [| l' ls]]; [left; reflexivity | right | right]; eexists; reflexivity.
Qed.

Lemma concat_empty_cons (x : string) (xs : list string) :
  String.concat "" (x :: xs) = x ++ String.concat "" xs.
Proof. destruct xs; simpl; [rewrite string_app_nil_r |]; reflexivity. Qed.

Lemma join_lines (l : string) (ls : list string) :
  py_join nls (l :: ls) = l ++ String.concat "" (map (fun x => nls ++ x) ls).
Proof.
  unfold py_join. revert l. induction ls as [| l' ls IH]; intros l.
  - simpl. rewrite string_app_nil_r. reflexivity.
  - change (String.concat nls (l :: l' :: ls)) with (l ++ nls ++ String.concat nls (l' :: ls)).
    rewrite IH. cbn [map]. rewrite concat_empty_cons, string_app_assoc. reflexivity.
Qed.

Lemma replace_go_line (l rest : string) :
  no_newline l = true -> (rest = "" \/ exists r, rest = String nl r) ->
  replace_go (String nl "## ") (String nl "#### ") (String nl (l ++ rest)) 0
  = String nl (demote_line l ++ replace_go (String nl "## ") (String nl "#### ") rest 0).
Proof.
  intros Hl Hrest.
  cbn [replace_go]. cbn [String.prefix]. destruct (ascii_dec nl nl) as [_ | n]; [| congruence].
  case_eq (String.prefix "## " l); intros Hp.
  - destruct (prefix_inv _ _ Hp) as [l' ->].
    rewrite string_app_assoc, prefix_app. rewrite demote_line_h2.
    cbn [String.append replace_go String.length Nat.sub].
    rewrite replace_go_no_newline; [reflexivity |].
    unfold no_newline in *. cbn [String.append forall_chars] in Hl. exact Hl.
  - rewrite (prefix_app_line_end _ _ _ Hp eq_refl Hrest).
    rewrite demote_line_other by exact Hp.
    rewrite replace_go_no_newline by exact Hl. reflexivity.
Qed.

Lemma replace_go_lines (ls : list string) :
  forallb no_newline ls = true ->
  replace_go (String nl "## ") (String nl "#### ") (String.concat "" (map (fun l => nls ++ l) ls)) 0
  = String.concat "" (map (fun l => nls ++ demote_line l) ls).
Proof.
  induction ls as [| l ls IH]; intros H; [reflexivity |].
  apply andb_true_iff in H as [Hl H].
  cbn [map]. rewrite !concat_empty_cons.
  change (nls ++ l) with (String nl l). change (nls ++ demote_line l) with (String nl (demote_line l)).
  cbn [String.append].
  rewrite replace_go_line by (exact Hl || apply lines_tail_shape).
  rewrite IH by exact H. reflexivity.
Qed.

(** C9 (amended).  For a release body made of lines without newlines, the
    heading rewrite works line by line: a line starting with ["## "] (a
    level-2 heading) becomes the same heading at level 4 (["#### "]),
    demoted by two levels, and every other line, including level-1 and
    level-3 headings, is left unchanged. *)
Theorem demote_headings_by_line (ls : list string) :
  forallb no_newline ls = true ->
  demote_headings (py_join nls ls) = py_join nls (map demote_line ls).
Proof.
  intros H. destruct ls as [| l ls]; [reflexivity |].
  apply andb_true_iff in H as [Hl H].
  cbn [map]. rewrite !join_lines, map_map.
  unfold demote_headings, py_replace.
  change (nls ++ "## ") with (String nl "## "). change (nls ++ "#### ") with (String nl "#### ").
  cbv beta iota zeta.
  rewrite replace_go_no_newline by exact Hl.
  rewrite replace_go_lines by exact H.
  unfold py_startswith.
  case_eq (String.prefix "## " l); intros Hp.
  - destruct (prefix_inv _ _ Hp) as [l' ->].
    rewrite string_app_assoc, prefix_app, substring_drop_h2, demote_line_h2, string_app_assoc.
    reflexivity.
  - rewrite (prefix_app_line_end _ _ _ Hp eq_refl (lines_tail_shape_map demote_line _)).
    rewrite demote_line_other by exact Hp. reflexivity.
Qed.

(** C9 on a two-line body: the level-2 heading becomes level 4 and the
    level-3 heading is unchanged. *)
Lemma demote_headings_by_line_witness :
  forallb no_newline ["## What's Changed"; "### Fixes"] = true /\
  demote_headings (py_join nls ["## What's Changed"; "### Fixes"])
  = py_join nls ["#### What's Changed"; "### Fixes"].
Proof.
  split; [reflexivity |].
  rewrite (demote_headings_by_line ["## What's Changed"; "### Fixes"] eq_refl).
  vm_compute. reflexivity.
Defined.

(** C9 (counterexample).  In the changelog, the release body
    ["## What's Changed"] is rendered as ["#### What's Changed"], a heading
    two levels below the original, and a level-3 heading ["### Fixes"] is
    not demoted at all. *)
Lemma release_body_heading_demoted_twice :
  release_body_markdown "## What's Changed" = "#### What's Changed"
  /\ release_body_markdown "### Fixes" = "### Fixes".
Proof. split; vm_compute; reflexivity. Qed.

(** ** Output directories of the changelog and contributors pages *)

(** C10 (amended).  For both generators, a failed fetch raises
    [RuntimeError] and leaves the output directory as it was.  A successful
    changelog run on a non-empty release list leaves the directory holding
    exactly the new [changelog.mdx] (it was deleted and recreated).  A
    successful contributors run on a non-empty list only writes
    [contributors.mdx] into the directory, creating it when absent: every
    other file already there is kept. *)
Theorem page_generation_outcomes
  (pf : json -> string) (iso : string -> option string) (ch hh hf : string)
  (card : string -> string -> string -> string -> string -> string) :
  (forall e d, generate_changelog_to_dir pf iso ch (Raise e) d = (d, Raise "RuntimeError"))
  /\ (forall e d, generate_contributors_page pf hh hf card (Raise e) d = (d, Raise "RuntimeError"))
  /\ (forall releases d d',
        truthy releases = true ->
        generate_changelog_to_dir pf iso ch (Ok releases) d = (d', Ok tt) ->
        exists c, d' = Some [("changelog.mdx", c)])
  /\ (forall cs d d',
        truthy cs = true ->
        generate_contributors_page pf hh hf card (Ok cs) d = (d', Ok tt) ->
        exists c, d' = Some (file_set "contributors.mdx" c
                               (match d with Some files => files | None => [] end))).
Proof.
  split; [reflexivity |]. split; [reflexivity |]. split.
  - intros releases d d' Ht H. unfold generate_changelog_to_dir in H.
    rewrite Ht in H. cbn [negb] in H.
    destruct (py_len releases); [| discriminate].
    destruct (py_iter releases) as [rs |]; [| discriminate].
    destruct (changelog_content pf iso ch rs) as [c |]; [| discriminate].
    cbn in H. injection H as <-. exists c. reflexivity.
  - intros cs d d' Ht H. unfold generate_contributors_page in H.
    rewrite Ht in H. cbn [negb] in H.
    destruct (py_len cs); [| discriminate].
    destruct cs as [| ? | ? | ? | cs | ?]; try discriminate.
    destruct (sorted_by_json_key_desc _ cs) as [sorted |]; [| discriminate].
    destruct (res_map (contributor_entry pf card) sorted) as [entries |]; [| discriminate].
    unfold write_text in H.
    destruct d as [files |]; injection H as <-; eexists; reflexivity.
Qed.

(** C10 on two runs into a directory holding [old.mdx]: the changelog run
    leaves only [changelog.mdx]; the contributors run, on contributors whose
    [contributions] are lists (compared item by item by the sort), adds
    [contributors.mdx] next to [old.mdx]. *)
Lemma page_generation_outcomes_witness :
  (exists c,
     fst (generate_changelog_to_dir sample_py_format (fun _ => None) "H"
            (Ok (JArr [JObj [("tag_name", JStr "v0.4.17"); ("body", JStr "## Fixes")]]))
            (Some [("old.mdx", "o")]))
     = Some [("changelog.mdx", c)])
  /\ (exists c,
        fst (generate_contributors_page sample_py_format "H" "F" sample_card
               (Ok (JArr [JObj [("login", JStr "a"); ("contributions", JArr [JNum 1])];
                          JObj [("login", JStr "b"); ("contributions", JArr [JNum 2])]]))
               (Some [("old.mdx", "o")]))
        = Some (file_set "contributors.mdx" c [("old.mdx", "o")])).
Proof.
  pose proof (page_generation_outcomes sample_py_format (fun _ => None) "H" "H" "F" sample_card)
    as [_ [_ [H3 H4]]].
  split.
  - apply (H3 (JArr [JObj [("tag_name", JStr "v0.4.17"); ("body", JStr "## Fixes")]])
              (Some [("old.mdx", "o")])).
    + reflexivity.
    + vm_compute. reflexivity.
  - apply (H4 (JArr [JObj [("login", JStr "a"); ("contributions", JArr [JNum 1])];
                     JObj [("login", JStr "b"); ("contributions", JArr [JNum 2])]])
              (Some [("old.mdx", "o")])).
    + reflexivity.
    + vm_compute. reflexivity.
Defined.

(** C10 (counterexample).  A successful contributors run into a directory
    holding [old.mdx] keeps [old.mdx]: the directory is patched, not
    cleared and rebuilt.  And a changelog run whose fetched release has a
    [null] body deletes the directory, recreates it and then fails with
    [AttributeError]: the previous [changelog.mdx] is gone and no new one is
    written. *)
Lemma contributors_page_keeps_old_files :
  (exists c,
     generate_contributors_page sample_py_format "H" "F" sample_card
       (Ok sample_contributors) (Some [("old.mdx", "o")])
     = (Some [("old.mdx", "o"); ("contributors.mdx", c)], Ok tt))
  /\ generate_changelog_to_dir sample_py_format (fun _ => None) "H"
       (Ok sample_null_body_releases) (Some [("changelog.mdx", "old")])
     = (Some [], Raise "AttributeError").
Proof.
  split; [eexists |]; vm_compute; reflexivity.
Qed.

(** ** What [deploy] pushes *)

Lemma path_prefixb_inv (p q : path) :
  path_prefixb p q = true -> exists r, q = (p ++ r)%list.
Proof.
  revert q. induction p as [| a p IH]; intros q H.
  - exists q. reflexivity.
  - destruct q as [| b q]; cbn [path_prefixb] in H; [discriminate |].
    apply andb_true_iff in H as [Hab H]. apply String.eqb_eq in Hab as ->.
    destruct (IH q H) as [r ->]. exists r. reflexivity.
Qed.

Lemma path_prefixb_app (p r : path) : path_prefixb p (p ++ r)%list = true.
Proof.
  induction p as [| a p IH]; cbn [path_prefixb app]; [reflexivity |].
  rewrite String.eqb_refl. exact IH.
Qed.

Lemma path_eqb_true (p q : path) : path_eqb p q = true -> p = q.
Proof.
  unfold path_eqb. intros H. apply andb_true_iff in H as [Hp Hl].
  destruct (path_prefixb_inv p q Hp) as [r ->].
  apply Nat.eqb_eq in Hl. rewrite length_app in Hl.
  destruct r; [rewrite app_nil_r; reflexivity | cbn in Hl; lia].
Qed.

Lemma fs_write_keeps (q p : path) (c : fcontent) (t : tree) :
  (exists c', In (q, c') t) -> exists c', In (q, c') (fs_write p c t).
Proof.
  intros [c' Hin]. unfold fs_write.
  case_eq (path_eqb p q); intros Hpq.
  - apply path_eqb_true in Hpq as ->. exists c. apply in_or_app. right. left. reflexivity.
  - exists c'. apply in_or_app. left. apply filter_In. split; [exact Hin |].
    cbn [fst]. rewrite Hpq. reflexivity.
Qed.

Lemma fs_graft_keeps (q pre : path) (sub t : tree) :
  (exists c', In (q, c') t) -> exists c', In (q, c') (fs_graft pre sub t).
Proof.
  unfold fs_graft. revert t.
  induction sub as [| e sub IH]; intros t H; cbn [fold_left]; [exact H |].
  apply IH. apply fs_write_keeps. exact H.
Qed.

Lemma fs_graft_adds (pre x : path) (c : fcontent) (sub t : tree) :
  In (x, c) sub -> exists c', In ((pre ++ x)%list, c') (fs_graft pre sub t).
Proof.
  unfold fs_graft. revert t.
  induction sub as [| e sub IH]; intros t Hin; cbn [fold_left]; [destruct Hin |].
  destruct Hin as [-> | Hin].
  - apply fs_graft_keeps. exists c. unfold fs_write. apply in_or_app. right. left. reflexivity.
  - apply IH. exact Hin.
Qed.

Lemma fs_remove_keeps (p q : path) (c : fcontent) (t : tree) :
  path_prefixb p q = false -> In (q, c) t -> In (q, c) (fs_remove p t).
Proof.
  intros Hpq Hin. unfold fs_remove. apply filter_In. split; [exact Hin |].
  cbn [fst]. rewrite Hpq. reflexivity.
Qed.

Lemma fs_subtree_in (p rest : path) (c : fcontent) (t : tree) :
  In ((p ++ rest)%list, c) t -> In (rest, c) (fs_subtree p t).
Proof.
  intros Hin. unfold fs_subtree.
  apply in_map_iff. exists ((p ++ rest)%list, c). split.
  - cbn [fst snd]. rewrite skipn_app, skipn_all, Nat.sub_diag. reflexivity.
  - apply filter_In. split; [exact Hin | apply path_prefixb_app].
Qed.

Lemma copy_latest_sdk_adds (target repo repo' : tree) (rest : path) (c : fcontent) :
  copy_latest_sdk target "latest" repo = Ok repo' ->
  In ((["sdk"; "latest"] ++ rest)%list, c) target ->
  exists c', In ((["sdk"; "latest"] ++ rest)%list, c') repo'.
Proof.
  unfold copy_latest_sdk. intros H Hin.
  destruct (fs_exists ["sdk"; "latest"] target); [| discriminate].
  injection H as <-. apply (fs_graft_adds _ _ c). apply fs_subtree_in. exact Hin.
Qed.

Lemma copy_latest_sdk_keeps (target repo repo' : tree) (name : string) (q : path) :
  path_prefixb ["sdk"; name] q = false ->
  copy_latest_sdk target name repo = Ok repo' ->
  (exists c, In (q, c) repo) -> exists c, In (q, c) repo'.
Proof.
  unfold copy_latest_sdk. intros Hq H [c Hin].
  destruct (fs_exists ["sdk"; "latest"] target); [| discriminate].
  injection H as <-. apply fs_graft_keeps. exists c. apply fs_remove_keeps; assumption.
Qed.

(** C5 (counterexample).  Deploying the sample build of 0.4.17 to [dev]
    pushes the file [sdk/latest/foo.mdx] and a [docs.json] whose SDK tab
    keeps the ["latest"] dropdown (with page [sdk/latest/foo]) next to
    ["v0.4.17"]; deploying it to [stage] raises [AttributeError] before
    anything is pushed. *)
Lemma deploy_dev_pushes_sdk_latest :
  (exists t,
     deploy "0.4.17" (Some target_tree) sample_remote false "dev" = Ok (Some ("dev", t))
     /\ In (["sdk"; "latest"; "foo.mdx"], FData "foo") t
     /\ result_dropdown_keys (load_json ["docs.json"] t) = Some [Some "latest"; Some "v0.4.17"])
  /\ deploy "0.4.17" (Some target_tree) sample_remote false "stage" = Raise "AttributeError".
Proof.
  split; [| vm_compute; reflexivity].
  eexists. split; [vm_compute; reflexivity |].
  split; [left; reflexivity | vm_compute; reflexivity].
Qed.

(** * Further properties of the code *)

(** ** Text helpers of [mintlifier/page_base.py] *)

Definition no_char (a : ascii) (s : string) : bool := forall_chars (fun c => negb (Ascii.eqb c a)) s.

Lemma replace_go_char (a b : ascii) (s : string) :
  replace_go (str1 a) (str1 b) s 0 = map_chars (fun c => if Ascii.eqb c a then b else c) s.
Proof.
  induction s as [| c s IH]; [reflexivity |].
  cbn [replace_go map_chars str1 String.prefix].
  destruct (ascii_dec a c) as [<- | Hne].
  - rewrite prefix_empty, Ascii.eqb_refl. cbn. rewrite IH. reflexivity.
  - rewrite IH. destruct (Ascii.eqb_spec c a); [congruence | reflexivity].
Qed.

Lemma py_replace_char (a b : ascii) (s : string) :
  py_replace (str1 a) (str1 b) s = map_chars (fun c => if Ascii.eqb c a then b else c) s.
Proof. apply replace_go_char. Qed.

Lemma map_chars_map_chars (f g : ascii -> ascii) (s : string) :
  map_chars f (map_chars g s) = map_chars (fun c => f (g c)) s.
Proof. induction s as [| c s IH]; cbn; [reflexivity | rewrite IH; reflexivity]. Qed.

Lemma map_chars_length (f : ascii -> ascii) (s : string) :
  String.length (map_chars f s) = String.length s.
Proof. induction s as [| c s IH]; cbn; [reflexivity | rewrite IH; reflexivity]. Qed.

Lemma map_chars_forall (f : ascii -> ascii) (P : ascii -> bool) (s : string) :
  (forall c, P (f c) = true) -> forall_chars P (map_chars f s) = true.
Proof.
  intros H. induction s as [| c s IH]; cbn; [reflexivity | rewrite H, IH; reflexivity].
Qed.

Lemma map_chars_id (f : ascii -> ascii) (s : string) :
  forall_chars (fun c => Ascii.eqb (f c) c) s = true -> map_chars f s = s.
Proof.
  induction s as [| c s IH]; cbn; [reflexivity |].
  intros H. apply andb_true_iff in H as [Hc H].
  apply Ascii.eqb_eq in Hc. rewrite Hc, IH by exact H. reflexivity.
Qed.

Lemma py_split_char_none (sep : ascii) (a : string) :
  no_char sep a = true -> py_split_char sep a = [a].
Proof.
  induction a as [| c a IH]; [reflexivity |].
  unfold no_char in *. cbn [forall_chars py_split_char]. intros H.
  apply andb_true_iff in H as [Hc H]. apply negb_true_iff in Hc. rewrite Hc, IH by exact H.
  reflexivity.
Qed.

Lemma py_split_char_app (sep : ascii) (a b : string) :
  no_char sep a = true -> py_split_char sep (a ++ String sep b) = a :: py_split_char sep b.
Proof.
  induction a as [| c a IH]; intros H; cbn [String.append py_split_char].
  - rewrite Ascii.eqb_refl. reflexivity.
  - unfold no_char in H. cbn [forall_chars] in H.
    apply andb_true_iff in H as [Hc H]. apply negb_true_iff in Hc. rewrite Hc, IH by exact H.
    reflexivity.
Qed.

Definition sanitize_char (c : ascii) : ascii :=
  let c := ascii_lower c in
  let c := if Ascii.eqb c " "%char then "-"%char else c in
  let c := if Ascii.eqb c "/"%char then "-"%char else c in
  if Ascii.eqb c "."%char then "-"%char else c.

Lemma sanitize_path_chars (text : string) :
  sanitize_path text = map_chars sanitize_char text.
Proof.
  unfold sanitize_path, py_lower.
  change "." with (str1 "."%char). change "/" with (str1 "/"%char).
  change " " with (str1 " "%char). change "-" with (str1 "-"%char).
  rewrite !py_replace_char, !map_chars_map_chars. reflexivity.
Qed.

Lemma sanitize_char_ok (c : ascii) :
  negb (char_in (sanitize_char c) " /.") && negb (is_upper (sanitize_char c)) = true.
Proof. destruct c as [[] [] [] [] [] [] [] []]; reflexivity. Qed.

(** The page path recorded in [docs.json] for a generated page is
    [docs/sdk/latest/<name>], where the name part is the page name with
    the same length, in lower case, and with spaces, slashes and dots
    turned into dashes; so the path has exactly four [/]-separated parts. *)
Theorem build_docs_json_path_shape (parent_groups : list string) (name : string) :
  let p := sanitize_path name in
  build_docs_json_path parent_groups name = "docs/sdk/latest/" ++ p
  /\ py_split_char "/"%char (build_docs_json_path parent_groups name) = ["docs"; "sdk"; "latest"; p]
  /\ String.length p = String.length name
  /\ forall_chars (fun c => negb (char_in c " /.") && negb (is_upper c)) p = true.
Proof.
  cbv zeta.
  assert (Hchars : forall_chars (fun c => negb (char_in c " /.") && negb (is_upper c))
                     (sanitize_path name) = true).
  { rewrite sanitize_path_chars. apply map_chars_forall. apply sanitize_char_ok. }
  assert (Hslash : no_char "/"%char (sanitize_path name) = true).
  { rewrite sanitize_path_chars. apply map_chars_forall.
    intros c. pose proof (sanitize_char_ok c) as H.
    destruct (Ascii.eqb_spec (sanitize_char c) "/"%char) as [E | _]; [| reflexivity].
    rewrite E in H. discriminate. }
  split; [reflexivity |]. split; [| split; [| exact Hchars]].
  - unfold build_docs_json_path.
    change ("docs/sdk/latest" ++ "/" ++ sanitize_path name)
      with ("docs" ++ String "/" ("sdk" ++ String "/" ("latest" ++ String "/" (sanitize_path name)))).
    rewrite !py_split_char_app by reflexivity.
    rewrite py_split_char_none by exact Hslash. reflexivity.
  - rewrite sanitize_path_chars. apply map_chars_length.
Qed.

Lemma escape_yaml_chars (text : string) :
  escape_yaml text = map_chars (fun c => if Ascii.eqb c dquote then "'"%char else c) text.
Proof.
  destruct text as [| c r]; [reflexivity |].
  unfold escape_yaml. change "'" with (str1 "'"%char). apply py_replace_char.
Qed.

(** [_escape_yaml] leaves no double quote in its result, keeps the length
    (each double quote becomes a single quote), and leaves a text without
    double quotes unchanged. *)
Theorem escape_yaml_spec (text : string) :
  no_char dquote (escape_yaml text) = true
  /\ String.length (escape_yaml text) = String.length text
  /\ (no_char dquote text = true -> escape_yaml text = text).
Proof.
  rewrite escape_yaml_chars. split; [| split].
  - apply map_chars_forall. intros c.
    destruct (Ascii.eqb_spec c dquote); [reflexivity |].
    apply negb_true_iff, Ascii.eqb_neq. exact n.
  - apply map_chars_length.
  - intros H. apply map_chars_id. unfold no_char in H.
    induction text as [| c r IH]; [reflexivity |].
    cbn [forall_chars] in *. apply andb_true_iff in H as [Hc H].
    apply negb_true_iff in Hc. rewrite Hc, Ascii.eqb_refl. exact (IH H).
Qed.

Lemma substring0_length (s : string) (m : nat) :
  String.length (substring 0 m s) = Nat.min m (String.length s).
Proof.
  revert m. induction s as [| c s IH]; intros m; destruct m; cbn; try reflexivity.
  rewrite IH. reflexivity.
Qed.

Lemma substring0_prefix (s : string) (m : nat) : String.prefix (substring 0 m s) s = true.
Proof.
  revert m. induction s as [| c s IH]; intros m; destruct m; cbn; try reflexivity; try apply prefix_empty.
  destruct (ascii_dec c c); [apply IH | congruence].
Qed.

(** A sidebar title is cut to at most [max_length] characters: the result
    is a prefix of the title whose length is the smaller of the two. *)
Theorem truncate_sidebar_title_spec (title : string) (max_length : nat) :
  String.length (truncate_sidebar_title title max_length) = Nat.min (String.length title) max_length
  /\ String.prefix (truncate_sidebar_title title max_length) title = true.
Proof.
  unfold truncate_sidebar_title.
  destruct (Nat.leb_spec (String.length title) max_length) as [H | H].
  - split; [lia |]. replace title with (title ++ "") at 2 by apply string_app_nil_r.
    apply prefix_app.
  - split; [rewrite substring0_length; lia | apply substring0_prefix].
Qed.

(** *** Escaping braces outside code *)

Lemma escape_braces_go_plain (c : ascii) (r : string) (cb ic : bool) :
  Ascii.eqb c backtick = false ->
  escape_braces_go (String c r) cb ic
  = if negb cb && negb ic then
      if Ascii.eqb c "{"%char then "\{" ++ escape_braces_go r cb ic
      else if Ascii.eqb c "}"%char then "\}" ++ escape_braces_go r cb ic
      else String c (escape_braces_go r cb ic)
    else String c (escape_braces_go r cb ic).
Proof.
  intros Hc. cbn [escape_braces_go].
  destruct r as [| c2 [| c3 r3]]; rewrite ?Hc, ?andb_false_r; cbn [andb]; reflexivity.
Qed.

Lemma escape_braces_go_tick (r : string) (ic : bool) :
  (forall r3, r <> String backtick (String backtick r3)) ->
  escape_braces_go (String backtick r) false ic = String backtick (escape_braces_go r false (negb ic)).
Proof.
  intros Hr. cbn [escape_braces_go].
  destruct r as [| c2 [| c3 r3]]; try reflexivity.
  destruct (Ascii.eqb_spec c2 backtick) as [-> | _];
    [destruct (Ascii.eqb_spec c3 backtick) as [-> | _] |];
    [exfalso; exact (Hr r3 eq_refl) | reflexivity | reflexivity].
Qed.

Lemma escape_braces_go_text (a rest : string) :
  no_char backtick a = true ->
  escape_braces_go (a ++ rest) false false = escape_all_braces a ++ escape_braces_go rest false false.
Proof.
  induction a as [| c a IH]; intros H; [reflexivity |].
  unfold no_char in H. cbn [forall_chars] in H. apply andb_true_iff in H as [Hc H].
  apply negb_true_iff in Hc.
  cbn [String.append]. rewrite escape_braces_go_plain by exact Hc.
  cbn [negb andb escape_all_braces].
  rewrite IH by exact H.
  destruct (Ascii.eqb c "{"%char); [reflexivity |].
  destruct (Ascii.eqb c "}"%char); reflexivity.
Qed.

Lemma escape_braces_go_inline (s rest : string) :
  no_char backtick s = true ->
  escape_braces_go (s ++ rest) false true = s ++ escape_braces_go rest false true.
Proof.
  induction s as [| c s IH]; intros H; [reflexivity |].
  unfold no_char in H. cbn [forall_chars] in H. apply andb_true_iff in H as [Hc H].
  apply negb_true_iff in Hc.
  cbn [String.append]. rewrite escape_braces_go_plain by exact Hc.
  cbn [negb andb]. rewrite IH by exact H. reflexivity.
Qed.

Lemma no_char_head (a : ascii) (s : string) (c : ascii) (r : string) :
  no_char a s = true -> s = String c r -> c <> a.
Proof.
  intros H ->. unfold no_char in H. cbn in H. apply andb_true_iff in H as [H _].
  apply negb_true_iff, Ascii.eqb_neq in H. exact H.
Qed.

(** [_escape_braces_outside_code] on text without backticks puts a
    backslash before every brace; text between a pair of single backticks
    (inline code) is kept as it is, while the text around it is escaped. *)
Theorem escape_braces_outside_code_spec (a s b : string) :
  no_char backtick a = true -> no_char backtick s = true -> no_char backtick b = true ->
  escape_braces_outside_code a = escape_all_braces a
  /\ escape_braces_outside_code (a ++ "`" ++ s ++ "`" ++ b)
     = escape_all_braces a ++ "`" ++ s ++ "`" ++ escape_all_braces b.
Proof.
  intros Ha Hs Hb. split.
  - destruct a as [| c a']; [reflexivity |].
    unfold escape_braces_outside_code.
    rewrite <- (string_app_nil_r (String c a')) at 1.
    rewrite escape_braces_go_text by exact Ha. apply string_app_nil_r.
  - unfold escape_braces_outside_code.
    replace (match a ++ "`" ++ s ++ "`" ++ b with
             | "" => a ++ "`" ++ s ++ "`" ++ b
             | String _ _ => escape_braces_go (a ++ "`" ++ s ++ "`" ++ b) false false
             end)
      with (escape_braces_go (a ++ "`" ++ s ++ "`" ++ b) false false)
      by (destruct a; reflexivity).
    rewrite escape_braces_go_text by exact Ha. f_equal.
    change ("`" ++ s ++ "`" ++ b) with (String backtick (s ++ "`" ++ b)).
    rewrite escape_braces_go_tick.
    + cbn [negb]. rewrite escape_braces_go_inline by exact Hs.
      change ("`" ++ b) with (String backtick b).
      rewrite escape_braces_go_tick.
      * cbn [negb]. rewrite <- (string_app_nil_r b) at 1.
        rewrite escape_braces_go_text by exact Hb.
        rewrite string_app_nil_r. reflexivity.
      * intros r3 E. exact (no_char_head _ _ _ _ Hb E eq_refl).
    + intros r3 E. destruct s as [| c s'].
      * cbn in E. injection E as E. exact (no_char_head _ _ _ _ Hb E eq_refl).
      * cbn in E. injection E as E1 _. subst c. exact (no_char_head _ _ _ _ Hs eq_refl eq_refl).
Qed.

Lemma escape_braces_outside_code_spec_witness :
  no_char backtick "a{b} " = true /\ no_char backtick "x{y}" = true /\ no_char backtick " {e}" = true
  /\ escape_braces_outside_code ("a{b} " ++ "`" ++ "x{y}" ++ "`" ++ " {e}")
     = escape_all_braces "a{b} " ++ "`" ++ "x{y}" ++ "`" ++ escape_all_braces " {e}".
Proof.
  split; [reflexivity |]. split; [reflexivity |]. split; [reflexivity |].
  apply (escape_braces_outside_code_spec "a{b} " "x{y}" " {e}"); reflexivity.
Defined.

(** ** Sorting and merging dropdowns of [mintlifier/docsjson_updater.py] *)

Lemma sorted_keyed_map_snd (S : list (vkey * json)) :
  StronglySorted (key_ge vkey_geb) S ->
  Forall (fun kd => dropdown_vkey (snd kd) = Ok (fst kd)) S ->
  StronglySorted (fun a b => exists ka kb, dropdown_vkey a = Ok ka /\ dropdown_vkey b = Ok kb
                                           /\ vkey_geb ka kb = true) (map snd S).
Proof.
  induction S as [| [k d] S IH]; intros Hs Hf; cbn [map snd]; [constructor |].
  apply StronglySorted_inv in Hs as [Hs Hhd].
  inversion Hf as [| ? ? Hk HfS]; subst. cbn [fst snd] in Hk.
  constructor; [exact (IH Hs HfS) |].
  apply Forall_map. rewrite Forall_forall in Hhd, HfS |- *.
  intros [k' d'] Hin. exists k, k'. split; [exact Hk |]. split.
  - exact (HfS _ Hin).
  - exact (Hhd _ Hin).
Qed.

Lemma sort_dropdowns_ok (ds l : list json) :
  sort_dropdowns ds = Ok l ->
  Permutation l ds
  /\ StronglySorted (fun a b => exists ka kb, dropdown_vkey a = Ok ka /\ dropdown_vkey b = Ok kb
                                             /\ vkey_geb ka kb = true) l
  /\ sort_dropdowns l = Ok l.
Proof.
  unfold sort_dropdowns. intros H.
  apply bind_ok in H as [P [HP H]]. injection H as <-.
  destruct (res_map_keyed_ok _ _ HP) as [Hds Hf].
  pose proof (Forall_keyed_sort P Hf) as HfS.
  pose proof (stable_sort_desc_sorted vkey_geb vkey_geb_total vkey_geb_trans P) as Hs.
  split; [| split].
  - rewrite <- Hds. apply Permutation_map, stable_sort_desc_perm.
  - apply sorted_keyed_map_snd; assumption.
  - rewrite (res_map_keyed_of _ HfS). cbn [res_bind].
    rewrite (stable_sort_desc_sorted_id vkey_geb _ Hs). reflexivity.
Qed.

(** When [_sort_dropdowns] succeeds, its result is a reordering of its
    input in which the version key never increases from one dropdown to a
    later one ("latest" first, then by decreasing version tuple); sorting
    that result again returns it unchanged. *)
Theorem sort_dropdowns_sorted_permutation (ds l : list json) :
  sort_dropdowns ds = Ok l ->
  Permutation l ds
  /\ StronglySorted (fun a b => exists ka kb, dropdown_vkey a = Ok ka /\ dropdown_vkey b = Ok kb
                                             /\ vkey_geb ka kb = true) l
  /\ sort_dropdowns l = Ok l.
Proof. apply sort_dropdowns_ok. Qed.

Lemma sort_dropdowns_sorted_permutation_witness :
  sort_dropdowns [mk_dropdown "v0.4"; mk_dropdown "latest"; mk_dropdown "v0.10"; mk_dropdown "v0.5"]
    = Ok [mk_dropdown "latest"; mk_dropdown "v0.10"; mk_dropdown "v0.5"; mk_dropdown "v0.4"]
  /\ Permutation [mk_dropdown "latest"; mk_dropdown "v0.10"; mk_dropdown "v0.5"; mk_dropdown "v0.4"]
                 [mk_dropdown "v0.4"; mk_dropdown "latest"; mk_dropdown "v0.10"; mk_dropdown "v0.5"].
Proof.
  assert (H : sort_dropdowns [mk_dropdown "v0.4"; mk_dropdown "latest"; mk_dropdown "v0.10"; mk_dropdown "v0.5"]
    = Ok [mk_dropdown "latest"; mk_dropdown "v0.10"; mk_dropdown "v0.5"; mk_dropdown "v0.4"])
    by (vm_compute; reflexivity).
  split; [exact H |].
  exact (proj1 (sort_dropdowns_sorted_permutation _ _ H)).
Defined.

Lemma res_filter_in {A} (f : A -> Res bool) (l K : list A) :
  res_filter f l = Ok K -> forall d, In d K <-> In d l /\ f d = Ok true.
Proof.
  revert K. induction l as [| x r IH]; cbn [res_filter]; intros K H d.
  - injection H as <-. cbn. tauto.
  - apply bind_ok in H as [b [Hb H]].
    apply bind_ok in H as [ys [Hys H]]. injection H as <-.
    specialize (IH ys Hys d). cbn [In].
    destruct b; cbn [In]; split.
    + intros [<- | Hd]; [tauto | tauto].
    + intros [[<- | Hd] Hf]; [left; reflexivity | right; tauto].
    + intros Hd. tauto.
    + intros [[<- | Hd] Hf]; [congruence | tauto].
Qed.

(** The dropdown merge of [update_navigation] (lines 61-85): the new
    dropdown is the first of the navigation structure's dropdowns, and the
    result holds exactly that dropdown and the existing dropdowns whose key
    does not start with the new version's [v<major>.<minor>] prefix (all of
    them when the new key has no such prefix). *)
Theorem merge_new_dropdown_members (l : list json) (nav nd : json) (L : list json) :
  merge_new_dropdown (JArr l) nav = Ok (nd, L) ->
  (exists nds, py_getitem nav "dropdowns" = Ok nds /\ py_index0 nds = Ok nd)
  /\ exists s, py_getitem nd "dropdown" = Ok (JStr s)
  /\ forall d, In d L <->
       d = nd \/ (In d l /\ match re_match_v_major_minor s with
                              | Some p => keep_dropdown p d = Ok true
                              | None => True
                              end).
Proof.
  unfold merge_new_dropdown. intros H.
  apply bind_ok in H as [nds [Hnds H]].
  apply bind_ok in H as [nd' [Hnd H]].
  apply bind_ok in H as [nv [Hnv H]].
  apply bind_ok in H as [mp [Hmp H]].
  apply bind_ok in H as [K [HK H]].
  apply bind_ok in H as [sorted [Hs H]]. injection H as <- <-.
  split; [exists nds; split; assumption |].
  destruct nv as [| | | s | |]; try discriminate. injection Hmp as <-.
  exists s. split; [exact Hnv |].
  destruct (sort_dropdowns_ok _ _ Hs) as [Hperm _].
  intros d. split.
  - intros Hd. apply (Permutation_in _ Hperm), in_app_or in Hd.
    destruct Hd as [Hd | [<- | []]]; [right | left; reflexivity].
    destruct (re_match_v_major_minor s) as [p |].
    + apply bind_ok in HK as [l' [Hl' HK]]. injection Hl' as <-.
      apply (res_filter_in _ _ _ HK) in Hd. exact Hd.
    + injection HK as <-. split; [exact Hd | exact I].
  - intros Hd. apply (Permutation_in _ (Permutation_sym Hperm)), in_or_app.
    destruct Hd as [-> | [Hd Hk]]; [right; left; reflexivity | left].
    destruct (re_match_v_major_minor s) as [p |].
    + apply bind_ok in HK as [l' [Hl' HK]]. injection Hl' as <-.
      apply (res_filter_in _ _ _ HK). split; assumption.
    + injection HK as <-. exact Hd.
Qed.

Lemma merge_new_dropdown_members_witness :
  merge_new_dropdown (JArr [mk_dropdown "v0.4.1"; mk_dropdown "latest"; mk_dropdown "v0.3.9"])
                     (JObj [("dropdowns", JArr [mk_dropdown "v0.4.2"])])
    = Ok (mk_dropdown "v0.4.2", [mk_dropdown "latest"; mk_dropdown "v0.4.2"; mk_dropdown "v0.3.9"])
  /\ py_getitem (mk_dropdown "v0.4.2") "dropdown" = Ok (JStr "v0.4.2").
Proof.
  assert (H : merge_new_dropdown (JArr [mk_dropdown "v0.4.1"; mk_dropdown "latest"; mk_dropdown "v0.3.9"])
                     (JObj [("dropdowns", JArr [mk_dropdown "v0.4.2"])])
    = Ok (mk_dropdown "v0.4.2", [mk_dropdown "latest"; mk_dropdown "v0.4.2"; mk_dropdown "v0.3.9"]))
    by (vm_compute; reflexivity).
  split; [exact H |].
  destruct (merge_new_dropdown_members _ _ _ _ H) as [_ [s [Hs _]]].
  rewrite Hs. vm_compute in Hs. symmetry. exact Hs.
Defined.

(** [parse_version] returns a version starting with [v] and a
    [v<major>.<minor>] prefix of it; parsing the returned version again
    gives the same pair. *)
Theorem parse_version_idempotent (version v' p : string) :
  parse_version version = Ok (v', p) ->
  py_startswith v' "v" = true /\ py_startswith v' p = true /\ parse_version v' = Ok (v', p).
Proof.
  unfold parse_version. intros H.
  assert (Hv : py_startswith (if py_startswith version "v" then version else "v" ++ version) "v" = true)
    by (destruct (py_startswith version "v") eqn:E; [exact E | apply prefix_app]).
  revert H Hv. generalize (if py_startswith version "v" then version else "v" ++ version).
  intros V H Hv.
  destruct (re_match_v_major_minor V) eqn:Hm; [| discriminate].
  injection H as <- <-.
  split; [exact Hv |]. split; [exact (re_match_v_major_minor_prefix _ _ Hm) |].
  rewrite Hv, Hm. reflexivity.
Qed.

Lemma parse_version_idempotent_witness :
  parse_version "0.4.12" = Ok ("v0.4.12", "v0.4")
  /\ parse_version "v0.4.12" = Ok ("v0.4.12", "v0.4").
Proof.
  assert (H : parse_version "0.4.12" = Ok ("v0.4.12", "v0.4")) by (vm_compute; reflexivity).
  split; [exact H | exact (proj2 (proj2 (parse_version_idempotent _ _ _ H)))].
Defined.

Lemma find_sdk_index_some (name : string) (tabs : list json) (k i : nat) :
  find_sdk_index name k tabs = Ok (Some i) ->
  k <= i < k + List.length tabs
  /\ (exists t, py_get (nth (i - k) tabs JNull) "tab" JNull = Ok t
       /\ (py_eq_str t name = true
           \/ (py_eq_str t "API Reference" = true
               /\ exists h, py_get (nth (i - k) tabs JNull) "href" JNull = Ok h /\ truthy h = true)))
  /\ (forall j, j < i - k ->
       exists t, py_get (nth j tabs JNull) "tab" JNull = Ok t /\ py_eq_str t name = false
       /\ (py_eq_str t "API Reference" = true ->
           exists h, py_get (nth j tabs JNull) "href" JNull = Ok h /\ truthy h = false)).
Proof.
  revert k. induction tabs as [| tab r IH]; intros k H; cbn [find_sdk_index] in H; [discriminate |].
  apply bind_ok in H as [t [Ht H]].
  destruct (py_eq_str t name) eqn:E1.
  - injection H as <-. rewrite Nat.sub_diag. cbn [nth List.length].
    split; [lia |]. split; [exists t; split; [exact Ht | left; exact E1] |]. intros j Hj; lia.
  - apply bind_ok in H as [href [Hh H]].
    destruct (py_eq_str t "API Reference" && truthy href) eqn:E2.
    + injection H as <-. rewrite Nat.sub_diag. cbn [nth List.length].
      apply andb_true_iff in E2 as [Ea Eh]. rewrite Ea in Hh.
      split; [lia |]. split; [| intros j Hj; lia].
      exists t. split; [exact Ht |]. right. split; [exact Ea |]. exists href. split; assumption.
    + destruct (IH (S k) H) as [Hb [Hm Hf]].
      replace (i - k) with (S (i - S k)) by lia. cbn [nth List.length].
      split; [lia |]. split; [exact Hm |].
      intros [| j] Hj; cbn [nth].
      * exists t. split; [exact Ht |]. split; [exact E1 |].
        intros Ea. rewrite Ea in Hh, E2. exists href. split; [exact Hh | exact E2].
      * apply Hf. lia.
Qed.

(** The tab search of [update_navigation] (lines 45-53) returns the index
    of a tab named [sdk_tab_name], or of an "API Reference" tab with a
    truthy [href], and every tab before it is neither. *)
Theorem find_sdk_index_first_match (name : string) (tabs : list json) (i : nat) :
  find_sdk_index name 0 tabs = Ok (Some i) ->
  i < List.length tabs
  /\ (exists t, py_get (nth i tabs JNull) "tab" JNull = Ok t
       /\ (py_eq_str t name = true
           \/ (py_eq_str t "API Reference" = true
               /\ exists h, py_get (nth i tabs JNull) "href" JNull = Ok h /\ truthy h = true)))
  /\ (forall j, j < i ->
       exists t, py_get (nth j tabs JNull) "tab" JNull = Ok t /\ py_eq_str t name = false
       /\ (py_eq_str t "API Reference" = true ->
           exists h, py_get (nth j tabs JNull) "href" JNull = Ok h /\ truthy h = false)).
Proof.
  intros H. destruct (find_sdk_index_some name tabs 0 i H) as [Hb [Hm Hf]].
  rewrite Nat.sub_0_r in Hm, Hf. split; [lia |]. split; assumption.
Qed.

Lemma find_sdk_index_first_match_witness :
  find_sdk_index sdk_tab_name 0 [home_tab; JObj [("tab", JStr "API Reference"); ("href", JStr "")];
                                 mk_sdk_tab []] = Ok (Some 2)
  /\ 2 < 3.
Proof.
  assert (H : find_sdk_index sdk_tab_name 0 [home_tab; JObj [("tab", JStr "API Reference"); ("href", JStr "")];
                                 mk_sdk_tab []] = Ok (Some 2)) by (vm_compute; reflexivity).
  split; [exact H | exact (proj1 (find_sdk_index_first_match _ _ _ H))].
Defined.

(** [update_navigation] on a manifest with a [navigation.tabs] list: when no
    SDK tab is found the navigation structure is appended as a new last tab;
    when the SDK tab found has no [dropdowns] key it is replaced by the
    navigation structure; nothing else of the manifest changes. *)
Theorem update_navigation_replace_or_append (name : string) (kvs nkvs : list (string * json))
    (tabs : list json) (nav : json) (r : option nat) :
  assoc_lookup "navigation" kvs = Some (JObj nkvs) ->
  assoc_lookup "tabs" nkvs = Some (JArr tabs) ->
  find_sdk_index name 0 tabs = Ok r ->
  match r with None => True | Some i => py_in "dropdowns" (nth i tabs JNull) = Ok false end ->
  update_navigation name (JObj kvs) nav
  = Ok (JObj (assoc_set "navigation"
                (JObj (assoc_set "tabs"
                         (JArr (match r with
                                | None => (tabs ++ [nav])%list
                                | Some i => list_set i nav tabs
                                end)) nkvs)) kvs)).
Proof.
  intros H1 H2 H3 H4.
  assert (Ht : truthy (JObj kvs) = true) by (destruct kvs; [discriminate | reflexivity]).
  unfold update_navigation. rewrite Ht.
  do 6 (simpl; rewrite ?H1, ?H2, ?H3).
  destruct r as [i |]; [| reflexivity].
  rewrite H4. reflexivity.
Qed.

Lemma update_navigation_replace_or_append_witness :
  update_navigation sdk_tab_name (mk_manifest [home_tab]) (mk_sdk_tab [])
  = Ok (JObj (assoc_set "navigation" (JObj (assoc_set "tabs" (JArr [home_tab; mk_sdk_tab []])
                                              [("tabs", JArr [home_tab])]))
              [("name", JStr "Pixeltable"); ("navigation", JObj [("tabs", JArr [home_tab])])])).
Proof.
  apply (update_navigation_replace_or_append sdk_tab_name _ [("tabs", JArr [home_tab])] [home_tab]
           (mk_sdk_tab []) None); try reflexivity; vm_compute; reflexivity.
Defined.

(** ** [shorten_pr_links] of [changelog/fetch_releases.py] *)

Lemma string_length_app (a b : string) :
  String.length (a ++ b) = String.length a + String.length b.
Proof. induction a as [| c a IH]; cbn; [reflexivity | rewrite IH; reflexivity]. Qed.

Lemma substring_length_le (n m : nat) (s : string) :
  String.length (substring n m s) <= String.length s.
Proof.
  revert n m. induction s as [| c s IH]; intros [| n] [| m]; cbn; try lia;
    first [apply le_n_S, IH | etransitivity; [apply IH | lia]].
Qed.

Lemma substring_after_prefix (p x : string) (m : nat) :
  substring (String.length p) m (p ++ x) = substring 0 m x.
Proof.
  revert m. induction p as [| c p IH]; intros m; [reflexivity |].
  cbn [String.length String.append]. destruct m; cbn [substring]; apply IH.
Qed.

Lemma shorten_pr_links_fuel_enough (n : nat) :
  forall text f, String.length text <= n -> String.length text <= f ->
  shorten_pr_links_fuel f text = shorten_pr_links_fuel (String.length text) text.
Proof.
  induction n as [| n IH]; intros text f Hn Hf.
  - destruct text; cbn in Hn; [| lia]. destruct f; reflexivity.
  - destruct text as [| c r]; [destruct f; reflexivity |].
    destruct f as [| f]; cbn [String.length] in *; [lia |].
    cbn [shorten_pr_links_fuel]. cbn [String.length].
    destruct (String.prefix pr_url (String c r)); [| rewrite (IH r f) by lia; reflexivity].
    destruct (span_digits (substring (String.length pr_url) (S (String.length r)) (String c r)))
      as [d rest] eqn:Hs.
    destruct d as [| c' d'].
    + rewrite (IH r f) by lia. reflexivity.
    + apply span_digits_spec in Hs as [Hs _].
      pose proof (substring_length_le (String.length pr_url) (S (String.length r)) (String c r)) as Hl.
      rewrite Hs in Hl. cbn [String.length] in Hl. rewrite string_length_app in Hl.
      cbn [String.length] in Hl.
      rewrite (IH rest f), (IH rest (String.length r)) by lia. reflexivity.
Qed.

(** A text that does not contain the pull-request URL prefix comes out of
    [shorten_pr_links] unchanged. *)
Theorem shorten_pr_links_no_url (text : string) :
  contains pr_url text = false -> shorten_pr_links text = text.
Proof.
  unfold shorten_pr_links. induction text as [| c r IH]; intros H; [reflexivity |].
  cbn [contains] in H. apply orb_false_iff in H as [Hp H].
  cbn [String.length shorten_pr_links_fuel]. rewrite Hp, (IH H). reflexivity.
Qed.

Lemma shorten_pr_links_no_url_witness :
  contains pr_url "See https://github.com/pixeltable/pixeltable/issues/12" = false
  /\ shorten_pr_links "See https://github.com/pixeltable/pixeltable/issues/12"
     = "See https://github.com/pixeltable/pixeltable/issues/12".
Proof.
  assert (H : contains pr_url "See https://github.com/pixeltable/pixeltable/issues/12" = false)
    by (vm_compute; reflexivity).
  split; [exact H | exact (shorten_pr_links_no_url _ H)].
Defined.

(** A pull-request URL followed by its number (all its digits) becomes the
    Markdown link [[#N](URL)], and the text after the number is processed
    in the same way. *)
Theorem shorten_pr_links_link (d t : string) :
  digit_run d = true -> no_digit_first t = true ->
  shorten_pr_links (pr_url ++ d ++ t)
  = "[#" ++ d ++ "](" ++ pr_url ++ d ++ ")" ++ shorten_pr_links t.
Proof.
  intros Hd Ht. unfold shorten_pr_links.
  assert (Hd' : forall_chars is_digit d = true) by (destruct d; [discriminate | exact Hd]).
  remember (pr_url ++ d ++ t) as T eqn:HT.
  destruct T as [| c0 r]; [unfold pr_url in HT; discriminate |].
  cbn [String.length shorten_pr_links_fuel].
  replace (String.length r) with (String.length (pr_url ++ d ++ t) - 1)
    by (rewrite <- HT; cbn [String.length]; lia).
  replace (S (String.length (pr_url ++ d ++ t) - 1)) with (String.length (pr_url ++ d ++ t))
    by (rewrite <- HT; cbn [String.length]; lia).
  rewrite HT, prefix_app.
  rewrite substring_after_prefix, substring0_all
    by (rewrite !string_length_app; lia).
  rewrite (span_digits_app d t Hd' Ht).
  destruct d as [| c d'']; [discriminate |].
  rewrite (shorten_pr_links_fuel_enough (String.length t) t
             (String.length (pr_url ++ String c d'' ++ t) - 1)); [reflexivity | lia |].
  rewrite !string_length_app. change (String.length (String c d'')) with (S (String.length d'')). lia.
Qed.

Lemma shorten_pr_links_link_witness :
  shorten_pr_links (pr_url ++ "123" ++ " and more")
  = "[#" ++ "123" ++ "](" ++ pr_url ++ "123" ++ ")" ++ shorten_pr_links " and more".
Proof. apply shorten_pr_links_link; reflexivity. Defined.

(** ** Parameter splitting and parenthesis matching of [mintlifier/page_base.py] *)

Lemma forall_chars_app (p : ascii -> bool) (a b : string) :
  forall_chars p (a ++ b) = forall_chars p a && forall_chars p b.
Proof.
  induction a as [| c a IH]; cbn; [reflexivity | rewrite IH, andb_assoc; reflexivity].
Qed.

Lemma py_split_char_cons (sep : ascii) (s : string) :
  exists w ws, py_split_char sep s = w :: ws.
Proof.
  induction s as [| c s IH]; cbn [py_split_char]; [eexists _, _; reflexivity |].
  destruct (Ascii.eqb c sep); [eexists _, _; reflexivity |].
  destruct IH as [w [ws ->]]. eexists _, _. reflexivity.
Qed.

Lemma split_params_go_plain (s : string) (prev : option ascii) (params : list string) (cur : string) :
  forall_chars plain_char s = true -> no_char ","%char cur = true ->
  split_params_go s prev params cur 0 false None
  = (params ++ map py_strip (drop_empty_last (py_split_char ","%char (cur ++ s))))%list.
Proof.
  revert prev params cur. induction s as [| c s IH]; intros prev params cur Hs Hcur.
  - rewrite string_app_nil_r, py_split_char_none by exact Hcur.
    destruct cur as [| c0 cur']; cbn; [rewrite app_nil_r; reflexivity | reflexivity].
  - cbn [forall_chars] in Hs. apply andb_true_iff in Hs as [Hc Hs].
    unfold plain_char in Hc. apply andb_true_iff in Hc as [Hc Hcl].
    apply andb_true_iff in Hc as [Hq Hop].
    apply negb_true_iff in Hq, Hop, Hcl.
    cbn [split_params_go negb]. rewrite Hq, Hop, Hcl. cbn [Z.eqb].
    destruct (Ascii.eqb_spec c ","%char) as [-> | Hne]; cbn [andb].
    + rewrite IH by (exact Hs || reflexivity).
      rewrite py_split_char_app by exact Hcur. cbn [String.append].
      destruct (py_split_char_cons ","%char s) as [w [ws Hws]].
      rewrite Hws. cbn [drop_empty_last map]. rewrite <- app_assoc. reflexivity.
    + rewrite IH by (exact Hs || (unfold no_char; rewrite forall_chars_app; unfold no_char in Hcur;
                                   rewrite Hcur; cbn; destruct (Ascii.eqb_spec c ","%char);
                                   [contradiction | reflexivity])).
      rewrite string_app_assoc. reflexivity.
Qed.

(** On a parameter string without quotes or brackets, [_split_params] is
    a split at every comma with each piece stripped of surrounding
    whitespace, except that an empty last piece (after a trailing comma) is
    dropped. *)
Theorem split_params_plain (s : string) :
  forall_chars plain_char s = true ->
  split_params s = map py_strip (drop_empty_last (py_split_char ","%char s)).
Proof. intros H. apply (split_params_go_plain s None [] ""); [exact H | reflexivity]. Qed.

Lemma split_params_plain_witness :
  forall_chars plain_char "a, b=1,  c ," = true
  /\ split_params "a, b=1,  c ," = ["a"; "b=1"; "c"].
Proof.
  assert (H : forall_chars plain_char "a, b=1,  c ," = true) by (vm_compute; reflexivity).
  split; [exact H |]. rewrite (split_params_plain _ H). vm_compute. reflexivity.
Defined.

Lemma paren_depth_open (r : string) : paren_depth (String "("%char r) = (1 + paren_depth r)%Z.
Proof. reflexivity. Qed.

Lemma paren_depth_close (r : string) : paren_depth (String ")"%char r) = (-1 + paren_depth r)%Z.
Proof. reflexivity. Qed.

Lemma paren_depth_other (c : ascii) (r : string) :
  c <> "("%char -> c <> ")"%char -> paren_depth (String c r) = paren_depth r.
Proof.
  intros H1 H2. cbn [paren_depth].
  destruct (Ascii.eqb_spec c "("%char); [contradiction |].
  destruct (Ascii.eqb_spec c ")"%char); [contradiction | reflexivity].
Qed.

Lemma match_paren_from_some (t : string) (i j : nat) (d : Z) :
  match_paren_from i d t = Some j ->
  exists u rest, t = u ++ String ")"%char rest /\ j = i + String.length u
    /\ (d + paren_depth u - 1 = 0)%Z
    /\ forall u1 u2, u = u1 ++ String ")"%char u2 -> (d + paren_depth u1 - 1 <> 0)%Z.
Proof.
  revert i d. induction t as [| c r IH]; intros i d H; cbn [match_paren_from] in H; [discriminate |].
  destruct (Ascii.eqb_spec c "("%char) as [-> | Hop].
  - destruct (IH _ _ H) as [u [rest [-> [-> [Hd Hf]]]]].
    exists (String "("%char u), rest. cbn [String.length String.append]. rewrite paren_depth_open.
    split; [reflexivity |]. split; [lia |]. split; [lia |].
    intros [| c1 u1] u2 E; cbn [String.append] in E; injection E as E1 E2; [discriminate |].
    subst c1. specialize (Hf u1 u2 E2). rewrite paren_depth_open. lia.
  - destruct (Ascii.eqb_spec c ")"%char) as [-> | Hcl].
    + destruct (Z.eqb_spec (d - 1) 0) as [Hz | Hz].
      * injection H as <-. exists "", r. split; [reflexivity |]. cbn [String.length paren_depth].
        split; [lia |]. split; [lia |]. intros [| c1 u1] u2 E; discriminate.
      * destruct (IH _ _ H) as [u [rest [-> [-> [Hd Hf]]]]].
        exists (String ")"%char u), rest. cbn [String.length String.append]. rewrite paren_depth_close.
        split; [reflexivity |]. split; [lia |]. split; [lia |].
        intros [| c1 u1] u2 E; cbn [String.append] in E.
        -- cbn [paren_depth]. lia.
        -- injection E as E1 E2. subst c1. specialize (Hf u1 u2 E2). rewrite paren_depth_close. lia.
    + destruct (IH _ _ H) as [u [rest [-> [-> [Hd Hf]]]]].
      exists (String c u), rest. cbn [String.length String.append].
      rewrite (paren_depth_other c u Hop Hcl).
      split; [reflexivity |]. split; [lia |]. split; [lia |].
      intros [| c1 u1] u2 E; cbn [String.append] in E; injection E as E1 E2; [congruence |].
      subst c1. specialize (Hf u1 u2 E2). rewrite (paren_depth_other c u1 Hop Hcl). lia.
Qed.

Lemma string_split_at (s : string) (o m : nat) :
  o <= String.length s -> String.length s <= o + m ->
  exists pre suf, s = pre ++ suf /\ String.length pre = o /\ substring o m s = suf
    /\ String.get o s = match suf with String c _ => Some c | EmptyString => None end.
Proof.
  revert o. induction s as [| c s IH]; intros o Ho Hm.
  - cbn in Ho. assert (o = 0) as -> by lia. exists "", "". destruct m; repeat split.
  - destruct o as [| o].
    + exists "", (String c s). split; [reflexivity |]. split; [reflexivity |].
      split; [apply substring0_all; lia | reflexivity].
    + cbn [String.length] in Ho, Hm.
      destruct (IH o ltac:(lia) ltac:(lia)) as [pre [suf [E [Hl [Hsub Hget]]]]].
      exists (String c pre), suf. cbn [String.append String.length substring String.get].
      rewrite <- E. split; [reflexivity |]. split; [lia |]. split; assumption.
Qed.

(** [_find_matching_paren(s, open_pos)] returns the position of the
    parenthesis that closes the one at [open_pos]: [s] has [(] at
    [open_pos] and [)] at the result, the text strictly between them is
    balanced, and no earlier [)] after [open_pos] brings the nesting back to
    zero. *)
Theorem find_matching_paren_closes (s : string) (open_pos j : nat) :
  find_matching_paren s open_pos = Some j ->
  exists pre u rest,
    s = pre ++ String "("%char (u ++ String ")"%char rest)
    /\ String.length pre = open_pos /\ j = open_pos + 1 + String.length u
    /\ paren_depth u = 0%Z
    /\ forall u1 u2, u = u1 ++ String ")"%char u2 -> paren_depth u1 <> 0%Z.
Proof.
  unfold find_matching_paren. intros H.
  destruct (Nat.leb_spec (String.length s) open_pos) as [Hle | Hlt]; [discriminate |].
  destruct (string_split_at s open_pos (String.length s) ltac:(lia) ltac:(lia))
    as [pre [suf [E [Hl [Hsub Hget]]]]].
  rewrite Hget, Hsub in H.
  destruct suf as [| c t]; [discriminate |].
  destruct (Ascii.eqb_spec c "("%char) as [-> | _]; [| discriminate].
  cbn [match_paren_from Ascii.eqb] in H.
  destruct (match_paren_from_some _ _ _ _ H) as [u [rest [-> [-> [Hd Hf]]]]].
  exists pre, u, rest. split; [exact E |]. split; [exact Hl |]. split; [lia |].
  split; [lia |]. intros u1 u2 Eu. specialize (Hf u1 u2 Eu). lia.
Qed.

Lemma find_matching_paren_closes_witness :
  find_matching_paren "f(a=(1, 2), b) -> int" 1 = Some 13
  /\ exists pre u rest,
       "f(a=(1, 2), b) -> int" = pre ++ String "("%char (u ++ String ")"%char rest)
       /\ String.length pre = 1 /\ 13 = 1 + 1 + String.length u /\ paren_depth u = 0%Z
       /\ forall u1 u2, u = u1 ++ String ")"%char u2 -> paren_depth u1 <> 0%Z.
Proof.
  assert (H : find_matching_paren "f(a=(1, 2), b) -> int" 1 = Some 13) by (vm_compute; reflexivity).
  split; [exact H | exact (find_matching_paren_closes _ _ _ H)].
Defined.

(** ** [replace_paths] of [deploy.py]: what it changes and when it fails *)

Lemma replace_pages_entry_no_pages (old new : string) (rp : json -> Res json) (kvs : list (string * json)) :
  assoc_lookup "pages" kvs = None -> replace_pages_entry old new rp kvs = Raise "KeyError".
Proof.
  induction kvs as [| [k v] r IH]; intros H; [reflexivity |].
  cbn [assoc_lookup] in H. cbn [replace_pages_entry].
  rewrite String.eqb_sym. destruct (String.eqb "pages" k); [discriminate |].
  rewrite (IH H). reflexivity.
Qed.

Lemma replace_pages_entry_frame (old new : string) (rp : json -> Res json) (kvs kvs' : list (string * json)) :
  replace_pages_entry old new rp kvs = Ok kvs' ->
  map fst kvs' = map fst kvs
  /\ forall k, k <> "pages" -> assoc_lookup k kvs' = assoc_lookup k kvs.
Proof.
  revert kvs'. induction kvs as [| [k v] r IH]; intros kvs' H; cbn [replace_pages_entry] in H;
    [discriminate |].
  destruct (String.eqb_spec k "pages") as [-> | Hne].
  - apply bind_ok in H as [v' [_ H]]. injection H as <-.
    split; [reflexivity |]. intros k Hk. cbn [assoc_lookup].
    destruct (String.eqb_spec k "pages"); [contradiction | reflexivity].
  - apply bind_ok in H as [r' [Hr H]]. injection H as <-.
    destruct (IH r' Hr) as [Hf Hl]. cbn [map fst]. rewrite Hf.
    split; [reflexivity |]. intros k' Hk'. cbn [assoc_lookup]. rewrite (Hl k' Hk'). reflexivity.
Qed.

(** [replace_paths] on a group dict raises [KeyError] when the group has no
    ["pages"] key; when it succeeds, the group keeps its keys in the same
    order and every value other than ["pages"] is left as it was. *)
Theorem replace_paths_frame (old new : string) (kvs : list (string * json)) :
  (assoc_lookup "pages" kvs = None -> replace_paths old new (JObj kvs) = Raise "KeyError")
  /\ (forall kvs', replace_paths old new (JObj kvs) = Ok (JObj kvs') ->
        map fst kvs' = map fst kvs
        /\ forall k, k <> "pages" -> assoc_lookup k kvs' = assoc_lookup k kvs).
Proof.
  split.
  - intros H. cbn [replace_paths]. rewrite replace_pages_entry_no_pages by exact H. reflexivity.
  - intros kvs' H. cbn [replace_paths] in H.
    apply bind_ok in H as [kvs'' [Hk H]]. injection H as <-.
    exact (replace_pages_entry_frame _ _ _ _ _ Hk).
Qed.

(** ** [release_section]: the only exception, and when it is raised *)

(** Rendering one release (lines 171-205 of [fetch_releases.py]) raises
    nothing but [AttributeError], and it succeeds exactly when the release
    is a dict whose ["author"] is absent or a dict and whose ["body"] is
    absent or a string (a [null] author or body fails). *)
Theorem release_section_outcome (pf : json -> string) (iso : string -> option string) (r : json) :
  (forall e, release_section pf iso r = Raise e -> e = "AttributeError")
  /\ ((exists s, release_section pf iso r = Ok s) <->
      exists kvs, r = JObj kvs
        /\ match assoc_lookup "author" kvs with Some (JObj _) | None => True | Some _ => False end
        /\ match assoc_lookup "body" kvs with Some (JStr _) | None => True | Some _ => False end).
Proof.
  destruct r as [| | | | | kvs];
    try (split; [intros e H; injection H as <-; reflexivity
                | split; [intros [? H]; discriminate | intros [? [H _]]; discriminate]]).
  unfold release_section. cbn [py_get res_bind].
  destruct (assoc_lookup "author" kvs) as [[| | | | | akvs] |] eqn:Ea;
    destruct (assoc_lookup "body" kvs) as [[| | | sb | |] |] eqn:Eb; cbn [py_get res_bind];
    (split; [intros e He; first [discriminate | injection He as <-; reflexivity] |]);
    (split; [intros [s0 Hs]; first [discriminate | exists kvs; rewrite Ea, Eb; repeat split] |]);
    intros [k [Hk [Ha Hb]]]; injection Hk as <-; rewrite Ea, Eb in *;
    first [contradiction | eexists; reflexivity].
Qed.

Lemma replace_paths_frame_witness :
  replace_paths "sdk/latest/" "sdk/v0.4.17/" (JObj [("group", JStr "Tables")]) = Raise "KeyError".
Proof. apply (proj1 (replace_paths_frame _ _ _)). reflexivity. Defined.

Lemma escape_yaml_spec_witness :
  no_char dquote "plain title" = true /\ escape_yaml "plain title" = "plain title".
Proof.
  assert (H : no_char dquote "plain title" = true) by (vm_compute; reflexivity).
  split; [exact H | exact (proj2 (proj2 (escape_yaml_spec _)) H)].
Defined.

(** ** What else [deploy] pushes *)

Lemma copy_latest_sdk_adds_named (target repo repo' : tree) (name : string) (rest : path) (c : fcontent) :
  copy_latest_sdk target name repo = Ok repo' ->
  In ((["sdk"; "latest"] ++ rest)%list, c) target ->
  exists c', In ((["sdk"; name] ++ rest)%list, c') repo'.
Proof.
  unfold copy_latest_sdk. intros H Hin.
  destruct (fs_exists ["sdk"; "latest"] target); [| discriminate].
  injection H as <-. apply (fs_graft_adds _ _ c). apply fs_subtree_in. exact Hin.
Qed.

Lemma top_name_not_sdk (q : path) (name : string) :
  top_name q <> "sdk" -> path_prefixb ["sdk"; name] q = false.
Proof.
  destruct q as [| a q]; intros H; [reflexivity |].
  cbn [path_prefixb top_name] in *. destruct (String.eqb_spec "sdk" a) as [<- | _]; [contradiction |].
  reflexivity.
Qed.

Lemma copy_docs_keeps (target repo repo' : tree) (q : path) (c : fcontent) :
  copy_docs target repo = Ok repo' -> In (q, c) target -> top_name q <> "sdk" -> In (q, c) repo'.
Proof.
  unfold copy_docs. intros H Hin Hq.
  destruct (existsb _ _); [discriminate |]. injection H as <-.
  apply in_or_app. right. apply filter_In. split; [exact Hin |].
  cbn [fst]. destruct (String.eqb_spec (top_name q) "sdk"); [contradiction | reflexivity].
Qed.

(** Whenever [deploy] pushes a tree, the tree holds every file the build
    has under [sdk/latest/] also under [sdk/<display version>/] (the
    version with [+] turned into [.] and a leading [v]), it holds every file
    of the build outside [sdk/], and its [docs.json] is the build's
    [docs.json] with the versioned dropdown added. *)
Theorem deploy_pushes_versioned_copy (pxt_version : string) (target : tree)
  (remote : list (string * tree)) (validation_errors : bool) (branch br : string) (t : tree) :
  deploy pxt_version (Some target) remote validation_errors branch = Ok (Some (br, t)) ->
  let dv := "v" ++ py_replace "+" "." pxt_version in
  (forall rest c, In ((["sdk"; "latest"] ++ rest)%list, c) target ->
                  exists c', In ((["sdk"; dv] ++ rest)%list, c') t)
  /\ (forall q c, In (q, c) target -> top_name q <> "sdk" -> exists c', In (q, c') t)
  /\ exists nd nd', load_json ["docs.json"] target = Ok nd
       /\ add_versioned_dropdown dv nd = Ok nd' /\ In (["docs.json"], FJson nd') t.
Proof.
  intros H. unfold deploy in H.
  cbn [res_bind] in H.
  apply bind_ok in H as [dv [Hdv H]].
  apply bind_ok in H as [cloned [Hcl H]].
  apply bind_ok in H as [existing [Hex H]].
  apply bind_ok in H as [new_docs [Hnd H]].
  cbv beta zeta in H.
  apply bind_ok in H as [repo1 [Hr1 H]].
  apply bind_ok in H as [repo2 [Hr2 H]].
  apply bind_ok in H as [repo3 [Hr3 H]].
  apply bind_ok in H as [new_docs' [Hnd' H]].
  apply bind_ok in H as [new_docs'' [Hmerge H]].
  destruct (String.eqb_spec branch "dev") as [-> | Hne].
  2: { destruct (merge_sdk_dropdowns_never_ok existing new_docs') as [cls Hcls].
       rewrite Hcls in Hmerge. discriminate. }
  injection Hmerge as <-.
  unfold display_version_of in Hdv. cbn [String.eqb] in Hdv. injection Hdv as <-.
  cbv beta zeta in H. cbn [negb] in H. rewrite andb_false_r in H.
  destruct (fs_same cloned _); [discriminate |].
  injection H as <- <-. cbv zeta.
  split; [| split].
  - intros rest c Hin. apply fs_write_keeps.
    exact (copy_latest_sdk_adds_named _ _ _ _ _ _ Hr3 Hin).
  - intros q c Hin Hq. apply fs_write_keeps.
    apply (copy_latest_sdk_keeps target repo2 repo3 _ q (top_name_not_sdk q _ Hq) Hr3).
    apply (copy_latest_sdk_keeps target repo1 repo2 _ q (top_name_not_sdk q _ Hq) Hr2).
    exists c. exact (copy_docs_keeps _ _ _ _ _ Hr1 Hin Hq).
  - exists new_docs, new_docs'. split; [exact Hnd |]. split; [exact Hnd' |].
    unfold fs_write. apply in_or_app. right. left. reflexivity.
Qed.

Lemma deploy_pushes_versioned_copy_witness :
  exists t, deploy "0.4.17" (Some target_tree) sample_remote false "dev" = Ok (Some ("dev", t))
    /\ exists c', In ((["sdk"; String.append "v" (py_replace "+" "." "0.4.17")] ++ ["foo.mdx"])%list, c') t.
Proof.
  eexists. split; [vm_compute; reflexivity |].
  apply (proj1 (deploy_pushes_versioned_copy "0.4.17" target_tree sample_remote false "dev" "dev" _
                  ltac:(vm_compute; reflexivity)) ["foo.mdx"] (FData "foo")).
  vm_compute. auto.
Defined.

(** ** The displayed version of [deploy] *)

(** Off the [dev] branch, a three-part version [a.b.c] is displayed as
    [va.b.c]; a longer version [a.b.N.rest] (a development version) is
    displayed as [va.b.(N-1)], and fails the assertion when [N] is not
    positive. *)
Theorem display_version_of_release (branch a b d rest : string) (n : Z) :
  branch <> "dev" ->
  no_char "."%char a = true -> no_char "."%char b = true -> no_char "."%char d = true ->
  display_version_of (a ++ "." ++ b ++ "." ++ d) branch = Ok ("v" ++ a ++ "." ++ b ++ "." ++ d)
  /\ (py_int d = Some n ->
      display_version_of (a ++ "." ++ b ++ "." ++ d ++ "." ++ rest) branch
      = if Z.ltb 0 n then Ok ("v" ++ a ++ "." ++ b ++ "." ++ z_str (n - 1))
        else Raise "AssertionError").
Proof.
  intros Hbr Ha Hb Hd. unfold display_version_of.
  destruct (String.eqb_spec branch "dev") as [E | _]; [contradiction |].
  cbn [String.append].
  rewrite !py_split_char_app by assumption.
  split.
  - rewrite py_split_char_none by exact Hd. reflexivity.
  - intros Hn. destruct (py_split_char_cons "."%char rest) as [w [ws ->]].
    cbn [List.length Nat.eqb nth_error res_bind]. rewrite Hn. cbn [res_bind].
    destruct (Z.ltb 0 n); reflexivity.
Qed.

Lemma display_version_of_release_witness :
  display_version_of "0.4.23.dev15" "main" = Ok "v0.4.22".
Proof.
  change "0.4.23.dev15" with ("0" ++ "." ++ "4" ++ "." ++ "23" ++ "." ++ "dev15").
  rewrite (proj2 (display_version_of_release "main" "0" "4" "23" "dev15" 23
                    ltac:(discriminate) eq_refl eq_refl eq_refl) eq_refl).
  vm_compute. reflexivity.
Defined.

(** ** The contributors sort of [fetch_contributors.py] *)



Lemma res_map_length {A B} (f : A -> Res B) (l : list A) (ys : list B) :
  res_map f l = Ok ys -> List.length ys = List.length l.
Proof.
  revert ys. induction l as [| x r IH]; cbn [res_map]; intros ys H.
  - injection H as <-. reflexivity.
  - apply bind_ok in H as [y [_ H]]. apply bind_ok in H as [ys' [Hys H]]. injection H as <-.
    cbn. rewrite (IH _ Hys). reflexivity.
Qed.

Lemma all_some_length {X Y} (g : X -> option Y) (l : list X) (zs : list Y) :
  all_some (map g l) = Some zs -> List.length zs = List.length l.
Proof.
  revert zs. induction l as [| x r IH]; cbn [map all_some]; intros zs H.
  - injection H as <-. reflexivity.
  - destruct (g x); [| discriminate]. destruct (all_some (map g r)) eqn:E; [| discriminate].
    cbn in H. injection H as <-. cbn. rewrite (IH _ eq_refl). reflexivity.
Qed.

Lemma map_snd_combine {X Y} (xs : list X) (ys : list Y) :
  List.length xs = List.length ys -> map snd (combine xs ys) = ys.
Proof.
  revert ys. induction xs as [| x xs IH]; intros [| y ys] H; cbn in *; try lia; [reflexivity |].
  rewrite IH by lia. reflexivity.
Qed.


Section KeyMap.
Context {K K' A : Type} (g : K' -> K' -> bool) (h : K -> K -> bool) (f : K -> K').
Hypothesis Hgh : forall a b, g (f a) (f b) = h a b.



End KeyMap.


(** The reordering half of [sorted(..., reverse=True)], on its own. *)
Lemma sorted_by_json_key_desc_perm (key : json -> Res json) (l l' : list json) :
  sorted_by_json_key_desc key l = Ok l' -> Permutation l' l.
Proof.
  unfold sorted_by_json_key_desc. intros H.
  apply bind_ok in H as [keys [Hk H]].
  destruct l as [| x0 [| x1 l0]]; [injection H as <-; reflexivity | injection H as <-; reflexivity |].
  destruct (forallb _ keys); [| discriminate]. injection H as <-.
  pose proof (res_map_length _ _ _ Hk).
  rewrite <- (map_snd_combine keys (x0 :: x1 :: l0)) at 2 by lia.
  apply Permutation_map, stable_sort_desc_perm.
Qed.




Lemma assoc_lookup_set_same (k : string) (v : json) (kvs : list (string * json)) :
  assoc_lookup k (assoc_set k v kvs) = Some v.
Proof.
  induction kvs as [| [k0 v0] r IH]; simpl.
  - rewrite String.eqb_refl. reflexivity.
  - destruct (String.eqb_spec k k0) as [<- | Hk0]; simpl.
    + rewrite String.eqb_refl. reflexivity.
    + destruct (String.eqb_spec k k0); [congruence | exact IH].
Qed.

(** The first SDK tab after [update_first_sdk f] is an image under [f], when
    [f] keeps the tab's name. *)
Lemma update_first_sdk_found (f : json -> Res json) (l l' : list json) (t : json) :
  (forall tab tab', f tab = Ok tab' -> py_get tab' "tab" JNull = py_get tab "tab" JNull) ->
  update_first_sdk f l = Ok l' ->
  first_tab_named sdk_tab_name l' = Ok (Some t) ->
  exists tab, f tab = Ok t.
Proof.
  intros Hf. revert l'. induction l as [| tab r IH]; intros l' Hu Hfirst.
  - injection Hu as <-. discriminate.
  - cbn [update_first_sdk] in Hu. apply bind_ok in Hu as [tn [Htn Hu]].
    destruct (py_eq_str tn sdk_tab_name) eqn:Ename.
    + apply bind_ok in Hu as [tab' [Htab' Hu]]. injection Hu as <-.
      cbn [first_tab_named] in Hfirst. rewrite (Hf _ _ Htab'), Htn in Hfirst.
      cbn [res_bind] in Hfirst. rewrite Ename in Hfirst. injection Hfirst as <-. eauto.
    + apply bind_ok in Hu as [r' [Hr' Hu]]. injection Hu as <-.
      cbn [first_tab_named] in Hfirst. rewrite Htn in Hfirst.
      cbn [res_bind] in Hfirst. rewrite Ename in Hfirst. exact (IH _ Hr' Hfirst).
Qed.

Lemma update_sdk_tab_found (f : json -> Res json) (docs docs' t : json) :
  (forall tab tab', f tab = Ok tab' -> py_get tab' "tab" JNull = py_get tab "tab" JNull) ->
  update_sdk_tab f docs = Ok docs' ->
  find_sdk_tab docs' = Ok (Some t) ->
  exists tab, f tab = Ok t.
Proof.
  intros Hf Hu Hfind. unfold update_sdk_tab in Hu.
  apply bind_ok in Hu as [nav [Hnav Hu]]. apply bind_ok in Hu as [tabs [Htabs Hu]].
  destruct tabs as [| | | | l |]; try discriminate.
  apply bind_ok in Hu as [l' [Hl' Hu]]. apply bind_ok in Hu as [nav' [Hnav' Hu]].
  destruct docs as [| | | | | kvs]; try discriminate. injection Hu as <-.
  destruct nav as [| | | | | nkvs]; try discriminate. injection Hnav' as <-.
  unfold find_sdk_tab in Hfind.
  do 4 (cbn [py_in py_getitem res_bind py_iter] in Hfind; rewrite ?assoc_lookup_set_same in Hfind).
  exact (update_first_sdk_found _ _ _ _ Hf Hl' Hfind).
Qed.

Definition json_scalar (v : json) : bool :=
  match v with JNull | JBool _ | JNum _ | JStr _ => true | _ => false end.

Lemma json_eqb_scalar (a b : json) :
  json_scalar a = true -> json_eqb a b = true <-> a = b.
Proof.
  intros Ha. split.
  - destruct a, b; try discriminate; cbn [json_eqb]; intros H.
    + reflexivity.
    + apply Bool.eqb_prop in H. now subst.
    + apply Z.eqb_eq in H. now subst.
    + apply String.eqb_eq in H. now subst.
  - intros <-. destruct a; try discriminate; cbn [json_eqb].
    + reflexivity.
    + apply Bool.eqb_reflx.
    + apply Z.eqb_refl.
    + apply String.eqb_refl.
Qed.

(** The hashed [dropdown] key of a dropdown, as [versions] is keyed. *)
Definition version_key (d : json) : Res json :=
  k <- py_get d "dropdown" JNull ;; hash_key k.

Definition versions_inv (vs : list (json * json)) : Prop :=
  NoDup (map fst vs)
  /\ Forall (fun p => version_key (snd p) = Ok (fst p) /\ json_scalar (fst p) = true) vs.

Lemma pydict_set_in_keys (k v x : json) (vs : list (json * json)) :
  In x (map fst (pydict_set k v vs)) -> x = k \/ In x (map fst vs).
Proof.
  induction vs as [| [k' v'] r IH]; cbn [pydict_set map fst].
  - intros [<- | []]. left; reflexivity.
  - destruct (json_eqb k k'); cbn [map fst].
    + intros [<- | Hin]; right; [left; reflexivity | right; exact Hin].
    + intros [<- | Hin]; [right; left; reflexivity |].
      destruct (IH Hin) as [-> | Hr]; [left; reflexivity | right; right; exact Hr].
Qed.

Lemma pydict_set_nodup (k v : json) (vs : list (json * json)) :
  json_scalar k = true -> NoDup (map fst vs) -> NoDup (map fst (pydict_set k v vs)).
Proof.
  intros Hk. induction vs as [| [k' v'] r IH]; cbn [pydict_set map fst]; intros Hnd.
  - repeat constructor. intros [].
  - inversion Hnd as [| ? ? Hn Hr]; subst.
    destruct (json_eqb k k') eqn:E; cbn [map fst].
    + exact Hnd.
    + assert (k' <> k) by (intros <-; rewrite (proj2 (json_eqb_scalar _ _ Hk) eq_refl) in E; discriminate).
      constructor; [| exact (IH Hr)].
      intros Hin. destruct (pydict_set_in_keys _ _ _ _ Hin); contradiction.
Qed.

Lemma pydict_set_forall (P : json * json -> Prop) (k v : json) (vs : list (json * json)) :
  json_scalar k = true -> P (k, v) -> Forall P vs -> Forall P (pydict_set k v vs).
Proof.
  intros Hk Hp. induction vs as [| [k' v'] r IH]; intros Hf; cbn [pydict_set].
  - repeat constructor. exact Hp.
  - inversion Hf as [| ? ? Hp' Hr]; subst.
    destruct (json_eqb k k') eqn:E.
    + apply (json_eqb_scalar _ _ Hk) in E as <-. constructor; assumption.
    + constructor; [exact Hp' | exact (IH Hr)].
Qed.

Lemma collect_versions_inv (vs vs' : list (json * json)) (ds : list json) :
  versions_inv vs -> collect_versions vs ds = Ok vs' -> versions_inv vs'.
Proof.
  revert vs. induction ds as [| d r IH]; intros vs [Hnd Hf] Hc; cbn [collect_versions] in Hc.
  - injection Hc as <-. split; assumption.
  - apply bind_ok in Hc as [k [Hk Hc]]. apply bind_ok in Hc as [hk [Hhk Hc]].
    refine (IH _ _ Hc).
    assert (Hs : json_scalar hk = true)
      by (destruct k; cbn [hash_key] in Hhk; try discriminate; injection Hhk as <-; reflexivity).
    split.
    + exact (pydict_set_nodup _ _ _ Hs Hnd).
    + apply pydict_set_forall; [exact Hs | | exact Hf].
      split; [| exact Hs]. cbn [snd fst]. unfold version_key. rewrite Hk. exact Hhk.
Qed.

Lemma py_setitem_dropdowns_tab (v tab tab' : json) :
  py_setitem tab "dropdowns" v = Ok tab' -> py_get tab' "tab" JNull = py_get tab "tab" JNull.
Proof.
  destruct tab as [| | | | | kvs]; try discriminate. intros H. injection H as <-.
  cbn [py_get]. rewrite assoc_lookup_set_other by discriminate. reflexivity.
Qed.

Lemma pydict_set_in_values (k v x : json) (vs : list (json * json)) :
  In x (map snd (pydict_set k v vs)) -> x = v \/ In x (map snd vs).
Proof.
  induction vs as [| [k' v'] r IH]; cbn [pydict_set map snd].
  - intros [<- | []]. left; reflexivity.
  - destruct (json_eqb k k'); cbn [map snd].
    + intros [<- | Hin]; [left; reflexivity | right; right; exact Hin].
    + intros [<- | Hin]; [right; left; reflexivity |].
      destruct (IH Hin) as [-> | Hr]; [left; reflexivity | right; right; exact Hr].
Qed.

Lemma collect_versions_values (vs vs' : list (json * json)) (ds : list json) (x : json) :
  collect_versions vs ds = Ok vs' -> In x (map snd vs') -> In x (map snd vs) \/ In x ds.
Proof.
  revert vs. induction ds as [| d r IH]; intros vs Hc Hin; cbn [collect_versions] in Hc.
  - injection Hc as <-. left; exact Hin.
  - apply bind_ok in Hc as [k [_ Hc]]. apply bind_ok in Hc as [hk [_ Hc]].
    destruct (IH _ Hc Hin) as [Hv | Hr].
    + destruct (pydict_set_in_values _ _ _ _ Hv) as [-> | Hv']; [right; left; reflexivity | left; exact Hv'].
    + right; right; exact Hr.
Qed.

(** [merge_docs_json], on the path that merges the production and generated
    SDK dropdowns (both SDK tabs and the local one present and non-empty, the
    production tab holding a [dropdowns] key): in the merged manifest no two
    SDK dropdowns share a [dropdown] key, and every one of them comes from the
    production or the generated SDK tab's dropdowns. *)
Theorem merge_docs_json_distinct_versions (P L G prod gen loc r : json) (ds : list json) :
  find_sdk_tab P = Ok (Some prod) -> truthy prod = true -> py_in "dropdowns" prod = Ok true ->
  find_sdk_tab G = Ok (Some gen) -> truthy gen = true ->
  find_sdk_tab L = Ok (Some loc) -> truthy loc = true ->
  merge_docs_json P L G = Ok r ->
  sdk_dropdowns r = Some ds ->
  NoDup (map version_key ds)
  /\ (forall d, In d ds ->
        exists tab ds0 l, (tab = prod \/ tab = gen)
                          /\ py_get tab "dropdowns" (JArr []) = Ok ds0
                          /\ py_iter ds0 = Ok l /\ In d l).
Proof.
  intros HP Hpt Hpin HG Hgt HL Hlt Hm Hds.
  unfold merge_docs_json in Hm. rewrite HP, HG, HL in Hm. cbn [res_bind] in Hm.
  rewrite Hgt, Hlt in Hm. cbn [andb] in Hm.
  apply bind_ok in Hm as [res1 [Hres1 Hm]].
  rewrite Hpt, Hpin in Hm. cbn [res_bind] in Hm.
  apply bind_ok in Hm as [gds [Hgds Hm]]. apply bind_ok in Hm as [pds [Hpds Hm]].
  apply bind_ok in Hm as [pl [Hpl Hm]]. apply bind_ok in Hm as [vs1 [Hvs1 Hm]].
  apply bind_ok in Hm as [gl [Hgl Hm]]. apply bind_ok in Hm as [vs2 [Hvs2 Hm]].
  apply bind_ok in Hm as [sv [Hsv Hm]].
  unfold sdk_dropdowns in Hds.
  destruct (find_sdk_tab r) as [[[| | | | | kvs] |] | cls] eqn:Ef; try discriminate.
  destruct (update_sdk_tab_found _ _ _ _ (py_setitem_dropdowns_tab (JArr sv)) Hm Ef) as [tab Htab].
  destruct tab as [| | | | | tkvs]; try discriminate. injection Htab as Hkvs. subst kvs.
  rewrite assoc_lookup_set_same in Hds. injection Hds as <-.
  pose proof (sorted_by_json_key_desc_perm _ _ _ Hsv) as Hperm.
  split.
  - assert (Hinv : versions_inv vs2).
    { apply (collect_versions_inv vs1 _ gl); [| exact Hvs2].
      apply (collect_versions_inv [] _ pl); [split; constructor | exact Hvs1]. }
    destruct Hinv as [Hnd Hf].
    assert (Hmap : map version_key (map snd vs2) = map Ok (map fst vs2)).
    { clear -Hf. induction vs2 as [| [k v] r IH]; [reflexivity |].
      inversion Hf as [| ? ? [Hk _] Hr]; subst. cbn [map fst snd] in *.
      rewrite Hk, (IH Hr). reflexivity. }
    apply (Permutation_NoDup (Permutation_map version_key (Permutation_sym Hperm))).
    rewrite Hmap. clear -Hnd. induction Hnd as [| k ks Hn _ IH]; cbn [map]; constructor; [| exact IH].
    rewrite in_map_iff. intros [k' [Hk' Hin]]. injection Hk' as ->. contradiction.
  - intros d Hd. apply (Permutation_in _ Hperm) in Hd.
    destruct (collect_versions_values _ _ _ _ Hvs2 Hd) as [H1 | H2].
    + destruct (collect_versions_values _ _ _ _ Hvs1 H1) as [[] | H1'].
      exists prod, pds, pl. auto.
    + exists gen, gds, gl. auto.
Qed.

Lemma merge_docs_json_distinct_versions_witness :
  NoDup (map version_key [mk_dropdown "v0.4.16"; mk_dropdown "v0.3.14"])
  /\ (forall d, In d [mk_dropdown "v0.4.16"; mk_dropdown "v0.3.14"] ->
        exists tab ds0 l, (tab = mk_sdk_tab [mk_dropdown "v0.3.14"; mk_dropdown "v0.4.16"]
                           \/ tab = mk_sdk_tab [mk_dropdown "v0.4.16"])
                          /\ py_get tab "dropdowns" (JArr []) = Ok ds0
                          /\ py_iter ds0 = Ok l /\ In d l).
Proof.
  apply (merge_docs_json_distinct_versions
           (mk_manifest [mk_sdk_tab [mk_dropdown "v0.3.14"; mk_dropdown "v0.4.16"]])
           (mk_manifest [mk_sdk_tab [mk_dropdown "latest"]])
           (mk_manifest [mk_sdk_tab [mk_dropdown "v0.4.16"]])
           (mk_sdk_tab [mk_dropdown "v0.3.14"; mk_dropdown "v0.4.16"])
           (mk_sdk_tab [mk_dropdown "v0.4.16"])
           (mk_sdk_tab [mk_dropdown "latest"])
           (mk_manifest [mk_sdk_tab [mk_dropdown "v0.4.16"; mk_dropdown "v0.3.14"]]));
    vm_compute; reflexivity.
Defined.

(** ** Re-running [update_navigation] *)

Definition nav_tabs_of (kvs : list (string * json)) (nkvs : list (string * json))
  (tabs : list json) : json :=
  JObj (assoc_set "navigation" (JObj (assoc_set "tabs" (JArr tabs) nkvs)) kvs).

(** The dropdown list of the tab [update_navigation] looks for, for
    stating results. *)
Definition nav_tab_dropdowns (name : string) (docs : json) : option (list json) :=
  match docs with
  | JObj kvs =>
      match assoc_lookup "navigation" kvs with
      | Some (JObj nkvs) =>
          match assoc_lookup "tabs" nkvs with
          | Some (JArr tabs) =>
              match find_sdk_index name 0 tabs with
              | Ok (Some i) =>
                  match nth i tabs JNull with
                  | JObj tkvs =>
                      match assoc_lookup "dropdowns" tkvs with Some (JArr l) => Some l | _ => None end
                  | _ => None
                  end
              | _ => None
              end
          | _ => None
          end
      | _ => None
      end
  | _ => None
  end.

Lemma update_navigation_found_inv (name : string) (kvs nkvs : list (string * json))
    (tabs : list json) (i : nat) (nav tn d1 : json) :
  assoc_lookup "navigation" kvs = Some (JObj nkvs) ->
  assoc_lookup "tabs" nkvs = Some (JArr tabs) ->
  find_sdk_index name 0 tabs = Ok (Some i) ->
  py_in "dropdowns" (nth i tabs JNull) = Ok true ->
  py_in "dropdowns" nav = Ok true ->
  py_getitem nav "tab" = Ok tn ->
  update_navigation name (JObj kvs) nav = Ok d1 ->
  exists tkvs ED nd L,
    nth i tabs JNull = JObj tkvs /\ assoc_lookup "dropdowns" tkvs = Some ED
    /\ merge_new_dropdown ED nav = Ok (nd, L)
    /\ d1 = nav_tabs_of kvs nkvs
              (list_set i (JObj (assoc_set "tab" tn (assoc_set "dropdowns" (JArr L) tkvs))) tabs).
Proof.
  intros Hn Ht Hf Hc1 Hc2 Htn H.
  assert (Htr : truthy (JObj kvs) = true) by (destruct kvs; [discriminate | reflexivity]).
  unfold update_navigation in H. rewrite Htr in H. cbn [negb] in H.
  cbn [py_in py_getitem res_bind] in H. rewrite Hn in H. cbn [res_bind py_in py_getitem] in H.
  rewrite Hn in H. cbn [res_bind py_in py_getitem] in H.
  rewrite Ht in H. cbn [res_bind py_in py_getitem py_iter] in H.
  rewrite Ht in H. cbn [res_bind py_in py_getitem py_iter] in H.
  rewrite Hf in H. cbn [res_bind] in H.
  rewrite Hc1 in H. cbn [res_bind] in H. rewrite Hc2 in H. cbn [res_bind andb] in H.
  apply bind_ok in H as [new_tabs [Hnt H]].
  cbn [py_setitem res_bind] in H. injection H as <-.
  apply bind_ok in Hnt as [ED [HED Hnt]].
  apply bind_ok in Hnt as [[nd L] [Hm Hnt]].
  destruct (nth i tabs JNull) as [| | | | | tkvs]; try discriminate.
  cbn [py_getitem] in HED. destruct (assoc_lookup "dropdowns" tkvs) as [ED' |] eqn:EED; [| discriminate].
  injection HED as <-.
  cbn [py_setitem res_bind] in Hnt. rewrite Htn in Hnt. cbn [py_setitem res_bind] in Hnt.
  injection Hnt as <-.
  exists tkvs, ED', nd, L. repeat split; assumption.
Qed.


Lemma update_navigation_found_eq (name : string) (kvs nkvs tkvs : list (string * json))
    (tabs : list json) (i : nat) (nav tn ED nd : json) (L : list json) :
  assoc_lookup "navigation" kvs = Some (JObj nkvs) ->
  assoc_lookup "tabs" nkvs = Some (JArr tabs) ->
  find_sdk_index name 0 tabs = Ok (Some i) ->
  nth i tabs JNull = JObj tkvs ->
  assoc_lookup "dropdowns" tkvs = Some ED ->
  py_in "dropdowns" nav = Ok true ->
  py_getitem nav "tab" = Ok tn ->
  merge_new_dropdown ED nav = Ok (nd, L) ->
  update_navigation name (JObj kvs) nav
  = Ok (nav_tabs_of kvs nkvs
          (list_set i (JObj (assoc_set "tab" tn (assoc_set "dropdowns" (JArr L) tkvs))) tabs)).
Proof.
  intros Hn Ht Hf Hi HED Hc2 Htn Hm.
  assert (Htr : truthy (JObj kvs) = true) by (destruct kvs; [discriminate | reflexivity]).
  unfold update_navigation. rewrite Htr. cbn [negb].
  cbn [py_in py_getitem res_bind]. rewrite Hn. cbn [res_bind py_in py_getitem].
  rewrite Hn. cbn [res_bind py_in py_getitem].
  rewrite Ht. cbn [res_bind py_in py_getitem py_iter].
  rewrite Ht. cbn [res_bind py_in py_getitem py_iter].
  rewrite Hf. cbn [res_bind]. rewrite Hi. cbn [py_in py_getitem]. rewrite HED.
  cbn [res_bind]. rewrite Hc2. cbn [res_bind andb].
  rewrite Hm. cbn [res_bind py_setitem]. rewrite Htn. reflexivity.
Qed.

Lemma find_sdk_index_bounds (name : string) (k : nat) (tabs : list json) (j : nat) :
  find_sdk_index name k tabs = Ok (Some j) -> k <= j < k + List.length tabs.
Proof.
  revert k. induction tabs as [| tab r IH]; intros k H; cbn [find_sdk_index] in H.
  - discriminate.
  - apply bind_ok in H as [t [_ H]]. cbn [List.length].
    destruct (py_eq_str t name); [injection H as <-; lia |].
    apply bind_ok in H as [h [_ H]].
    destruct (py_eq_str t "API Reference" && truthy h); [injection H as <-; lia |].
    specialize (IH _ H). lia.
Qed.

Lemma find_sdk_index_list_set (name : string) (k : nat) (tabs : list json) (j : nat) (x : json) :
  find_sdk_index name k tabs = Ok (Some j) ->
  py_get x "tab" JNull = Ok (JStr name) ->
  find_sdk_index name k (list_set (j - k) x tabs) = Ok (Some j).
Proof.
  intros H Hx. pose proof (find_sdk_index_bounds _ _ _ _ H) as Hb.
  revert k H Hb. induction tabs as [| tab r IH]; intros k H Hb; cbn [find_sdk_index] in H.
  - discriminate.
  - assert (Hx' : find_sdk_index name k (x :: r) = Ok (Some k)).
    { cbn [find_sdk_index]. rewrite Hx. cbn [res_bind py_eq_str]. rewrite String.eqb_refl. reflexivity. }
    apply bind_ok in H as [t [Ht H]].
    destruct (py_eq_str t name) eqn:E1.
    { injection H as <-. rewrite Nat.sub_diag. exact Hx'. }
    apply bind_ok in H as [h [Hh H]].
    destruct (py_eq_str t "API Reference" && truthy h) eqn:E2.
    { injection H as <-. rewrite Nat.sub_diag. exact Hx'. }
    pose proof (find_sdk_index_bounds _ _ _ _ H) as Hb'.
    replace (j - k) with (S (j - S k)) by lia. cbn [list_set find_sdk_index].
    rewrite Ht. cbn [res_bind]. rewrite E1, Hh. cbn [res_bind]. rewrite E2.
    exact (IH _ H Hb').
Qed.

Lemma nth_list_set {X} (i : nat) (x d : X) (l : list X) :
  i < List.length l -> nth i (list_set i x l) d = x.
Proof.
  revert i. induction l as [| y r IH]; intros [| i] H; cbn in *; try lia; [reflexivity |].
  apply IH. lia.
Qed.

Lemma list_set_list_set {X} (i : nat) (x y : X) (l : list X) :
  list_set i x (list_set i y l) = list_set i x l.
Proof.
  revert i. induction l as [| z r IH]; intros [| i]; cbn; [reflexivity | reflexivity | reflexivity |].
  rewrite IH. reflexivity.
Qed.

Lemma assoc_set_lookup_id (k : string) (v : json) (kvs : list (string * json)) :
  assoc_lookup k kvs = Some v -> assoc_set k v kvs = kvs.
Proof.
  induction kvs as [| [k0 v0] r IH]; cbn; [discriminate |].
  destruct (String.eqb_spec k k0) as [-> | Hne].
  - intros H. injection H as ->. reflexivity.
  - intros H. rewrite (IH H). reflexivity.
Qed.

Lemma sort_dropdowns_vkeys (ds l : list json) :
  sort_dropdowns ds = Ok l -> Forall (fun d => exists k, dropdown_vkey d = Ok k) l.
Proof.
  unfold sort_dropdowns. intros H. apply bind_ok in H as [P [HP H]]. injection H as <-.
  destruct (res_map_keyed_ok _ _ HP) as [_ HPk].
  apply Forall_map.
  apply (Permutation_Forall (Permutation_sym (stable_sort_desc_perm vkey_geb P))).
  eapply Forall_impl; [| exact HPk]. intros [k d] Hk. exists k. exact Hk.
Qed.

Lemma sort_dropdowns_total (ds : list json) :
  Forall (fun d => exists k, dropdown_vkey d = Ok k) ds -> exists l, sort_dropdowns ds = Ok l.
Proof.
  intros H. unfold sort_dropdowns.
  assert (HP : exists P, res_map keyed_dropdown ds = Ok P).
  { induction H as [| d r [k Hk] _ [P HP]]; [exists []; reflexivity |].
    exists ((k, d) :: P). cbn [res_map]. rewrite HP. unfold keyed_dropdown. rewrite Hk.
    reflexivity. }
  destruct HP as [P ->]. eexists. reflexivity.
Qed.

Lemma dropdown_vkey_str (nd : json) (s : string) :
  py_getitem nd "dropdown" = Ok (JStr s) -> exists k, dropdown_vkey nd = Ok k.
Proof.
  destruct nd as [| | | | | kvs]; try discriminate. cbn [py_getitem].
  destruct (assoc_lookup "dropdown" kvs) as [v |] eqn:E; [| discriminate].
  intros H. injection H as ->. unfold dropdown_vkey. cbn [py_get res_bind]. rewrite E.
  destruct (py_eq_str (JStr s) "latest"); [eexists; reflexivity |].
  destruct (all_some _); eexists; reflexivity.
Qed.

Lemma merge_new_dropdown_no_prefix (L : list json) (nav nds nd : json) (s : string) :
  py_getitem nav "dropdowns" = Ok nds -> py_index0 nds = Ok nd ->
  py_getitem nd "dropdown" = Ok (JStr s) -> re_match_v_major_minor s = None ->
  merge_new_dropdown (JArr L) nav = (L2 <- sort_dropdowns (L ++ [nd])%list ;; Ok (nd, L2)).
Proof.
  intros H1 H2 H3 H4. unfold merge_new_dropdown. rewrite H1. cbn [res_bind].
  rewrite H2. cbn [res_bind]. rewrite H3. cbn [res_bind]. rewrite H4. reflexivity.
Qed.

Lemma merge_new_dropdown_new (E nav nds nd nd' : json) (L : list json) :
  py_getitem nav "dropdowns" = Ok nds -> py_index0 nds = Ok nd ->
  merge_new_dropdown E nav = Ok (nd', L) -> nd' = nd.
Proof.
  intros H1 H2 H. unfold merge_new_dropdown in H. rewrite H1 in H. cbn [res_bind] in H.
  rewrite H2 in H. cbn [res_bind] in H.
  apply bind_ok in H as [v [_ H]]. apply bind_ok in H as [p [_ H]].
  apply bind_ok in H as [k [_ H]]. apply bind_ok in H as [sorted [_ H]].
  injection H as <- _. reflexivity.
Qed.

Lemma merge_new_dropdown_sorted (E nav nd : json) (L : list json) :
  merge_new_dropdown E nav = Ok (nd, L) -> exists X, sort_dropdowns X = Ok L.
Proof.
  intros H. unfold merge_new_dropdown in H.
  apply bind_ok in H as [nds [_ H]]. apply bind_ok in H as [nd0 [_ H]].
  apply bind_ok in H as [v [_ H]]. apply bind_ok in H as [p [_ H]].
  apply bind_ok in H as [k [_ H]]. apply bind_ok in H as [sorted [Hs H]].
  injection H as _ <-. eauto.
Qed.

Lemma list_set_length {X} (i : nat) (x : X) (l : list X) :
  List.length (list_set i x l) = List.length l.
Proof.
  revert i. induction l as [| y r IH]; intros [| i]; cbn; try reflexivity. rewrite IH. reflexivity.
Qed.

(** C6 (amended).  Let [update_navigation] find the SDK tab of a manifest,
    holding a [dropdowns] key, and merge into it a navigation structure
    named [name] whose first dropdown [nd] has the key [s].  Applying the
    same update to the result gives back the very same manifest when [s]
    starts with [v<major>.<minor>]; otherwise nothing is evicted: the tab's
    new dropdown list is the old one with [nd] added once more, sorted. *)
Theorem update_navigation_rerun (name : string) (kvs nkvs : list (string * json))
    (tabs : list json) (i : nat) (nav nds nd d1 : json) (s : string) :
  assoc_lookup "navigation" kvs = Some (JObj nkvs) ->
  assoc_lookup "tabs" nkvs = Some (JArr tabs) ->
  find_sdk_index name 0 tabs = Ok (Some i) ->
  py_in "dropdowns" (nth i tabs JNull) = Ok true ->
  py_getitem nav "tab" = Ok (JStr name) ->
  py_getitem nav "dropdowns" = Ok nds -> py_index0 nds = Ok nd ->
  py_getitem nd "dropdown" = Ok (JStr s) ->
  update_navigation name (JObj kvs) nav = Ok d1 ->
  (re_match_v_major_minor s <> None -> update_navigation name d1 nav = Ok d1)
  /\ (re_match_v_major_minor s = None ->
      exists L1 d2 L2,
        nav_tab_dropdowns name d1 = Some L1
        /\ update_navigation name d1 nav = Ok d2
        /\ nav_tab_dropdowns name d2 = Some L2
        /\ sort_dropdowns (L1 ++ [nd])%list = Ok L2
        /\ Permutation L2 (L1 ++ [nd])%list).
Proof.
  intros Hn Ht Hf Hc1 Htn Hnds Hnd Hs H1.
  assert (Hc2 : py_in "dropdowns" nav = Ok true).
  { destruct nav as [| | | | | nkv]; try discriminate. cbn [py_getitem] in Hnds. cbn [py_in].
    destruct (assoc_lookup "dropdowns" nkv); [reflexivity | discriminate]. }
  destruct (update_navigation_found_inv _ _ _ _ _ _ _ _ Hn Ht Hf Hc1 Hc2 Htn H1)
    as [tkvs [ED [nd' [L1 [Hi [HED [Hm ->]]]]]]].
  pose proof (merge_new_dropdown_new _ _ _ _ _ _ Hnds Hnd Hm) as ->.
  pose proof (find_sdk_index_bounds _ _ _ _ Hf) as Hb.
  set (tkvs1 := assoc_set "tab" (JStr name) (assoc_set "dropdowns" (JArr L1) tkvs)).
  set (tabs1 := list_set i (JObj tkvs1) tabs).
  set (nkvs1 := assoc_set "tabs" (JArr tabs1) nkvs).
  set (kvs1 := assoc_set "navigation" (JObj nkvs1) kvs).
  assert (Hn1 : assoc_lookup "navigation" kvs1 = Some (JObj nkvs1)) by apply assoc_lookup_set_same.
  assert (Ht1 : assoc_lookup "tabs" nkvs1 = Some (JArr tabs1)) by apply assoc_lookup_set_same.
  assert (Htab1 : assoc_lookup "tab" tkvs1 = Some (JStr name)) by apply assoc_lookup_set_same.
  assert (Hf1 : find_sdk_index name 0 tabs1 = Ok (Some i)).
  { pose proof (find_sdk_index_list_set name 0 tabs i (JObj tkvs1) Hf) as E.
    rewrite Nat.sub_0_r in E. apply E. cbn [py_get]. rewrite Htab1. reflexivity. }
  assert (Hi1 : nth i tabs1 JNull = JObj tkvs1) by (apply nth_list_set; lia).
  assert (HED1 : assoc_lookup "dropdowns" tkvs1 = Some (JArr L1)).
  { unfold tkvs1. rewrite assoc_lookup_set_other by discriminate. apply assoc_lookup_set_same. }
  change (nav_tabs_of kvs nkvs tabs1) with (JObj kvs1).
  split.
  - intros Hsome.
    assert (Hkey : dropdown_key nd = Some s).
    { destruct nd as [| | | | | dk]; try discriminate. cbn [py_getitem] in Hs. unfold dropdown_key.
      destruct (assoc_lookup "dropdown" dk) as [v |]; [| discriminate]. injection Hs as ->. reflexivity. }
    pose proof (proj1 (merge_new_dropdown_rerun_prefix _ _ _ _ _ Hm Hkey) Hsome) as Hm2.
    rewrite (update_navigation_found_eq _ _ _ _ _ _ _ _ _ _ _ Hn1 Ht1 Hf1 Hi1 HED1 Hc2 Htn Hm2).
    unfold nav_tabs_of.
    rewrite (assoc_set_lookup_id _ _ _ HED1), (assoc_set_lookup_id _ _ _ Htab1).
    unfold tabs1 at 1. rewrite list_set_list_set. fold tabs1.
    rewrite (assoc_set_lookup_id _ _ _ Ht1). fold nkvs1.
    rewrite (assoc_set_lookup_id _ _ _ Hn1). reflexivity.
  - intros Hnone.
    destruct (merge_new_dropdown_sorted _ _ _ _ Hm) as [X HX].
    destruct (sort_dropdowns_total (L1 ++ [nd])%list) as [L2 HL2].
    { apply Forall_app. split; [exact (sort_dropdowns_vkeys _ _ HX) |].
      constructor; [exact (dropdown_vkey_str _ _ Hs) | constructor]. }
    assert (Hm2 : merge_new_dropdown (JArr L1) nav = Ok (nd, L2)).
    { rewrite (merge_new_dropdown_no_prefix _ _ _ _ _ Hnds Hnd Hs Hnone), HL2. reflexivity. }
    set (tkvs2 := assoc_set "tab" (JStr name) (assoc_set "dropdowns" (JArr L2) tkvs1)).
    exists L1, (nav_tabs_of kvs1 nkvs1 (list_set i (JObj tkvs2) tabs1)), L2.
    split; [| split; [| split; [| split]]].
    + unfold nav_tab_dropdowns. rewrite Hn1, Ht1, Hf1, Hi1, HED1. reflexivity.
    + exact (update_navigation_found_eq _ _ _ _ _ _ _ _ _ _ _ Hn1 Ht1 Hf1 Hi1 HED1 Hc2 Htn Hm2).
    + unfold nav_tab_dropdowns, nav_tabs_of. rewrite !assoc_lookup_set_same.
      pose proof (find_sdk_index_list_set name 0 tabs1 i (JObj tkvs2) Hf1) as E.
      rewrite Nat.sub_0_r in E.
      rewrite E by (cbn [py_get]; unfold tkvs2; rewrite assoc_lookup_set_same; reflexivity).
      rewrite nth_list_set by (unfold tabs1; rewrite list_set_length; lia).
      unfold tkvs2. rewrite assoc_lookup_set_other by discriminate.
      rewrite assoc_lookup_set_same. reflexivity.
    + exact HL2.
    + exact (proj1 (sort_dropdowns_ok _ _ HL2)).
Qed.

(** C6 on two manifests: a new dropdown ["v0.4.17"] merged into the SDK tab
    holding ["v0.4.16"] and ["v0.3.14"] gives a manifest that a second run
    leaves as it is; a new dropdown ["latest"] merged into an SDK tab holding
    ["latest"] gets one more ["latest"] on the second run. *)
Lemma update_navigation_rerun_witness :
  (exists d1,
     update_navigation sdk_tab_name
       (mk_manifest [home_tab; mk_sdk_tab [mk_dropdown "v0.4.16"; mk_dropdown "v0.3.14"]])
       (mk_sdk_tab [mk_dropdown "v0.4.17"]) = Ok d1
     /\ update_navigation sdk_tab_name d1 (mk_sdk_tab [mk_dropdown "v0.4.17"]) = Ok d1)
  /\ (exists d1,
        update_navigation sdk_tab_name (mk_manifest [home_tab; mk_sdk_tab [mk_dropdown "latest"]])
          (mk_sdk_tab [mk_dropdown "latest"]) = Ok d1
        /\ exists L1 d2 L2,
             nav_tab_dropdowns sdk_tab_name d1 = Some L1
             /\ update_navigation sdk_tab_name d1 (mk_sdk_tab [mk_dropdown "latest"]) = Ok d2
             /\ nav_tab_dropdowns sdk_tab_name d2 = Some L2
             /\ sort_dropdowns (L1 ++ [mk_dropdown "latest"])%list = Ok L2
             /\ Permutation L2 (L1 ++ [mk_dropdown "latest"])%list).
Proof.
  split.
  - eexists. split; [vm_compute; reflexivity |].
    apply (update_navigation_rerun sdk_tab_name
             [("name", JStr "Pixeltable");
              ("navigation", JObj [("tabs", JArr [home_tab;
                  mk_sdk_tab [mk_dropdown "v0.4.16"; mk_dropdown "v0.3.14"]])])]
             [("tabs", JArr [home_tab; mk_sdk_tab [mk_dropdown "v0.4.16"; mk_dropdown "v0.3.14"]])]
             [home_tab; mk_sdk_tab [mk_dropdown "v0.4.16"; mk_dropdown "v0.3.14"]] 1
             (mk_sdk_tab [mk_dropdown "v0.4.17"]) (JArr [mk_dropdown "v0.4.17"])
             (mk_dropdown "v0.4.17") _ "v0.4.17");
      try (vm_compute; reflexivity).
    vm_compute. discriminate.
  - eexists. split; [vm_compute; reflexivity |].
    apply (update_navigation_rerun sdk_tab_name
             [("name", JStr "Pixeltable");
              ("navigation", JObj [("tabs", JArr [home_tab; mk_sdk_tab [mk_dropdown "latest"]])])]
             [("tabs", JArr [home_tab; mk_sdk_tab [mk_dropdown "latest"]])]
             [home_tab; mk_sdk_tab [mk_dropdown "latest"]] 1
             (mk_sdk_tab [mk_dropdown "latest"]) (JArr [mk_dropdown "latest"])
             (mk_dropdown "latest") _ "latest");
      vm_compute; reflexivity.
Defined.

(** ** The manifest [deploy] pushes *)

Lemma update_first_sdk_hit (f : json -> Res json) (l l' : list json) (tab : json) :
  (forall x x', f x = Ok x' -> py_get x' "tab" JNull = py_get x "tab" JNull) ->
  first_tab_named sdk_tab_name l = Ok (Some tab) ->
  update_first_sdk f l = Ok l' ->
  exists t', f tab = Ok t' /\ first_tab_named sdk_tab_name l' = Ok (Some t').
Proof.
  intros Hf. revert l'. induction l as [| x r IH]; intros l' Hfirst Hu; [discriminate |].
  cbn [first_tab_named] in Hfirst. cbn [update_first_sdk] in Hu.
  apply bind_ok in Hfirst as [tn [Htn Hfirst]]. rewrite Htn in Hu. cbn [res_bind] in Hu.
  destruct (py_eq_str tn sdk_tab_name) eqn:E.
  - injection Hfirst as <-. apply bind_ok in Hu as [x' [Hx' Hu]]. injection Hu as <-.
    exists x'. split; [exact Hx' |]. cbn [first_tab_named]. rewrite (Hf _ _ Hx'), Htn.
    cbn [res_bind]. rewrite E. reflexivity.
  - apply bind_ok in Hu as [r' [Hr' Hu]]. injection Hu as <-.
    destruct (IH _ Hfirst Hr') as [t' [Ht' Hr'first]]. exists t'. split; [exact Ht' |].
    cbn [first_tab_named]. rewrite Htn. cbn [res_bind]. rewrite E. exact Hr'first.
Qed.

Lemma update_sdk_tab_hit (f : json -> Res json) (docs docs' tab : json) :
  (forall x x', f x = Ok x' -> py_get x' "tab" JNull = py_get x "tab" JNull) ->
  find_sdk_tab docs = Ok (Some tab) ->
  update_sdk_tab f docs = Ok docs' ->
  exists t', f tab = Ok t' /\ find_sdk_tab docs' = Ok (Some t').
Proof.
  intros Hf Hfind Hu. unfold update_sdk_tab in Hu.
  apply bind_ok in Hu as [nav [Hnav Hu]]. apply bind_ok in Hu as [tabs [Htabs Hu]].
  destruct tabs as [| | | | l |]; try discriminate.
  apply bind_ok in Hu as [l' [Hl' Hu]]. apply bind_ok in Hu as [nav' [Hnav' Hu]].
  destruct docs as [| | | | | kvs]; try discriminate. injection Hu as <-.
  destruct nav as [| | | | | nkvs]; try discriminate. injection Hnav' as <-.
  cbn [py_getitem] in Hnav, Htabs.
  destruct (assoc_lookup "navigation" kvs) as [nv |] eqn:En; [| discriminate]. injection Hnav as ->.
  destruct (assoc_lookup "tabs" nkvs) as [tv |] eqn:Et; [| discriminate]. injection Htabs as ->.
  unfold find_sdk_tab in Hfind.
  do 4 (cbn [py_in py_getitem res_bind py_iter] in Hfind; rewrite ?En, ?Et in Hfind).
  destruct (update_first_sdk_hit _ _ _ _ Hf Hfind Hl') as [t' [Ht' Hfirst]].
  exists t'. split; [exact Ht' |].
  unfold find_sdk_tab.
  do 4 (cbn [py_in py_getitem res_bind py_iter]; rewrite ?assoc_lookup_set_same).
  exact Hfirst.
Qed.

Lemma single_latest_dropdown_ok (ds d : json) :
  single_latest_dropdown ds = Ok d -> ds = JArr [d] /\ py_getitem d "dropdown" = Ok (JStr "latest").
Proof.
  destruct ds as [| | | s | [| x [| y r]] | [| kv [| kv' r]]]; cbn [single_latest_dropdown];
    try discriminate;
    try (destruct (Nat.eqb (String.length s) 1); discriminate).
  intros H. apply bind_ok in H as [k [Hk H]].
  destruct (py_eq_str k "latest") eqn:E; [| discriminate]. injection H as <-.
  destruct k as [| | | ks | |]; try discriminate. cbn [py_eq_str] in E.
  apply String.eqb_eq in E as ->. split; [reflexivity | exact Hk].
Qed.

(** [add_versioned_dropdown] keeps the build's single ["latest"] dropdown
    as it is and appends the copy renamed to the display version, whose
    groups alone are path-rewritten. *)
Lemma add_versioned_dropdown_shape (dv : string) (nd nd' : json) :
  add_versioned_dropdown dv nd = Ok nd' ->
  exists latest c0 copy,
    sdk_dropdowns nd = Some [latest]
    /\ py_getitem latest "dropdown" = Ok (JStr "latest")
    /\ py_setitem latest "dropdown" (JStr dv) = Ok c0
    /\ replace_groups "sdk/latest/" ("sdk/" ++ dv ++ "/") c0 = Ok copy
    /\ sdk_dropdowns nd' = Some [latest; copy].
Proof.
  unfold add_versioned_dropdown. intros H.
  apply bind_ok in H as [st [Hst H]]. apply bind_ok in H as [tab [Htab H]].
  destruct st as [tab0 |]; [| discriminate]. injection Htab as Htab. subst tab0.
  apply bind_ok in H as [ds [Hds H]]. apply bind_ok in H as [latest [Hl H]].
  apply bind_ok in H as [c0 [Hc0 H]]. apply bind_ok in H as [copy [Hcopy H]].
  destruct (single_latest_dropdown_ok _ _ Hl) as [-> Hkey].
  destruct tab as [| | | | | tkvs]; try discriminate.
  cbn [py_getitem] in Hds.
  destruct (assoc_lookup "dropdowns" tkvs) as [v |] eqn:Ed; [| discriminate]. injection Hds as ->.
  assert (Hf : forall x x',
    (ds <- py_getitem x "dropdowns" ;;
     match ds with
     | JArr l => py_setitem x "dropdowns" (JArr (l ++ [copy])%list)
     | _ => Raise "AttributeError"
     end) = Ok x' -> py_get x' "tab" JNull = py_get x "tab" JNull).
  { intros x x' Hx. apply bind_ok in Hx as [y [_ Hx]].
    destruct y; try discriminate. exact (py_setitem_dropdowns_tab _ _ _ Hx). }
  destruct (update_sdk_tab_hit _ _ _ _ Hf Hst H) as [t' [Ht' Hfind']].
  cbn [py_getitem] in Ht'. rewrite Ed in Ht'. cbn [res_bind py_setitem app] in Ht'.
  injection Ht' as <-.
  exists latest, c0, copy. split; [| split; [exact Hkey | split; [exact Hc0 | split; [exact Hcopy |]]]].
  - unfold sdk_dropdowns. rewrite Hst, Ed. reflexivity.
  - unfold sdk_dropdowns. rewrite Hfind', assoc_lookup_set_same. reflexivity.
Qed.

Lemma path_prefixb_refl (p : path) : path_prefixb p p = true.
Proof. induction p as [| a p IH]; cbn; [reflexivity | rewrite String.eqb_refl; exact IH]. Qed.

Lemma load_json_write (p : path) (j : json) (t : tree) :
  load_json p (fs_write p (FJson j) t) = Ok j.
Proof.
  unfold load_json, fs_lookup, fs_write.
  assert (Hp : path_eqb p p = true)
    by (unfold path_eqb; rewrite path_prefixb_refl, Nat.eqb_refl; reflexivity).
  induction t as [| e r IH]; cbn [filter app find fst]; [rewrite Hp; reflexivity |].
  destruct (negb (path_eqb p (fst e))) eqn:E; [| exact IH].
  cbn [app find]. apply negb_true_iff in E. rewrite E. exact IH.
Qed.

(** C5 (amended).  Whenever [deploy] pushes a tree, the branch is [dev].
    The tree holds every file of the build's [sdk/latest/] both at its
    [sdk/latest/] path and under [sdk/<display version>/].  Its [docs.json]
    keeps the build's single ["latest"] dropdown unchanged (its page paths
    still under [sdk/latest/]) and appends the versioned copy, the only
    dropdown whose groups go through [replace_paths]. *)
Theorem deploy_pushes_latest_pages (pxt_version : string) (target : tree)
  (remote : list (string * tree)) (validation_errors : bool) (branch br : string) (t : tree) :
  deploy pxt_version (Some target) remote validation_errors branch = Ok (Some (br, t)) ->
  let dv := "v" ++ py_replace "+" "." pxt_version in
  br = "dev" /\ branch = "dev"
  /\ (forall rest c, In ((["sdk"; "latest"] ++ rest)%list, c) target ->
        (exists c', In ((["sdk"; "latest"] ++ rest)%list, c') t)
        /\ exists c', In ((["sdk"; dv] ++ rest)%list, c') t)
  /\ exists nd nd' latest c0 copy,
       load_json ["docs.json"] target = Ok nd
       /\ load_json ["docs.json"] t = Ok nd'
       /\ sdk_dropdowns nd = Some [latest]
       /\ py_getitem latest "dropdown" = Ok (JStr "latest")
       /\ sdk_dropdowns nd' = Some [latest; copy]
       /\ py_setitem latest "dropdown" (JStr dv) = Ok c0
       /\ replace_groups "sdk/latest/" ("sdk/" ++ dv ++ "/") c0 = Ok copy.
Proof.
  intros H. unfold deploy in H.
  cbn [res_bind] in H.
  apply bind_ok in H as [dv [Hdv H]].
  apply bind_ok in H as [cloned [Hcl H]].
  apply bind_ok in H as [existing [Hex H]].
  apply bind_ok in H as [new_docs [Hnd H]].
  cbv beta zeta in H.
  apply bind_ok in H as [repo1 [Hr1 H]].
  apply bind_ok in H as [repo2 [Hr2 H]].
  apply bind_ok in H as [repo3 [Hr3 H]].
  apply bind_ok in H as [new_docs' [Hnd' H]].
  apply bind_ok in H as [new_docs'' [Hmerge H]].
  destruct (String.eqb_spec branch "dev") as [-> | Hne].
  2: { destruct (merge_sdk_dropdowns_never_ok existing new_docs') as [cls Hcls].
       rewrite Hcls in Hmerge. discriminate. }
  injection Hmerge as <-.
  unfold display_version_of in Hdv. cbn [String.eqb] in Hdv. injection Hdv as <-.
  cbv beta zeta in H. cbn [negb] in H. rewrite andb_false_r in H.
  destruct (fs_same cloned _); [discriminate |].
  injection H as <- <-. cbv zeta.
  split; [reflexivity |]. split; [reflexivity |]. split.
  - intros rest c Hin. split.
    + apply fs_write_keeps.
      apply (copy_latest_sdk_keeps target repo2 repo3 ("v" ++ py_replace "+" "." pxt_version)
               ((["sdk"; "latest"] ++ rest)%list) eq_refl Hr3).
      * exact (copy_latest_sdk_adds target repo1 repo2 rest c Hr2 Hin).
    + apply fs_write_keeps. exact (copy_latest_sdk_adds_named _ _ _ _ _ _ Hr3 Hin).
  - destruct (add_versioned_dropdown_shape _ _ _ Hnd') as [latest [c0 [copy [H1 [H2 [H3 [H4 H5]]]]]]].
    exists new_docs, new_docs', latest, c0, copy.
    split; [exact Hnd |]. split; [apply load_json_write |].
    repeat split; assumption.
Qed.

(** C5 on the sample build deployed to [dev]: the page under [sdk/latest/]
    is pushed, and so is the build's ["latest"] dropdown. *)
Lemma deploy_pushes_latest_pages_witness :
  exists t, deploy "0.4.17" (Some target_tree) sample_remote false "dev" = Ok (Some ("dev", t))
            /\ (exists c', In ((["sdk"; "latest"] ++ ["foo.mdx"])%list, c') t)
            /\ exists nd', load_json ["docs.json"] t = Ok nd'
                           /\ sdk_dropdowns nd' = Some [latest_dropdown;
                                                       JObj [("dropdown", JStr "v0.4.17");
                                                             ("icon", JStr "book");
                                                             ("groups", JArr [JObj [("group", JStr "API");
                                                                ("pages", JArr [JStr "sdk/v0.4.17/foo"])]])]].
Proof.
  assert (E : exists t, deploy "0.4.17" (Some target_tree) sample_remote false "dev"
                        = Ok (Some ("dev", t)))
    by (eexists; vm_compute; reflexivity).
  destruct E as [t E]. exists t. split; [exact E |].
  destruct (deploy_pushes_latest_pages "0.4.17" target_tree sample_remote false "dev" "dev" t E)
    as [_ [_ [Hfiles [nd [nd' [latest [c0 [copy [Hnd [Hnd' [Hl [_ [Hl' [Hc0 Hcopy]]]]]]]]]]]]]].
  split; [exact (proj1 (Hfiles ["foo.mdx"] (FData "foo") ltac:(right; left; reflexivity))) |].
  exists nd'. split; [exact Hnd' |]. rewrite Hl'.
  vm_compute in Hnd. injection Hnd as <-. vm_compute in Hl. injection Hl as <-.
  vm_compute in Hc0. injection Hc0 as <-. vm_compute in Hcopy. injection Hcopy as <-.
  reflexivity.
Defined.
